(** * SceneManager: texture registry, material table and the
      transform-and-binding pipeline

    A shallow embedding of [src/SceneManager.cpp].  The scene manager is
    an object with four data members that matter here
    ([m_pShaderManager], [m_textureIDs], [m_loadedTextures],
    [m_objectMaterials]); it talks to two outside collaborators, the GL
    context and the shader manager, through calls that only write.  Both
    collaborators are modelled by the state they accumulate: the GL
    context by its texture-unit bindings and the trace of calls it
    received, the shader manager by the trace of uniform setters it
    received.

    C++ undefined behaviour that the source can reach (an array access
    outside [m_textureIDs], a call through a null [m_pShaderManager]) is
    made explicit with a [result] type. *)

From Stdlib Require Import ZArith QArith Ring Ring_theory List Lia.
From stdpp Require Import base list strings gmap.

Local Open Scope Z_scope.

(** ** Scalars

    The source computes with 32-bit [float].  Nothing below depends on
    how rounding behaves: the scalar type and its operations are
    abstract.  Lemmas that need algebraic laws (exact arithmetic) ask
    for them explicitly. *)

Class FloatOps := {
  float : Type;
  fzero : float;
  fone : float;
  fadd : float -> float -> float;
  fmul : float -> float -> float;
  fsub : float -> float -> float;
  fopp : float -> float;
  fcos : float -> float;
  fsin : float -> float;
  finversesqrt : float -> float;
  (* the constant glm::radians multiplies by, pi/180 *)
  deg2rad : float
}.

(** ** Faults: behaviour the C++ standard leaves undefined *)

Inductive fault :=
| OutOfBounds (index : Z)      (* m_textureIDs[index] outside the array *)
| NullDereference.             (* call through a null m_pShaderManager *)

Inductive result (A : Type) :=
| Ret (a : A)
| Fault (f : fault).

Arguments Ret {A} a.
Arguments Fault {A} f.

Definition bind {A B : Type} (r : result A) (k : A -> result B) : result B :=
  match r with
  | Ret a => k a
  | Fault f => Fault f
  end.

Notation "x <- r ;; k" := (bind r (fun x => k))
  (at level 100, r at next level, right associativity).

(** ** 32-bit integers

    [TEXTURE_INFO::ID] is a [GLuint] (its address is handed to
    [glGenTextures]); [FindTextureID] returns it as an [int]. *)

Definition GLuint_of_int (i : Z) : Z := i mod 2 ^ 32.

Definition int_of_GLuint (u : Z) : Z :=
  let m := u mod 2 ^ 32 in
  if m <? 2 ^ 31 then m else m - 2 ^ 32.

Section Scene.

Context {FO : FloatOps}.

(** ** glm vectors and matrices

    [glm::mat4] is column-major: [m[i]] is the i-th column. *)

Record vec2 := mkvec2 { v2x : float; v2y : float }.
Record vec3 := mkvec3 { v3x : float; v3y : float; v3z : float }.
Record vec4 := mkvec4 { v4x : float; v4y : float; v4z : float; v4w : float }.
Record mat4 := mkmat4 { col0 : vec4; col1 : vec4; col2 : vec4; col3 : vec4 }.

Definition vec4_add (a b : vec4) : vec4 :=
  mkvec4 (fadd (v4x a) (v4x b)) (fadd (v4y a) (v4y b))
         (fadd (v4z a) (v4z b)) (fadd (v4w a) (v4w b)).

(* vec4 * scalar *)
Definition vec4_scale (a : vec4) (s : float) : vec4 :=
  mkvec4 (fmul (v4x a) s) (fmul (v4y a) s) (fmul (v4z a) s) (fmul (v4w a) s).

(* glm::mat4(1.0f) *)
Definition mat4_identity : mat4 :=
  mkmat4 (mkvec4 fone fzero fzero fzero)
         (mkvec4 fzero fone fzero fzero)
         (mkvec4 fzero fzero fone fzero)
         (mkvec4 fzero fzero fzero fone).

(* operator*(mat4, vec4): m[0]*v.x + m[1]*v.y + m[2]*v.z + m[3]*v.w *)
Definition mat4_mul_vec (m : mat4) (v : vec4) : vec4 :=
  vec4_add
    (vec4_add (vec4_scale (col0 m) (v4x v)) (vec4_scale (col1 m) (v4y v)))
    (vec4_add (vec4_scale (col2 m) (v4z v)) (vec4_scale (col3 m) (v4w v))).

(* linear combination of the columns of [m] with the entries of [c]:
   one column of a matrix product *)
Definition mat4_mul_col (m : mat4) (c : vec4) : vec4 :=
  vec4_add
    (vec4_add
       (vec4_add (vec4_scale (col0 m) (v4x c)) (vec4_scale (col1 m) (v4y c)))
       (vec4_scale (col2 m) (v4z c)))
    (vec4_scale (col3 m) (v4w c)).

(* operator*(mat4, mat4) *)
Definition mat4_mul (m1 m2 : mat4) : mat4 :=
  mkmat4 (mat4_mul_col m1 (col0 m2)) (mat4_mul_col m1 (col1 m2))
         (mat4_mul_col m1 (col2 m2)) (mat4_mul_col m1 (col3 m2)).

(* glm::radians *)
Definition glm_radians (degrees : float) : float := fmul degrees deg2rad.

(* glm::normalize on vec3: v * inversesqrt(dot(v, v)) *)
Definition glm_normalize (v : vec3) : vec3 :=
  let d := fadd (fadd (fmul (v3x v) (v3x v)) (fmul (v3y v) (v3y v)))
                (fmul (v3z v) (v3z v)) in
  let k := finversesqrt d in
  mkvec3 (fmul (v3x v) k) (fmul (v3y v) k) (fmul (v3z v) k).

(* glm::scale(v) = scale(mat4(1), v) *)
Definition glm_scale (v : vec3) : mat4 :=
  let m := mat4_identity in
  mkmat4 (vec4_scale (col0 m) (v3x v)) (vec4_scale (col1 m) (v3y v))
         (vec4_scale (col2 m) (v3z v)) (col3 m).

(* glm::translate(v) = translate(mat4(1), v) *)
Definition glm_translate (v : vec3) : mat4 :=
  let m := mat4_identity in
  mkmat4 (col0 m) (col1 m) (col2 m)
         (vec4_add
            (vec4_add
               (vec4_add (vec4_scale (col0 m) (v3x v))
                         (vec4_scale (col1 m) (v3y v)))
               (vec4_scale (col2 m) (v3z v)))
            (col3 m)).

(* glm::rotate(angle, v) = rotate(mat4(1), angle, v) *)
Definition glm_rotate (angle : float) (v : vec3) : mat4 :=
  let m := mat4_identity in
  let c := fcos angle in
  let s := fsin angle in
  let axis := glm_normalize v in
  let t := fsub fone c in
  let temp := mkvec3 (fmul t (v3x axis)) (fmul t (v3y axis)) (fmul t (v3z axis)) in
  let r00 := fadd c (fmul (v3x temp) (v3x axis)) in
  let r01 := fadd (fmul (v3x temp) (v3y axis)) (fmul s (v3z axis)) in
  let r02 := fsub (fmul (v3x temp) (v3z axis)) (fmul s (v3y axis)) in
  let r10 := fsub (fmul (v3y temp) (v3x axis)) (fmul s (v3z axis)) in
  let r11 := fadd c (fmul (v3y temp) (v3y axis)) in
  let r12 := fadd (fmul (v3y temp) (v3z axis)) (fmul s (v3x axis)) in
  let r20 := fadd (fmul (v3z temp) (v3x axis)) (fmul s (v3y axis)) in
  let r21 := fsub (fmul (v3z temp) (v3y axis)) (fmul s (v3x axis)) in
  let r22 := fadd c (fmul (v3z temp) (v3z axis)) in
  let lin a b d :=
    vec4_add (vec4_add (vec4_scale (col0 m) a) (vec4_scale (col1 m) b))
             (vec4_scale (col2 m) d) in
  mkmat4 (lin r00 r01 r02) (lin r10 r11 r12) (lin r20 r21 r22) (col3 m).

(** ** The shader-uniform interface

    [ShaderManager] only receives named setter calls; its state is the
    sequence of calls received, oldest first. *)

Inductive uniform_call :=
| setMat4Value (name : string) (m : mat4)
| setIntValue (name : string) (v : Z)
| setBoolValue (name : string) (v : bool)
| setFloatValue (name : string) (v : float)
| setVec2Value (name : string) (v : vec2)
| setVec3Value (name : string) (v : vec3)
| setVec4Value (name : string) (v : vec4)
| setSampler2DValue (name : string) (slot : Z).

Definition ShaderManager := list uniform_call.

Definition uniform_name (c : uniform_call) : string :=
  match c with
  | setMat4Value n _ | setIntValue n _ | setBoolValue n _
  | setFloatValue n _ | setVec2Value n _ | setVec3Value n _
  | setVec4Value n _ | setSampler2DValue n _ => n
  end.

(* the value a uniform currently holds: the latest call that named it *)
Fixpoint current_uniform (name : string) (calls : ShaderManager)
  : option uniform_call :=
  match calls with
  | [] => None
  | c :: rest =>
      match current_uniform name rest with
      | Some c' => Some c'
      | None => if String.eqb (uniform_name c) name then Some c else None
      end
  end.

Definition g_ModelName : string := "model".
Definition g_ColorValueName : string := "objectColor".
Definition g_TextureValueName : string := "objectTexture".
Definition g_UseTextureName : string := "bUseTexture".
Definition g_UseLightingName : string := "bUseLighting".

(** ** The GL context

    Only the part of the context the scene manager drives: texture
    names, the active texture unit, the 2D-texture binding of each unit,
    and the calls received, oldest first. *)

Inductive gl_enum :=
| GL_TEXTURE_WRAP_S | GL_TEXTURE_WRAP_T
| GL_TEXTURE_MIN_FILTER | GL_TEXTURE_MAG_FILTER
| GL_REPEAT | GL_LINEAR
| GL_RGB8 | GL_RGB | GL_RGBA8 | GL_RGBA.

Inductive gl_call :=
| GenTextures (name : Z)
| DeleteTextures (name : Z)
| BindTexture (name : Z)
| ActiveTexture (unit : Z)
| TexParameteri (pname param : gl_enum)
| TexImage2D (internalformat : gl_enum) (width height : Z) (format : gl_enum)
| GenerateMipmap.

Record GLcontext := mkGL {
  gl_names : list Z;          (* texture names generated and not deleted *)
  gl_active : Z;              (* active texture unit, GL_TEXTURE0 + n as n *)
  gl_units : gmap Z Z;        (* GL_TEXTURE_2D binding of each unit *)
  gl_trace : list gl_call
}.

Definition gl_log (c : gl_call) (g : GLcontext) : GLcontext :=
  mkGL (gl_names g) (gl_active g) (gl_units g) (gl_trace g ++ [c]).

(* a name not in use: one above the largest name in use *)
Definition gl_fresh (g : GLcontext) : Z :=
  1 + fold_right Z.max 0 (gl_names g).

(* glGenTextures(1, &out): the name written to [out], and the context *)
Definition glGenTextures (g : GLcontext) : Z * GLcontext :=
  let n := gl_fresh g in
  (n, gl_log (GenTextures n)
        (mkGL (n :: gl_names g) (gl_active g) (gl_units g) (gl_trace g))).

(* glDeleteTextures(1, &name): the source never calls it *)
Definition glDeleteTextures (name : Z) (g : GLcontext) : GLcontext :=
  gl_log (DeleteTextures name)
    (mkGL (filter (fun n => n <> name) (gl_names g)) (gl_active g)
          ((fun n => if decide (n = name) then 0 else n) <$> gl_units g)
          (gl_trace g)).

(* glActiveTexture(GL_TEXTURE0 + unit) *)
Definition glActiveTexture (unit : Z) (g : GLcontext) : GLcontext :=
  gl_log (ActiveTexture unit)
    (mkGL (gl_names g) unit (gl_units g) (gl_trace g)).

(* glBindTexture(GL_TEXTURE_2D, name) *)
Definition glBindTexture (name : Z) (g : GLcontext) : GLcontext :=
  gl_log (BindTexture name)
    (mkGL (gl_names g) (gl_active g) (<[gl_active g := name]> (gl_units g))
          (gl_trace g)).

Definition glTexParameteri (pname param : gl_enum) (g : GLcontext) : GLcontext :=
  gl_log (TexParameteri pname param) g.

Definition glTexImage2D (internalformat : gl_enum) (width height : Z)
    (format : gl_enum) (g : GLcontext) : GLcontext :=
  gl_log (TexImage2D internalformat width height format) g.

Definition glGenerateMipmap (g : GLcontext) : GLcontext :=
  gl_log GenerateMipmap g.

(** ** The image decoder

    [stbi_load] either fails or yields a pixel buffer with its width,
    height and channel count; the buffer's content plays no role. *)

Record image := mkimage { width : Z; height : Z; colorChannels : Z }.

Variable stbi_load : string -> option image.

(** ** The scene manager *)

Record TEXTURE_INFO := mkTEXTURE_INFO { tag : string; ID : Z }.

Record OBJECT_MATERIAL := mkOBJECT_MATERIAL {
  ambientColor : vec3;
  ambientStrength : float;
  diffuseColor : vec3;
  specularColor : vec3;
  shininess : float;
  material_tag : string
}.

(* The object's data members, and the GL context it runs against.
   [m_pShaderManager] is [None] for a null pointer and otherwise holds
   the state of the shader manager pointed to. *)
Record SceneManager := mkSceneManager {
  m_pShaderManager : option ShaderManager;
  m_textureIDs : list TEXTURE_INFO;       (* TEXTURE_INFO m_textureIDs[16] *)
  m_loadedTextures : Z;
  m_objectMaterials : list OBJECT_MATERIAL;
  gl : GLcontext
}.

Definition set_shader (sh : option ShaderManager) (st : SceneManager) :=
  mkSceneManager sh (m_textureIDs st) (m_loadedTextures st)
                 (m_objectMaterials st) (gl st).

Definition set_gl (g : GLcontext) (st : SceneManager) :=
  mkSceneManager (m_pShaderManager st) (m_textureIDs st) (m_loadedTextures st)
                 (m_objectMaterials st) g.

Definition set_textures (arr : list TEXTURE_INFO) (n : Z) (st : SceneManager) :=
  mkSceneManager (m_pShaderManager st) arr n (m_objectMaterials st) (gl st).

Definition set_materials (ms : list OBJECT_MATERIAL) (st : SceneManager) :=
  mkSceneManager (m_pShaderManager st) (m_textureIDs st) (m_loadedTextures st)
                 ms (gl st).

(* arr[i], with the out-of-range access made explicit *)
Definition array_read {A : Type} (arr : list A) (i : Z) : result A :=
  if i <? 0 then Fault (OutOfBounds i)
  else match arr !! Z.to_nat i with
       | Some a => Ret a
       | None => Fault (OutOfBounds i)
       end.

(* arr[i] = a *)
Definition array_write {A : Type} (arr : list A) (i : Z) (a : A)
  : result (list A) :=
  if i <? 0 then Fault (OutOfBounds i)
  else match arr !! Z.to_nat i with
       | Some _ => Ret (<[Z.to_nat i := a]> arr)
       | None => Fault (OutOfBounds i)
       end.

(* SceneManager::SceneManager *)
Definition SceneManager_ctor (pShaderManager : option ShaderManager)
    (g : GLcontext) : SceneManager :=
  mkSceneManager pShaderManager
    (replicate 16 (mkTEXTURE_INFO "/0" (GLuint_of_int (-1))))
    0 [] g.

(* SceneManager::CreateGLTexture *)
Definition CreateGLTexture (filename : string) (tag' : string)
    (st : SceneManager) : result (bool * SceneManager) :=
  match stbi_load filename with
  | Some img =>
      let '(textureID, g) := glGenTextures (gl st) in
      let g := glBindTexture textureID g in
      let g := glTexParameteri GL_TEXTURE_WRAP_S GL_REPEAT g in
      let g := glTexParameteri GL_TEXTURE_WRAP_T GL_REPEAT g in
      let g := glTexParameteri GL_TEXTURE_MIN_FILTER GL_LINEAR g in
      let g := glTexParameteri GL_TEXTURE_MAG_FILTER GL_LINEAR g in
      let upload :=
        if colorChannels img =? 3 then
          Some (glTexImage2D GL_RGB8 (width img) (height img) GL_RGB g)
        else if colorChannels img =? 4 then
          Some (glTexImage2D GL_RGBA8 (width img) (height img) GL_RGBA g)
        else None in
      match upload with
      | None => Ret (false, set_gl g st)
      | Some g =>
          let g := glGenerateMipmap g in
          let g := glBindTexture 0 g in
          arr <- array_write (m_textureIDs st) (m_loadedTextures st)
                             (mkTEXTURE_INFO tag' textureID) ;;
          Ret (true, set_gl g (set_textures arr (m_loadedTextures st + 1) st))
      end
  | None => Ret (false, st)
  end.

(* SceneManager::BindGLTextures.  The [for] loop runs
   [m_loadedTextures] times (no times when that is not positive);
   [remaining] counts the iterations left. *)
Fixpoint BindGLTextures_loop (arr : list TEXTURE_INFO) (remaining : nat)
    (i : Z) (g : GLcontext) : result GLcontext :=
  match remaining with
  | O => Ret g
  | S n =>
      e <- array_read arr i ;;
      BindGLTextures_loop arr n (i + 1)
        (glBindTexture (ID e) (glActiveTexture i g))
  end.

Definition BindGLTextures (st : SceneManager) : result SceneManager :=
  g <- BindGLTextures_loop (m_textureIDs st)
         (Z.to_nat (m_loadedTextures st)) 0 (gl st) ;;
  Ret (set_gl g st).

(* SceneManager::DestroyGLTextures *)
Fixpoint DestroyGLTextures_loop (remaining : nat) (i : Z)
    (arr : list TEXTURE_INFO) (g : GLcontext)
  : result (list TEXTURE_INFO * GLcontext) :=
  match remaining with
  | O => Ret (arr, g)
  | S n =>
      e <- array_read arr i ;;
      let '(name, g) := glGenTextures g in
      arr <- array_write arr i (mkTEXTURE_INFO (tag e) name) ;;
      DestroyGLTextures_loop n (i + 1) arr g
  end.

Definition DestroyGLTextures (st : SceneManager) : result SceneManager :=
  r <- DestroyGLTextures_loop (Z.to_nat (m_loadedTextures st)) 0
         (m_textureIDs st) (gl st) ;;
  Ret (set_gl (snd r) (set_textures (fst r) (m_loadedTextures st) st)).

(* SceneManager::FindTextureID.  The [while] loop leaves as soon as
   [bFound] is set; until then it runs while [index < m_loadedTextures]. *)
Fixpoint FindTextureID_loop (arr : list TEXTURE_INFO) (tag' : string)
    (remaining : nat) (index : Z) : result Z :=
  match remaining with
  | O => Ret (-1)
  | S n =>
      e <- array_read arr index ;;
      if String.eqb (tag e) tag' then Ret (int_of_GLuint (ID e))
      else FindTextureID_loop arr tag' n (index + 1)
  end.

Definition FindTextureID (tag' : string) (st : SceneManager) : result Z :=
  FindTextureID_loop (m_textureIDs st) tag'
    (Z.to_nat (m_loadedTextures st)) 0.

(* SceneManager::FindTextureSlot *)
Fixpoint FindTextureSlot_loop (arr : list TEXTURE_INFO) (tag' : string)
    (remaining : nat) (index : Z) : result Z :=
  match remaining with
  | O => Ret (-1)
  | S n =>
      e <- array_read arr index ;;
      if String.eqb (tag e) tag' then Ret index
      else FindTextureSlot_loop arr tag' n (index + 1)
  end.

Definition FindTextureSlot (tag' : string) (st : SceneManager) : result Z :=
  FindTextureSlot_loop (m_textureIDs st) tag'
    (Z.to_nat (m_loadedTextures st)) 0.

(* SceneManager::FindMaterial.  [material] is the caller's object the
   reference parameter designates; the function hands it back next to
   its return value.  The loop walks the vector from index 0 and stops
   at the first element whose tag compares equal. *)
Fixpoint FindMaterial_loop (ms : list OBJECT_MATERIAL) (tag' : string)
    (material : OBJECT_MATERIAL) : OBJECT_MATERIAL :=
  match ms with
  | [] => material
  | m :: rest =>
      if String.eqb (material_tag m) tag' then
        mkOBJECT_MATERIAL (ambientColor m) (ambientStrength m)
          (diffuseColor m) (specularColor m) (shininess m)
          (material_tag material)
      else FindMaterial_loop rest tag' material
  end.

Definition FindMaterial (tag' : string) (material : OBJECT_MATERIAL)
    (st : SceneManager) : bool * OBJECT_MATERIAL :=
  if Z.of_nat (length (m_objectMaterials st)) =? 0 then (false, material)
  else (true, FindMaterial_loop (m_objectMaterials st) tag' material).

(* SceneManager::SetTransformations *)
Definition SetTransformations (scaleXYZ : vec3)
    (XrotationDegrees YrotationDegrees ZrotationDegrees : float)
    (positionXYZ : vec3) (st : SceneManager) : SceneManager :=
  let scale := glm_scale scaleXYZ in
  let rotationX :=
    glm_rotate (glm_radians XrotationDegrees) (mkvec3 fone fzero fzero) in
  let rotationY :=
    glm_rotate (glm_radians YrotationDegrees) (mkvec3 fzero fone fzero) in
  let rotationZ :=
    glm_rotate (glm_radians ZrotationDegrees) (mkvec3 fzero fzero fone) in
  let translation := glm_translate positionXYZ in
  let modelView :=
    mat4_mul (mat4_mul (mat4_mul (mat4_mul translation rotationX) rotationY)
                       rotationZ) scale in
  match m_pShaderManager st with
  | Some sh => set_shader (Some (sh ++ [setMat4Value g_ModelName modelView])) st
  | None => st
  end.

(* SceneManager::SetShaderColor *)
Definition SetShaderColor
    (redColorValue greenColorValue blueColorValue alphaValue : float)
    (st : SceneManager) : SceneManager :=
  let currentColor :=
    mkvec4 redColorValue greenColorValue blueColorValue alphaValue in
  match m_pShaderManager st with
  | Some sh =>
      set_shader (Some (sh ++ [setIntValue g_UseTextureName 0;
                               setVec4Value g_ColorValueName currentColor])) st
  | None => st
  end.

(* SceneManager::SetShaderTexture *)
Definition SetShaderTexture (textureTag : string) (st : SceneManager)
  : result SceneManager :=
  match m_pShaderManager st with
  | Some sh =>
      let sh := sh ++ [setIntValue g_UseTextureName 1] in
      textureID <- FindTextureSlot textureTag st ;;
      Ret (set_shader
             (Some (sh ++ [setSampler2DValue g_TextureValueName textureID])) st)
  | None => Ret st
  end.

(* SceneManager::SetTextureUVScale *)
Definition SetTextureUVScale (u v : float) (st : SceneManager) : SceneManager :=
  match m_pShaderManager st with
  | Some sh => set_shader (Some (sh ++ [setVec2Value "UVscale" (mkvec2 u v)])) st
  | None => st
  end.

(* the five setter calls of SetShaderMaterial *)
Definition material_uniforms (material : OBJECT_MATERIAL) : list uniform_call :=
  [ setVec3Value "material.ambientColor" (ambientColor material);
    setFloatValue "material.ambientStrength" (ambientStrength material);
    setVec3Value "material.diffuseColor" (diffuseColor material);
    setVec3Value "material.specularColor" (specularColor material);
    setFloatValue "material.shininess" (shininess material) ].

(* SceneManager::SetShaderMaterial.  [material] stands for the local
   [OBJECT_MATERIAL material;] as its declaration leaves it: the source
   gives it no initialiser, so its numeric fields hold whatever the
   default construction of glm::vec3 and float leaves there. *)
Definition SetShaderMaterial (materialTag : string)
    (material : OBJECT_MATERIAL) (st : SceneManager) : result SceneManager :=
  if 0 <? Z.of_nat (length (m_objectMaterials st)) then
    let '(bReturn, material) := FindMaterial materialTag material st in
    if bReturn then
      match m_pShaderManager st with
      | Some sh => Ret (set_shader (Some (sh ++ material_uniforms material)) st)
      | None => Fault NullDereference
      end
    else Ret st
  else Ret st.

(* A run of CreateGLTexture calls, each result kept: the shape of
   LoadSceneTextures for any list of (filename, tag) requests. *)
Fixpoint load_textures (requests : list (string * string)) (st : SceneManager)
  : result (list bool * SceneManager) :=
  match requests with
  | [] => Ret ([], st)
  | (filename, tag') :: rest =>
      r <- CreateGLTexture filename tag' st ;;
      r' <- load_textures rest (snd r) ;;
      Ret (fst r :: fst r', snd r')
  end.

Definition scene_texture_files : list (string * string) :=
  [ ("C:/Users/NFigu/Pictures/dfc59b634fc228887ca8668526b24100.jpg", "Wood");
    ("C:/Users/NFigu/Pictures/images.jpg", "Metal");
    ("C:/Users/NFigu/Pictures/download.jpg", "Magazine Cover");
    ("C:/Users/NFigu/Pictures/d7i46lm-d44c1ab4-227d-4009-9114-e549c1420d21.jpg",
     "Black Metal");
    ("C:/Users/NFigu/Pictures/images (1).jpg", "White") ].

(* SceneManager::LoadSceneTextures: [bReturn] is overwritten by each
   call and never read. *)
Definition LoadSceneTextures (st : SceneManager) : result SceneManager :=
  r <- load_textures scene_texture_files st ;;
  BindGLTextures (snd r).

(** ** Specification predicates *)

(* the counter stays within the array *)
Definition registry_ok (st : SceneManager) : Prop :=
  0 <= m_loadedTextures st <= Z.of_nat (length (m_textureIDs st)).

(* entry [e] sits in slot [i] of the registered prefix *)
Definition registered (st : SceneManager) (i : Z) (e : TEXTURE_INFO) : Prop :=
  0 <= i < m_loadedTextures st /\ m_textureIDs st !! Z.to_nat i = Some e.

(* slot [i] is the first registered slot carrying [tag'] *)
Definition first_registered (st : SceneManager) (tag' : string) (i : Z)
    (e : TEXTURE_INFO) : Prop :=
  registered st i e /\ tag e = tag' /\
  forall j e', registered st j e' -> j < i -> tag e' <> tag'.

(* no slot in [i, i + n) carries the tag *)
Definition none_between (arr : list TEXTURE_INFO) (tag' : string) (i : Z)
    (n : nat) : Prop :=
  forall k e, i <= k < i + Z.of_nat n ->
              arr !! Z.to_nat k = Some e -> tag e <> tag'.

(* slot [k] holds [e], which carries the tag, and no slot in [i, k) does *)
Definition first_from (arr : list TEXTURE_INFO) (tag' : string) (i k : Z)
    (e : TEXTURE_INFO) : Prop :=
  arr !! Z.to_nat k = Some e /\ tag e = tag' /\
  forall j e', i <= j < k -> arr !! Z.to_nat j = Some e' -> tag e' <> tag'.

(* the decoder reads the file and the channel count is one the upload
   handles *)
Definition loadable (filename : string) : bool :=
  match stbi_load filename with
  | Some img => (colorChannels img =? 3) || (colorChannels img =? 4)
  | None => false
  end.

(* how many requests of a run the decoder and the upload accept *)
Fixpoint loadable_count (requests : list (string * string)) : Z :=
  match requests with
  | [] => 0
  | r :: rest => (if loadable (fst r) then 1 else 0) + loadable_count rest
  end.

(* The factors of the model matrix in the specification's words *)
Definition Translation (positionXYZ : vec3) : mat4 := glm_translate positionXYZ.

Definition RotationX (degrees : float) : mat4 :=
  glm_rotate (glm_radians degrees) (mkvec3 fone fzero fzero).

Definition RotationY (degrees : float) : mat4 :=
  glm_rotate (glm_radians degrees) (mkvec3 fzero fone fzero).

Definition RotationZ (degrees : float) : mat4 :=
  glm_rotate (glm_radians degrees) (mkvec3 fzero fzero fone).

Definition Scale (scaleXYZ : vec3) : mat4 := glm_scale scaleXYZ.

(* T x Rx x Ry x Rz x S, multiplied left to right as C++ groups it *)
Definition ComposeModelMatrix (scaleXYZ : vec3) (rx ry rz : float)
    (positionXYZ : vec3) : mat4 :=
  mat4_mul
    (mat4_mul
       (mat4_mul (mat4_mul (Translation positionXYZ) (RotationX rx))
                 (RotationY ry))
       (RotationZ rz))
    (Scale scaleXYZ).

(* the first preset of the table carrying [tag'] *)
Fixpoint first_material (ms : list OBJECT_MATERIAL) (tag' : string)
  : option OBJECT_MATERIAL :=
  match ms with
  | [] => None
  | m :: rest =>
      if String.eqb (material_tag m) tag' then Some m
      else first_material rest tag'
  end.

End Scene.

(** ** Scene preparation and rendering

    The float a decimal literal of the source denotes is left abstract,
    like the float operations; [literal q] is the [float] the literal
    with value [q] stands for where it is written. *)

Class FloatLiterals {FO : FloatOps} := { literal : Q -> float }.

Arguments literal {FO FloatLiterals} q%_Q.

(* the mesh library: the four shapes the scene uses, and the calls the
   library object received, oldest first *)
Inductive mesh := PlaneMesh | BoxMesh | CylinderMesh | TorusMesh.

Inductive mesh_call :=
| LoadMesh (m : mesh)        (* LoadPlaneMesh(), LoadBoxMesh(), ... *)
| DrawMesh (m : mesh).       (* DrawPlaneMesh(), DrawBoxMesh(), ... *)

Definition ShapeMeshes := list mesh_call.

Section Preparation.

Context {FO : FloatOps} {FL : FloatLiterals}.
Variable stbi_load : string -> option image.

(* the scene manager together with the mesh object [m_basicMeshes]
   points to *)
Record RenderState := mkRenderState {
  self : SceneManager;
  m_basicMeshes : ShapeMeshes
}.

(* m_objectMaterials.push_back(material) *)
Definition push_back_material (material : OBJECT_MATERIAL) (st : SceneManager)
  : SceneManager :=
  set_materials (m_objectMaterials st ++ [material]) st.

(* SceneManager::DefineObjectMaterials *)
Definition DefineObjectMaterials (st : SceneManager) : SceneManager :=
  let paperMaterial :=
    mkOBJECT_MATERIAL
      (mkvec3 (literal 0.8) (literal 0.8) (literal 0.8))
      (literal 0.2)
      (mkvec3 (literal 0.9) (literal 0.9) (literal 0.9))
      (mkvec3 (literal 0.05) (literal 0.05) (literal 0.05))
      (literal 10.0)
      "Paper" in
  let st := push_back_material paperMaterial st in
  let woodMaterial :=
    mkOBJECT_MATERIAL
      (mkvec3 (literal 0.2) (literal 0.1) (literal 0.1))
      (literal 0.3)
      (mkvec3 (literal 0.6) (literal 0.4) (literal 0.2))
      (mkvec3 (literal 0.1) (literal 0.1) (literal 0.1))
      (literal 25.0)
      "Wood" in
  let st := push_back_material woodMaterial st in
  let plasticMaterial :=
    mkOBJECT_MATERIAL
      (mkvec3 (literal 0.1) (literal 0.1) (literal 0.1))
      (literal 0.1)
      (mkvec3 (literal 0.7) (literal 0.7) (literal 0.7))
      (mkvec3 (literal 0.6) (literal 0.6) (literal 0.6))
      (literal 30)
      "Plastic" in
  let st := push_back_material plasticMaterial st in
  let metalMaterial :=
    mkOBJECT_MATERIAL
      (mkvec3 (literal 0.1) (literal 0.1) (literal 0.1))
      (literal 0.1)
      (mkvec3 (literal 0.7) (literal 0.7) (literal 0.7))
      (mkvec3 (literal 1.0) (literal 1.0) (literal 1.0))
      (literal 80.0)
      "Metal" in
  push_back_material metalMaterial st.

(* the setter calls of SetupSceneLights, in order *)
Definition scene_light_uniforms : list uniform_call :=
  [ setBoolValue g_UseLightingName true;
    setVec3Value "lightSources[0].position"
      (mkvec3 (fopp (literal 3.0)) (literal 4.0) (literal 6.0));
    setVec3Value "lightSources[0].ambientColor"
      (mkvec3 (literal 0.1) (literal 0.1) (literal 0.1));
    setVec3Value "lightSources[0].diffuseColor"
      (mkvec3 (literal 0.7) (literal 0.7) (literal 0.6));
    setVec3Value "lightSources[0].specularColor"
      (mkvec3 (literal 0.1) (literal 0.1) (literal 0.1));
    setFloatValue "lightSources[0].focalStrength" (literal 15.0);
    setFloatValue "lightSources[0].specularIntensity" (literal 0.1);
    setVec3Value "lightSources[1].position"
      (mkvec3 (literal 3.0) (literal 4.0) (literal 6.0));
    setVec3Value "lightSources[1].ambientColor"
      (mkvec3 (literal 0.1) (literal 0.1) (literal 0.1));
    setVec3Value "lightSources[1].diffuseColor"
      (mkvec3 (literal 0.7) (literal 0.7) (literal 0.6));
    setVec3Value "lightSources[1].specularColor"
      (mkvec3 (literal 0.1) (literal 0.1) (literal 0.1));
    setFloatValue "lightSources[1].focalStrength" (literal 15.0);
    setFloatValue "lightSources[1].specularIntensity" (literal 0.1);
    setVec3Value "lightSources[2].position"
      (mkvec3 (literal 0.0) (literal 3.0) (literal 20.0));
    setVec3Value "lightSources[2].ambientColor"
      (mkvec3 (literal 0.2) (literal 0.2) (literal 0.2));
    setVec3Value "lightSources[2].diffuseColor"
      (mkvec3 (literal 0.8) (literal 0.8) (literal 0.8));
    setVec3Value "lightSources[2].specularColor"
      (mkvec3 (literal 0.1) (literal 0.1) (literal 0.1));
    setFloatValue "lightSources[2].focalStrength" (literal 12.0);
    setFloatValue "lightSources[2].specularIntensity" (literal 0.1) ].

(* SceneManager::SetupSceneLights: every call goes through
   [m_pShaderManager] without a test for null *)
Definition SetupSceneLights (st : SceneManager) : result SceneManager :=
  match m_pShaderManager st with
  | Some sh => Ret (set_shader (Some (sh ++ scene_light_uniforms)) st)
  | None => Fault NullDereference
  end.

(* SceneManager::PrepareScene *)
Definition PrepareScene (rs : RenderState) : result RenderState :=
  st <- LoadSceneTextures stbi_load (self rs) ;;
  let st := DefineObjectMaterials st in
  st <- SetupSceneLights st ;;
  Ret (mkRenderState st
         (m_basicMeshes rs ++
          [LoadMesh PlaneMesh; LoadMesh BoxMesh;
           LoadMesh CylinderMesh; LoadMesh TorusMesh])).

(** RenderScene is one straight run of assignments to its five locals
    and of calls.  Its statements are kept as a list, in source order,
    and run one after the other. *)

Record locals := mklocals {
  scaleXYZ : vec3;
  XrotationDegrees : float;
  YrotationDegrees : float;
  ZrotationDegrees : float;
  positionXYZ : vec3
}.

Inductive statement :=
| assign_scaleXYZ (v : vec3)
| assign_XrotationDegrees (v : float)
| assign_YrotationDegrees (v : float)
| assign_ZrotationDegrees (v : float)
| assign_positionXYZ (v : vec3)
| call_SetTransformations       (* with the five locals as arguments *)
| call_SetShaderMaterial (materialTag : string)
| call_SetShaderTexture (textureTag : string)
| call_SetShaderColor (r g b a : float)
| call_DrawMesh (m : mesh).

(* one statement; [material] is what the local of SetShaderMaterial
   holds when that method is entered *)
Definition run_statement (material : OBJECT_MATERIAL) (s : statement)
    (c : locals * RenderState) : result (locals * RenderState) :=
  let '(l, rs) := c in
  match s with
  | assign_scaleXYZ v =>
      Ret (mklocals v (XrotationDegrees l) (YrotationDegrees l)
             (ZrotationDegrees l) (positionXYZ l), rs)
  | assign_XrotationDegrees v =>
      Ret (mklocals (scaleXYZ l) v (YrotationDegrees l)
             (ZrotationDegrees l) (positionXYZ l), rs)
  | assign_YrotationDegrees v =>
      Ret (mklocals (scaleXYZ l) (XrotationDegrees l) v
             (ZrotationDegrees l) (positionXYZ l), rs)
  | assign_ZrotationDegrees v =>
      Ret (mklocals (scaleXYZ l) (XrotationDegrees l) (YrotationDegrees l)
             v (positionXYZ l), rs)
  | assign_positionXYZ v =>
      Ret (mklocals (scaleXYZ l) (XrotationDegrees l) (YrotationDegrees l)
             (ZrotationDegrees l) v, rs)
  | call_SetTransformations =>
      Ret (l, mkRenderState
                (SetTransformations (scaleXYZ l) (XrotationDegrees l)
                   (YrotationDegrees l) (ZrotationDegrees l) (positionXYZ l)
                   (self rs))
                (m_basicMeshes rs))
  | call_SetShaderMaterial materialTag =>
      st <- SetShaderMaterial materialTag material (self rs) ;;
      Ret (l, mkRenderState st (m_basicMeshes rs))
  | call_SetShaderTexture textureTag =>
      st <- SetShaderTexture textureTag (self rs) ;;
      Ret (l, mkRenderState st (m_basicMeshes rs))
  | call_SetShaderColor r g b a =>
      Ret (l, mkRenderState (SetShaderColor r g b a (self rs))
                (m_basicMeshes rs))
  | call_DrawMesh m =>
      Ret (l, mkRenderState (self rs) (m_basicMeshes rs ++ [DrawMesh m]))
  end.

Fixpoint run_statements (material : OBJECT_MATERIAL) (body : list statement)
    (c : locals * RenderState) : result (locals * RenderState) :=
  match body with
  | [] => Ret c
  | s :: rest =>
      c' <- run_statement material s c ;;
      run_statements material rest c'
  end.

(* the statements of SceneManager::RenderScene after the declarations
   of its locals *)
Definition RenderScene_body : list statement :=
  [ assign_scaleXYZ (mkvec3 (literal 85.0) (literal 1.0) (literal 200.0));
    assign_XrotationDegrees (literal 0.0);
    assign_YrotationDegrees (literal 0.0);
    assign_ZrotationDegrees (literal 0.0);
    assign_positionXYZ (mkvec3 (literal 0.0) (fopp (literal 32.0)) (fopp (literal 200.0)));
    call_SetTransformations;
    call_SetShaderMaterial "Wood";
    call_SetShaderTexture "Wood";
    call_DrawMesh PlaneMesh;
    assign_scaleXYZ (mkvec3 (literal 0.35) (literal 0.35) (literal 0.4));
    assign_XrotationDegrees (literal 0.0);
    assign_YrotationDegrees (literal 0.0);
    assign_ZrotationDegrees (literal 0.0);
    assign_positionXYZ (mkvec3 (fopp (literal 11.3)) (fopp (literal 8.85)) (fopp (literal 33.4)));
    call_SetTransformations;
    call_SetShaderMaterial "Metal";
    call_SetShaderTexture "White";
    call_DrawMesh TorusMesh;
    assign_scaleXYZ (mkvec3 (literal 0.55) (literal 0.55) (literal 0.4));
    assign_XrotationDegrees (literal 90.0);
    assign_YrotationDegrees (literal 0.0);
    assign_ZrotationDegrees (literal 0.0);
    assign_positionXYZ (mkvec3 (fopp (literal 10.5)) (fopp (literal 8.4)) (fopp (literal 33.5)));
    call_SetTransformations;
    call_SetShaderMaterial "Metal";
    call_SetShaderTexture "White";
    call_DrawMesh TorusMesh;
    assign_scaleXYZ (mkvec3 (literal 0.25) (literal 2.3) (literal 0.25));
    assign_XrotationDegrees (literal 0.0);
    assign_YrotationDegrees (literal 0.0);
    assign_ZrotationDegrees (literal 0.0);
    assign_positionXYZ (mkvec3 (literal 7.7) (fopp (literal 9.6)) (fopp (literal 30.0)));
    call_SetTransformations;
    call_SetShaderMaterial "Metal";
    call_SetShaderTexture "Metal";
    call_DrawMesh CylinderMesh;
    assign_scaleXYZ (mkvec3 (literal 0.6) (literal 1.0) (literal 0.6));
    assign_XrotationDegrees (literal 0.0);
    assign_YrotationDegrees (literal 0.0);
    assign_ZrotationDegrees (literal 0.0);
    assign_positionXYZ (mkvec3 (fopp (literal 10.5)) (fopp (literal 9.4)) (fopp (literal 33.5)));
    call_SetTransformations;
    call_SetShaderMaterial "Metal";
    call_SetShaderTexture "White";
    call_DrawMesh CylinderMesh;
    assign_scaleXYZ (mkvec3 (literal 0.75) (literal 0.75) (literal 0.3));
    assign_XrotationDegrees (literal 90.0);
    assign_YrotationDegrees (literal 0.0);
    assign_ZrotationDegrees (literal 0.0);
    assign_positionXYZ (mkvec3 (fopp (literal 10.5)) (fopp (literal 9.38)) (fopp (literal 33.5)));
    call_SetTransformations;
    call_SetShaderMaterial "Metal";
    call_SetShaderTexture "White";
    call_DrawMesh TorusMesh;
    assign_scaleXYZ (mkvec3 (literal 2.2) (literal 0.3) (literal 0.2));
    assign_XrotationDegrees (literal 0.0);
    assign_YrotationDegrees (fopp (literal 125.0));
    assign_ZrotationDegrees (literal 0.0);
    assign_positionXYZ (mkvec3 (literal 8.9) (fopp (literal 9.6)) (fopp (literal 31.8)));
    call_SetTransformations;
    call_SetShaderMaterial "Metal";
    call_SetShaderTexture "Metal";
    call_DrawMesh CylinderMesh;
    assign_scaleXYZ (mkvec3 (literal 2.2) (literal 0.3) (literal 0.2));
    assign_XrotationDegrees (literal 0.0);
    assign_YrotationDegrees (literal 3.0);
    assign_ZrotationDegrees (literal 0.0);
    assign_positionXYZ (mkvec3 (literal 5.7) (fopp (literal 9.6)) (fopp (literal 29.9)));
    call_SetTransformations;
    call_SetShaderMaterial "Metal";
    call_SetShaderTexture "Metal";
    call_DrawMesh CylinderMesh;
    assign_scaleXYZ (mkvec3 (literal 0.6) (literal 0.6) (literal 0.4));
    assign_XrotationDegrees (literal 90.0);
    assign_YrotationDegrees (literal 0.0);
    assign_ZrotationDegrees (literal 0.0);
    assign_positionXYZ (mkvec3 (fopp (literal 10.5)) (fopp (literal 9.5)) (fopp (literal 33.5)));
    call_SetTransformations;
    call_SetShaderMaterial "Metal";
    call_SetShaderTexture "White";
    call_DrawMesh TorusMesh;
    assign_scaleXYZ (mkvec3 (literal 0.65) (literal 0.75) (literal 0.65));
    assign_XrotationDegrees (literal 0.0);
    assign_YrotationDegrees (literal 30.0);
    assign_ZrotationDegrees (literal 90.0);
    assign_positionXYZ (mkvec3 (fopp (literal 3.0)) (fopp (literal 9.4)) (fopp (literal 38.0)));
    call_SetTransformations;
    call_SetShaderMaterial "Plastic";
    call_SetShaderTexture "White";
    call_DrawMesh CylinderMesh;
    assign_scaleXYZ (mkvec3 (literal 3.15) (literal 2.5) (literal 2.65));
    assign_XrotationDegrees (literal 0.0);
    assign_YrotationDegrees (literal 30.0);
    assign_ZrotationDegrees (literal 0.0);
    assign_positionXYZ (mkvec3 (fopp (literal 4.3)) (fopp (literal 8.5)) (fopp (literal 23.2)));
    call_SetTransformations;
    call_SetShaderTexture "White";
    call_SetShaderMaterial "Plastic";
    call_DrawMesh BoxMesh;
    assign_scaleXYZ (mkvec3 (literal 2.6) (literal 1.0) (literal 1.5));
    assign_XrotationDegrees (literal 0.0);
    assign_YrotationDegrees (literal 30.0);
    assign_ZrotationDegrees (literal 90.0);
    assign_positionXYZ (mkvec3 (literal 18.14) (fopp (literal 7.8)) (fopp (literal 36.48)));
    call_SetTransformations;
    call_SetShaderTexture "Wood";
    call_SetShaderMaterial "Wood";
    call_DrawMesh CylinderMesh;
    assign_scaleXYZ (mkvec3 (literal 3.0) (literal 1.0) (literal 1.5));
    assign_XrotationDegrees (literal 0.0);
    assign_YrotationDegrees (literal 30.0);
    assign_ZrotationDegrees (literal 90.0);
    assign_positionXYZ (mkvec3 (literal 20.0) (fopp (literal 7.4)) (fopp (literal 37.6)));
    call_SetTransformations;
    call_SetShaderTexture "Wood";
    call_SetShaderMaterial "Wood";
    call_DrawMesh CylinderMesh;
    assign_scaleXYZ (mkvec3 (literal 2.4) (literal 1.0) (literal 1.2));
    assign_XrotationDegrees (literal 0.0);
    assign_YrotationDegrees (literal 30.0);
    assign_ZrotationDegrees (literal 90.0);
    assign_positionXYZ (mkvec3 (literal 20.5) (fopp (literal 7.6)) (fopp (literal 37.9)));
    call_SetTransformations;
    call_SetShaderTexture "Wood";
    call_SetShaderMaterial "Wood";
    call_DrawMesh CylinderMesh;
    assign_scaleXYZ (mkvec3 (literal 2.0) (literal 1.0) (literal 1.0));
    assign_XrotationDegrees (literal 0.0);
    assign_YrotationDegrees (literal 30.0);
    assign_ZrotationDegrees (literal 90.0);
    assign_positionXYZ (mkvec3 (literal 20.9) (fopp (literal 7.8)) (fopp (literal 38.1)));
    call_SetTransformations;
    call_SetShaderTexture "Wood";
    call_SetShaderMaterial "Wood";
    call_DrawMesh CylinderMesh;
    assign_scaleXYZ (mkvec3 (literal 1.6) (literal 1.0) (literal 0.8));
    assign_XrotationDegrees (literal 0.0);
    assign_YrotationDegrees (literal 30.0);
    assign_ZrotationDegrees (literal 90.0);
    assign_positionXYZ (mkvec3 (literal 21.3) (fopp (literal 8.2)) (fopp (literal 38.4)));
    call_SetTransformations;
    call_SetShaderTexture "Wood";
    call_SetShaderMaterial "Wood";
    call_DrawMesh CylinderMesh;
    assign_scaleXYZ (mkvec3 (literal 1.2) (literal 1.0) (literal 0.6));
    assign_XrotationDegrees (literal 0.0);
    assign_YrotationDegrees (literal 30.0);
    assign_ZrotationDegrees (literal 90.0);
    assign_positionXYZ (mkvec3 (literal 21.8) (fopp (literal 8.6)) (fopp (literal 38.7)));
    call_SetTransformations;
    call_SetShaderTexture "Wood";
    call_SetShaderMaterial "Wood";
    call_DrawMesh CylinderMesh;
    assign_scaleXYZ (mkvec3 (literal 6.5) (literal 1.0) (literal 3.5));
    assign_XrotationDegrees (literal 0.0);
    assign_YrotationDegrees (literal 30.0);
    assign_ZrotationDegrees (literal 90.0);
    assign_positionXYZ (mkvec3 (literal 18.14) (fopp (literal 6.5)) (fopp (literal 36.48)));
    call_SetTransformations;
    call_SetShaderColor (literal 1) (literal 1) (literal 1) (literal 1);
    call_DrawMesh BoxMesh;
    assign_scaleXYZ (mkvec3 (literal 6.5) (literal 1.0) (literal 3.5));
    assign_XrotationDegrees (literal 0.0);
    assign_YrotationDegrees (literal 30.0);
    assign_ZrotationDegrees (literal 90.0);
    assign_positionXYZ (mkvec3 (literal 19.0) (fopp (literal 6.5)) (fopp (literal 37.0)));
    call_SetTransformations;
    call_SetShaderColor (literal 0.6706) (literal 0.8588) (literal 0.8902) (literal 1);
    call_DrawMesh BoxMesh;
    assign_scaleXYZ (mkvec3 (literal 6.5) (literal 1.4) (literal 3.5));
    assign_XrotationDegrees (literal 0.0);
    assign_YrotationDegrees (literal 30.0);
    assign_ZrotationDegrees (literal 0.0);
    assign_positionXYZ (mkvec3 (fopp (literal 4.0)) (fopp (literal 9.5)) (fopp (literal 23.0)));
    call_SetTransformations;
    call_SetShaderColor (literal 1) (literal 1) (literal 1) (literal 1);
    call_DrawMesh BoxMesh;
    assign_scaleXYZ (mkvec3 (literal 14.0) (literal 0.3) (literal 8.5));
    assign_XrotationDegrees (literal 90.0);
    assign_YrotationDegrees (literal 0.0);
    assign_ZrotationDegrees (fopp (literal 30.0));
    assign_positionXYZ (mkvec3 (literal 7.75) (fopp (literal 3.0)) (fopp (literal 30.2)));
    call_SetTransformations;
    call_SetShaderTexture "Magazine Cover";
    call_SetShaderMaterial "Plastic";
    call_DrawMesh BoxMesh;
    assign_scaleXYZ (mkvec3 (literal 7.0) (literal 0.3) (literal 3.0));
    assign_XrotationDegrees (literal 0.0);
    assign_YrotationDegrees (literal 30.0);
    assign_ZrotationDegrees (literal 0.0);
    assign_positionXYZ (mkvec3 (literal 2.0) (fopp (literal 9.5)) (fopp (literal 41.0)));
    call_SetTransformations;
    call_SetShaderMaterial "Plastic";
    call_SetShaderTexture "White";
    call_DrawMesh BoxMesh;
    assign_scaleXYZ (mkvec3 (literal 35.0) (literal 0.8) (literal 18.0));
    assign_XrotationDegrees (literal 0.0);
    assign_YrotationDegrees (literal 30.0);
    assign_ZrotationDegrees (literal 0.0);
    assign_positionXYZ (mkvec3 (literal 5.0) (fopp (literal 10.0)) (fopp (literal 35.0)));
    call_SetTransformations;
    call_SetShaderTexture "Wood";
    call_SetShaderMaterial "Wood";
    call_DrawMesh BoxMesh;
    assign_scaleXYZ (mkvec3 (literal 10.0) (literal 4.5) (literal 14.3));
    assign_XrotationDegrees (literal 0.0);
    assign_YrotationDegrees (literal 30.0);
    assign_ZrotationDegrees (literal 0.0);
    assign_positionXYZ (mkvec3 (literal 14.5) (fopp (literal 12.0)) (fopp (literal 40.5)));
    call_SetTransformations;
    call_SetShaderTexture "Wood";
    call_SetShaderMaterial "Wood";
    call_DrawMesh BoxMesh;
    assign_scaleXYZ (mkvec3 (literal 3.8) (literal 1.0) (literal 4.0));
    assign_XrotationDegrees (literal 0.0);
    assign_YrotationDegrees (literal 30.0);
    assign_ZrotationDegrees (literal 0.0);
    assign_positionXYZ (mkvec3 (literal 10.1) (fopp (literal 14.2)) (fopp (literal 48.95)));
    call_SetTransformations;
    call_SetShaderMaterial "Wood";
    call_SetShaderTexture "Wood";
    call_DrawMesh PlaneMesh;
    assign_scaleXYZ (mkvec3 (literal 2.8) (literal 1.0) (literal 3.7));
    assign_XrotationDegrees (literal 0.0);
    assign_YrotationDegrees (literal 30.0);
    assign_ZrotationDegrees (literal 0.0);
    assign_positionXYZ (mkvec3 (literal 10.0) (fopp (literal 14.1)) (fopp (literal 48.95)));
    call_SetTransformations;
    call_SetShaderTexture "Magazine Cover";
    call_SetShaderMaterial "Paper";
    call_DrawMesh PlaneMesh;
    assign_scaleXYZ (mkvec3 (literal 0.2) (literal 3.0) (literal 0.2));
    assign_XrotationDegrees (literal 90.0);
    assign_YrotationDegrees (literal 0.0);
    assign_ZrotationDegrees (fopp (literal 30.0));
    assign_positionXYZ (mkvec3 (literal 9.0) (fopp (literal 13.8)) (fopp (literal 51.7)));
    call_SetTransformations;
    call_SetShaderTexture "White";
    call_SetShaderMaterial "Plastic";
    call_DrawMesh CylinderMesh;
    assign_scaleXYZ (mkvec3 (literal 0.2) (literal 3.0) (literal 0.2));
    assign_XrotationDegrees (literal 90.0);
    assign_YrotationDegrees (literal 0.0);
    assign_ZrotationDegrees (fopp (literal 65.0));
    assign_positionXYZ (mkvec3 (literal 7.1) (fopp (literal 13.8)) (fopp (literal 50.7)));
    call_SetTransformations;
    call_SetShaderTexture "White";
    call_SetShaderMaterial "Plastic";
    call_DrawMesh CylinderMesh;
    assign_scaleXYZ (mkvec3 (literal 8.0) (literal 2.5) (literal 0.8));
    assign_XrotationDegrees (literal 0.0);
    assign_YrotationDegrees (literal 120.0);
    assign_ZrotationDegrees (literal 0.0);
    assign_positionXYZ (mkvec3 (literal 6.75) (fopp (literal 13.0)) (fopp (literal 47.0)));
    call_SetTransformations;
    call_SetShaderTexture "Wood";
    call_SetShaderMaterial "Wood";
    call_DrawMesh BoxMesh;
    assign_scaleXYZ (mkvec3 (literal 8.0) (literal 2.5) (literal 0.8));
    assign_XrotationDegrees (literal 0.0);
    assign_YrotationDegrees (literal 120.0);
    assign_ZrotationDegrees (literal 0.0);
    assign_positionXYZ (mkvec3 (literal 13.0) (fopp (literal 13.0)) (fopp (literal 51.0)));
    call_SetTransformations;
    call_SetShaderTexture "Wood";
    call_SetShaderMaterial "Wood";
    call_DrawMesh BoxMesh;
    assign_scaleXYZ (mkvec3 (literal 8.3) (literal 0.5) (literal 0.1));
    assign_XrotationDegrees (literal 0.0);
    assign_YrotationDegrees (literal 120.0);
    assign_ZrotationDegrees (literal 0.0);
    assign_positionXYZ (mkvec3 (literal 13.5) (fopp (literal 13.8)) (fopp (literal 51.0)));
    call_SetTransformations;
    call_SetShaderTexture "Metal";
    call_SetShaderMaterial "Metal";
    call_DrawMesh BoxMesh;
    assign_scaleXYZ (mkvec3 (literal 9.0) (literal 3.5) (literal 0.8));
    assign_XrotationDegrees (literal 0.0);
    assign_YrotationDegrees (literal 30.0);
    assign_ZrotationDegrees (literal 0.0);
    assign_positionXYZ (mkvec3 (literal 8.1) (fopp (literal 12.5)) (fopp (literal 52.5)));
    call_SetTransformations;
    call_SetShaderTexture "Wood";
    call_SetShaderMaterial "Wood";
    call_DrawMesh BoxMesh;
    assign_scaleXYZ (mkvec3 (literal 1.0) (literal 22.0) (literal 1.0));
    assign_XrotationDegrees (literal 0.0);
    assign_YrotationDegrees (literal 30.0);
    assign_ZrotationDegrees (literal 0.0);
    assign_positionXYZ (mkvec3 (fopp (literal 5.0)) (fopp (literal 20.99)) (fopp (literal 22.0)));
    call_SetTransformations;
    call_SetShaderMaterial "Metal";
    call_SetShaderTexture "Black Metal";
    call_DrawMesh BoxMesh;
    assign_scaleXYZ (mkvec3 (literal 1.0) (literal 22.0) (literal 1.0));
    assign_XrotationDegrees (literal 0.0);
    assign_YrotationDegrees (literal 30.0);
    assign_ZrotationDegrees (literal 0.0);
    assign_positionXYZ (mkvec3 (literal 3.0) (fopp (literal 20.99)) (fopp (literal 26.0)));
    call_SetTransformations;
    call_SetShaderTexture "Black Metal";
    call_SetShaderMaterial "Metal";
    call_DrawMesh BoxMesh;
    assign_scaleXYZ (mkvec3 (literal 1.0) (literal 22.0) (literal 1.0));
    assign_XrotationDegrees (literal 0.0);
    assign_YrotationDegrees (literal 30.0);
    assign_ZrotationDegrees (literal 0.0);
    assign_positionXYZ (mkvec3 (fopp (literal 12.0)) (fopp (literal 20.99)) (fopp (literal 34.0)));
    call_SetTransformations;
    call_SetShaderTexture "Black Metal";
    call_SetShaderMaterial "Metal";
    call_DrawMesh BoxMesh;
    assign_scaleXYZ (mkvec3 (literal 1.0) (literal 22.0) (literal 1.0));
    assign_XrotationDegrees (literal 0.0);
    assign_YrotationDegrees (literal 30.0);
    assign_ZrotationDegrees (literal 0.0);
    assign_positionXYZ (mkvec3 (literal 19.5) (fopp (literal 20.99)) (fopp (literal 42.8)));
    call_SetTransformations;
    call_SetShaderTexture "Black Metal";
    call_SetShaderMaterial "Metal";
    call_DrawMesh BoxMesh;
    assign_scaleXYZ (mkvec3 (literal 1.0) (literal 22.0) (literal 1.0));
    assign_XrotationDegrees (literal 0.0);
    assign_YrotationDegrees (literal 30.0);
    assign_ZrotationDegrees (literal 0.0);
    assign_positionXYZ (mkvec3 (literal 6.47) (fopp (literal 20.99)) (fopp (literal 43.55)));
    call_SetTransformations;
    call_SetShaderTexture "Black Metal";
    call_SetShaderMaterial "Metal";
    call_DrawMesh BoxMesh;
    assign_scaleXYZ (mkvec3 (literal 1.0) (literal 22.0) (literal 1.0));
    assign_XrotationDegrees (literal 0.0);
    assign_YrotationDegrees (literal 30.0);
    assign_ZrotationDegrees (literal 0.0);
    assign_positionXYZ (mkvec3 (literal 13.0) (fopp (literal 20.99)) (fopp (literal 32.0)));
    call_SetTransformations;
    call_SetShaderTexture "Black Metal";
    call_SetShaderMaterial "Metal";
    call_DrawMesh BoxMesh;
    assign_scaleXYZ (mkvec3 (literal 1.0) (literal 21.0) (literal 1.0));
    assign_XrotationDegrees (literal 0.0);
    assign_YrotationDegrees (literal 30.0);
    assign_ZrotationDegrees (literal 90.0);
    assign_positionXYZ (mkvec3 (fopp (literal 3.0)) (fopp (literal 11.0)) (fopp (literal 38.4)));
    call_SetTransformations;
    call_SetShaderTexture "Black Metal";
    call_SetShaderMaterial "Metal";
    call_DrawMesh BoxMesh;
    assign_scaleXYZ (mkvec3 (literal 1.0) (literal 10.65) (literal 1.0));
    assign_XrotationDegrees (literal 0.0);
    assign_YrotationDegrees (literal 30.0);
    assign_ZrotationDegrees (literal 90.0);
    assign_positionXYZ (mkvec3 (literal 14.8) (fopp (literal 29.0)) (fopp (literal 40.2)));
    call_SetTransformations;
    call_SetShaderTexture "Black Metal";
    call_SetShaderMaterial "Metal";
    call_DrawMesh BoxMesh;
    assign_scaleXYZ (mkvec3 (literal 1.0) (literal 13.5) (literal 1.0));
    assign_XrotationDegrees (literal 0.0);
    assign_YrotationDegrees (literal 120.0);
    assign_ZrotationDegrees (literal 90.0);
    assign_positionXYZ (mkvec3 (literal 9.645) (fopp (literal 29.0)) (fopp (literal 38.0)));
    call_SetTransformations;
    call_SetShaderTexture "Black Metal";
    call_SetShaderMaterial "Metal";
    call_DrawMesh BoxMesh;
    assign_scaleXYZ (mkvec3 (literal 1.0) (literal 8.75) (literal 1.0));
    assign_XrotationDegrees (literal 0.0);
    assign_YrotationDegrees (literal 30.0);
    assign_ZrotationDegrees (literal 90.0);
    assign_positionXYZ (mkvec3 (fopp (literal 0.75)) (fopp (literal 29.0)) (fopp (literal 24.25)));
    call_SetTransformations;
    call_SetShaderTexture "Black Metal";
    call_SetShaderMaterial "Metal";
    call_DrawMesh BoxMesh;
    assign_scaleXYZ (mkvec3 (literal 1.0) (literal 13.9) (literal 1.0));
    assign_XrotationDegrees (literal 0.0);
    assign_YrotationDegrees (literal 120.0);
    assign_ZrotationDegrees (literal 90.0);
    assign_positionXYZ (mkvec3 (fopp (literal 8.2)) (fopp (literal 29.0)) (fopp (literal 27.6)));
    call_SetTransformations;
    call_SetShaderTexture "Black Metal";
    call_SetShaderMaterial "Metal";
    call_DrawMesh BoxMesh;
    assign_scaleXYZ (mkvec3 (literal 10.0) (literal 18.0) (literal 5.0));
    assign_XrotationDegrees (literal 0.0);
    assign_YrotationDegrees (literal 120.0);
    assign_ZrotationDegrees (literal 0.0);
    assign_positionXYZ (mkvec3 (fopp (literal 4.7)) (fopp (literal 29.0)) (fopp (literal 30.2)));
    call_SetTransformations;
    call_SetShaderMaterial "Metal";
    call_SetShaderTexture "White";
    call_DrawMesh BoxMesh ].

(* SceneManager::RenderScene.  [scaleXYZ] and [positionXYZ] are declared
   without initialiser: [scale0] and [position0] stand for what they
   hold until their first assignment. *)
Definition RenderScene (scale0 position0 : vec3) (material : OBJECT_MATERIAL)
    (rs : RenderState) : result RenderState :=
  c <- run_statements material RenderScene_body
         (mklocals scale0 (literal 0.0) (literal 0.0) (literal 0.0) position0,
          rs) ;;
  Ret (snd c).

(* what the statements of a run mention *)
Definition texture_tags_of (body : list statement) : list string :=
  flat_map (fun s => match s with
                     | call_SetShaderTexture t => [t]
                     | _ => []
                     end) body.

Definition material_tags_of (body : list statement) : list string :=
  flat_map (fun s => match s with
                     | call_SetShaderMaterial t => [t]
                     | _ => []
                     end) body.

Definition meshes_drawn_by (body : list statement) : list mesh :=
  flat_map (fun s => match s with
                     | call_DrawMesh m => [m]
                     | _ => []
                     end) body.

End Preparation.

(** ** An exact scalar instance for evaluation

    Integers, with angles kept in degrees ([deg2rad] is 1) and sine and
    cosine given at the multiples of a right angle, where they are
    integers. *)

Definition right_angle_cos (d : Z) : Z :=
  match (d / 90) mod 4 with 0 => 1 | 2 => -1 | _ => 0 end.

Definition right_angle_sin (d : Z) : Z :=
  match (d / 90) mod 4 with 1 => 1 | 3 => -1 | _ => 0 end.

Definition ZFloat : FloatOps :=
  {| float := Z; fzero := 0; fone := 1;
     fadd := Z.add; fmul := Z.mul; fsub := Z.sub; fopp := Z.opp;
     fcos := right_angle_cos; fsin := right_angle_sin;
     finversesqrt := fun x => if x =? 1 then 1 else 0;
     deg2rad := 1 |}.

(* a decoder that knows three files *)
Definition sample_files (filename : string) : option image :=
  if String.eqb filename "wood.jpg" then Some (mkimage 64 64 3)
  else if String.eqb filename "logo.png" then Some (mkimage 32 32 4)
  else if String.eqb filename "gray.png" then Some (mkimage 8 8 1)
  else None.

Definition sample_vec3 (x y z : Z) : @vec3 ZFloat := @mkvec3 ZFloat x y z.

Definition gl_initial : GLcontext := mkGL [] 0 ∅ [].

(* a freshly constructed scene manager with a live shader manager *)
Definition sample_scene : @SceneManager ZFloat :=
  SceneManager_ctor (Some []) gl_initial.

(* the same, constructed with a null shader manager *)
Definition null_shader_scene : @SceneManager ZFloat :=
  SceneManager_ctor None gl_initial.

Definition state_after (st : @SceneManager ZFloat)
    (r : result (list bool * @SceneManager ZFloat)) : @SceneManager ZFloat :=
  match r with
  | Ret (_, st') => st'
  | Fault _ => st
  end.

Definition two_textures : @SceneManager ZFloat :=
  state_after sample_scene
    (load_textures sample_files
       [("wood.jpg", "Wood"); ("logo.png", "Logo")] sample_scene).

(* sixteen successful loads: every slot of the array taken *)
Definition full_registry : @SceneManager ZFloat :=
  state_after sample_scene
    (load_textures sample_files (replicate 16 ("wood.jpg", "Wood"))
       sample_scene).

Definition sample_material (ambient : Z) (strength : Z) (diffuse : Z)
    (specular : Z) (shine : Z) (name : string) : @OBJECT_MATERIAL ZFloat :=
  @mkOBJECT_MATERIAL ZFloat (sample_vec3 ambient ambient ambient) strength
    (sample_vec3 diffuse diffuse diffuse)
    (sample_vec3 specular specular specular) shine name.

Definition paper_preset : @OBJECT_MATERIAL ZFloat :=
  sample_material 80 20 90 5 1000 "Paper".

Definition second_paper_preset : @OBJECT_MATERIAL ZFloat :=
  sample_material 30 40 50 60 2000 "Paper".

(* some content for a local that was declared without initialiser *)
Definition leftover_material : @OBJECT_MATERIAL ZFloat :=
  @mkOBJECT_MATERIAL ZFloat (sample_vec3 71 72 73) 74
    (sample_vec3 75 76 77) (sample_vec3 78 79 80) 81 "".

(* a table with the four tags DefineObjectMaterials defines, in its
   order *)
Definition one_material : @SceneManager ZFloat :=
  set_materials
    [ paper_preset;
      sample_material 10 30 40 10 2500 "Wood";
      sample_material 10 10 70 60 3000 "Plastic";
      sample_material 10 10 70 100 8000 "Metal" ] sample_scene.

(* a table in which a tag is defined twice *)
Definition duplicate_material : @SceneManager ZFloat :=
  set_materials [paper_preset; second_paper_preset] sample_scene.

(* a decoder for the five files of LoadSceneTextures, the second of
   which is missing *)
Definition scene_files_one_missing (filename : string) : option image :=
  if String.eqb filename "C:/Users/NFigu/Pictures/images.jpg" then None
  else Some (mkimage 256 256 3).

(* decimal literals read in hundredths, rounded down *)
Definition hundredths (q : Q) : Z := (Qnum q * 100) / Z.pos (Qden q).

Definition ZLiterals : @FloatLiterals ZFloat :=
  @Build_FloatLiterals ZFloat hundredths.

(* a decoder that reads every file as a 3-channel image *)
Definition every_file (filename : string) : option image :=
  Some (mkimage 256 256 3).

Definition sample_render_state : @RenderState ZFloat :=
  mkRenderState sample_scene [].

Definition null_render_state : @RenderState ZFloat :=
  mkRenderState null_shader_scene [].

Definition render_state_after (rs : @RenderState ZFloat)
    (r : result (@RenderState ZFloat)) : @RenderState ZFloat :=
  match r with
  | Ret rs' => rs'
  | Fault _ => rs
  end.

(* the sample scene after PrepareScene with every file readable *)
Definition prepared_scene : @RenderState ZFloat :=
  render_state_after sample_render_state
    (@PrepareScene ZFloat ZLiterals every_file sample_render_state).

(* the slots the sampler uniform was set to, oldest first *)
Definition sampler_values {FO : FloatOps} (calls : list uniform_call) : list Z :=
  flat_map (fun c => match c with
                     | setSampler2DValue _ slot => [slot]
                     | _ => []
                     end) calls.

(** * Properties *)

Section Properties.

Context {FO : FloatOps}.
Variable stbi_load : string -> option image.

Lemma int_of_GLuint_small (h : Z) :
  0 <= h < 2 ^ 31 -> int_of_GLuint h = h.
Proof.
  intros Hh. unfold int_of_GLuint.
  rewrite Z.mod_small by lia.
  destruct (Z.ltb_spec h (2 ^ 31)); lia.
Qed.

Lemma GLuint_of_int_of_GLuint (h : Z) :
  0 <= h < 2 ^ 32 -> GLuint_of_int (int_of_GLuint h) = h.
Proof.
  intros Hh. unfold int_of_GLuint, GLuint_of_int.
  rewrite (Z.mod_small h) by lia.
  destruct (Z.ltb_spec h (2 ^ 31)).
  - apply Z.mod_small; lia.
  - replace (h - 2 ^ 32) with (h + (-1) * 2 ^ 32) by lia.
    rewrite Z.mod_add by lia. apply Z.mod_small; lia.
Qed.

Lemma array_read_lookup {A : Type} (arr : list A) (i : Z) (a : A) :
  0 <= i -> arr !! Z.to_nat i = Some a -> array_read arr i = Ret a.
Proof.
  intros Hi Ha. unfold array_read.
  destruct (Z.ltb_spec i 0); [lia|]. now rewrite Ha.
Qed.

Lemma array_read_in_range {A : Type} (arr : list A) (i : Z) :
  0 <= i < Z.of_nat (length arr) ->
  exists a, arr !! Z.to_nat i = Some a /\ array_read arr i = Ret a.
Proof.
  intros Hi.
  destruct (lookup_lt_is_Some_2 arr (Z.to_nat i)) as [a Ha]; [lia|].
  exists a. split; [exact Ha|]. apply array_read_lookup; [lia|exact Ha].
Qed.

Lemma array_read_out_of_range {A : Type} (arr : list A) (i : Z) :
  Z.of_nat (length arr) <= i -> array_read arr i = Fault (OutOfBounds i).
Proof.
  intros Hi. unfold array_read.
  destruct (Z.ltb_spec i 0); [reflexivity|].
  rewrite lookup_ge_None_2 by lia. reflexivity.
Qed.

Lemma array_write_in_range {A : Type} (arr : list A) (i : Z) (a : A) :
  0 <= i < Z.of_nat (length arr) ->
  array_write arr i a = Ret (<[Z.to_nat i := a]> arr).
Proof.
  intros Hi. unfold array_write.
  destruct (Z.ltb_spec i 0); [lia|].
  destruct (lookup_lt_is_Some_2 arr (Z.to_nat i)) as [b Hb]; [lia|].
  now rewrite Hb.
Qed.

Lemma array_write_out_of_range {A : Type} (arr : list A) (i : Z) (a : A) :
  Z.of_nat (length arr) <= i -> array_write arr i a = Fault (OutOfBounds i).
Proof.
  intros Hi. unfold array_write.
  destruct (Z.ltb_spec i 0); [reflexivity|].
  rewrite lookup_ge_None_2 by lia. reflexivity.
Qed.

(** ** The two lookup loops *)

Section Lookup.

Variable arr : list TEXTURE_INFO.
Variable tag' : string.

Lemma none_between_step (i : Z) (n : nat) :
  none_between arr tag' i (S n) -> none_between arr tag' (i + 1) n.
Proof. intros H k e Hk. apply H. lia. Qed.

Lemma FindTextureSlot_loop_miss (n : nat) : forall i,
  0 <= i -> i + Z.of_nat n <= Z.of_nat (length arr) ->
  none_between arr tag' i n ->
  FindTextureSlot_loop arr tag' n i = Ret (-1).
Proof.
  induction n as [|n IH]; intros i Hi Hlen Hnone; [reflexivity|].
  destruct (array_read_in_range arr i) as (e & He & Hr); [lia|].
  cbn [FindTextureSlot_loop]. rewrite Hr. cbn [bind].
  destruct (String.eqb_spec (tag e) tag') as [Heq|Hne].
  - exfalso. apply (Hnone i e); [lia|exact He|exact Heq].
  - apply IH; [lia|lia|]. now apply none_between_step.
Qed.

Lemma FindTextureID_loop_miss (n : nat) : forall i,
  0 <= i -> i + Z.of_nat n <= Z.of_nat (length arr) ->
  none_between arr tag' i n ->
  FindTextureID_loop arr tag' n i = Ret (-1).
Proof.
  induction n as [|n IH]; intros i Hi Hlen Hnone; [reflexivity|].
  destruct (array_read_in_range arr i) as (e & He & Hr); [lia|].
  cbn [FindTextureID_loop]. rewrite Hr. cbn [bind].
  destruct (String.eqb_spec (tag e) tag') as [Heq|Hne].
  - exfalso. apply (Hnone i e); [lia|exact He|exact Heq].
  - apply IH; [lia|lia|]. now apply none_between_step.
Qed.

Lemma first_from_step (i k : Z) (e : TEXTURE_INFO) :
  first_from arr tag' i k e -> first_from arr tag' (i + 1) k e.
Proof.
  intros (Hk & Ht & Hb). split; [exact Hk|]. split; [exact Ht|].
  intros j e' Hj. apply Hb. lia.
Qed.

Lemma FindTextureSlot_loop_hit (n : nat) : forall i k e,
  0 <= i -> i <= k < i + Z.of_nat n -> first_from arr tag' i k e ->
  FindTextureSlot_loop arr tag' n i = Ret k.
Proof.
  induction n as [|n IH]; intros i k e Hi Hk Hf; [lia|].
  pose proof Hf as (Hke & Ht & Hb).
  cbn [FindTextureSlot_loop].
  destruct (Z.eq_dec i k) as [->|Hik].
  - rewrite (array_read_lookup arr k e) by (lia || assumption). cbn [bind].
    apply String.eqb_eq in Ht. now rewrite Ht.
  - assert (Hlt : (Z.to_nat i < length arr)%nat).
    { apply lookup_lt_Some in Hke. lia. }
    destruct (lookup_lt_is_Some_2 arr _ Hlt) as [e' He'].
    rewrite (array_read_lookup arr i e') by (lia || assumption). cbn [bind].
    destruct (String.eqb_spec (tag e') tag') as [Heq|Hne].
    + exfalso. apply (Hb i e'); [lia|exact He'|exact Heq].
    + apply (IH (i + 1) k e); [lia|lia|]. now apply first_from_step.
Qed.

Lemma FindTextureID_loop_hit (n : nat) : forall i k e,
  0 <= i -> i <= k < i + Z.of_nat n -> first_from arr tag' i k e ->
  FindTextureID_loop arr tag' n i = Ret (int_of_GLuint (ID e)).
Proof.
  induction n as [|n IH]; intros i k e Hi Hk Hf; [lia|].
  pose proof Hf as (Hke & Ht & Hb).
  cbn [FindTextureID_loop].
  destruct (Z.eq_dec i k) as [->|Hik].
  - rewrite (array_read_lookup arr k e) by (lia || assumption). cbn [bind].
    apply String.eqb_eq in Ht. now rewrite Ht.
  - assert (Hlt : (Z.to_nat i < length arr)%nat).
    { apply lookup_lt_Some in Hke. lia. }
    destruct (lookup_lt_is_Some_2 arr _ Hlt) as [e' He'].
    rewrite (array_read_lookup arr i e') by (lia || assumption). cbn [bind].
    destruct (String.eqb_spec (tag e') tag') as [Heq|Hne].
    + exfalso. apply (Hb i e'); [lia|exact He'|exact Heq].
    + apply (IH (i + 1) k e); [lia|lia|]. now apply first_from_step.
Qed.

End Lookup.

Lemma FindTexture_miss (tag' : string) (st : SceneManager) :
  registry_ok st ->
  (forall i e, registered st i e -> tag e <> tag') ->
  FindTextureID tag' st = Ret (-1) /\ FindTextureSlot tag' st = Ret (-1).
Proof.
  intros [H0 Hlen] Hnone.
  assert (Hn : none_between (m_textureIDs st) tag' 0
                 (Z.to_nat (m_loadedTextures st))).
  { intros k e Hk He. apply (Hnone k e). split; [lia|exact He]. }
  split.
  - apply FindTextureID_loop_miss; [lia|lia|exact Hn].
  - apply FindTextureSlot_loop_miss; [lia|lia|exact Hn].
Qed.

Lemma FindTexture_hit (tag' : string) (st : SceneManager) (i : Z)
    (e : TEXTURE_INFO) :
  first_registered st tag' i e ->
  FindTextureID tag' st = Ret (int_of_GLuint (ID e)) /\
  FindTextureSlot tag' st = Ret i.
Proof.
  intros ([Hi He] & Ht & Hb).
  assert (Hf : first_from (m_textureIDs st) tag' 0 i e).
  { split; [exact He|]. split; [exact Ht|].
    intros j e' Hj He'. apply (Hb j e'); [|lia]. split; [lia|exact He']. }
  split.
  - apply (FindTextureID_loop_hit _ _ _ 0 i e); [lia|lia|exact Hf].
  - apply (FindTextureSlot_loop_hit _ _ _ 0 i e); [lia|lia|exact Hf].
Qed.

Lemma loadable_count_nonneg (requests : list (string * string)) :
  0 <= loadable_count stbi_load requests.
Proof.
  induction requests as [|r rest IH]; cbn; [lia|].
  destruct (loadable stbi_load (fst r)); lia.
Qed.

Lemma first_or_none (arr : list TEXTURE_INFO) (tag' : string) (n : nat) :
  (n <= length arr)%nat ->
  none_between arr tag' 0 n \/
  exists k e, 0 <= k < Z.of_nat n /\ first_from arr tag' 0 k e.
Proof.
  induction n as [|n IH]; intros Hn.
  - left. intros k e Hk. lia.
  - destruct IH as [Hnone|(k & e & Hk & Hf)]; [lia| |].
    + destruct (lookup_lt_is_Some_2 arr n) as [e He]; [lia|].
      destruct (String.eqb_spec (tag e) tag') as [Heq|Hne].
      * right. exists (Z.of_nat n), e. split; [lia|].
        split; [now rewrite Nat2Z.id|]. split; [exact Heq|].
        intros j e' Hj. apply Hnone. lia.
      * left. intros k e' Hk He'.
        destruct (Z.eq_dec k (Z.of_nat n)) as [->|Hkn].
        -- rewrite Nat2Z.id in He'. congruence.
        -- apply (Hnone k e'); [lia|exact He'].
    + right. exists k, e. split; [lia|exact Hf].
Qed.

Lemma first_registered_exists (st : SceneManager) (tag' : string) (i : Z)
    (e : TEXTURE_INFO) :
  registry_ok st -> registered st i e -> tag e = tag' ->
  exists k e', first_registered st tag' k e'.
Proof.
  intros [H0 Hlen] [Hi He] Ht.
  destruct (first_or_none (m_textureIDs st) tag'
              (Z.to_nat (m_loadedTextures st))) as [Hnone|(k & e' & Hk & Hf)].
  - lia.
  - exfalso. apply (Hnone i e); [lia|exact He|exact Ht].
  - destruct Hf as (Hke & Hkt & Hb).
    exists k, e'. split; [split; [lia|exact Hke]|]. split; [exact Hkt|].
    intros j e'' [Hj He''] Hjk. apply (Hb j e''); [lia|exact He''].
Qed.

(** ** Registration *)

Lemma CreateGLTexture_rejected (filename tag' : string) (st : SceneManager) :
  loadable stbi_load filename = false ->
  exists g, CreateGLTexture stbi_load filename tag' st = Ret (false, set_gl g st).
Proof.
  unfold loadable, CreateGLTexture.
  destruct (stbi_load filename) as [img|].
  - intros H. apply orb_false_iff in H as [H3 H4]. rewrite H3, H4. cbn.
    eexists. reflexivity.
  - intros _. exists (gl st). now destruct st.
Qed.

Lemma CreateGLTexture_registers (filename tag' : string) (st : SceneManager) :
  loadable stbi_load filename = true ->
  0 <= m_loadedTextures st < Z.of_nat (length (m_textureIDs st)) ->
  exists g,
    CreateGLTexture stbi_load filename tag' st =
    Ret (true,
         set_gl g
           (set_textures
              (<[Z.to_nat (m_loadedTextures st) :=
                   mkTEXTURE_INFO tag' (gl_fresh (gl st))]> (m_textureIDs st))
              (m_loadedTextures st + 1) st)).
Proof.
  unfold loadable, CreateGLTexture.
  destruct (stbi_load filename) as [img|]; [|discriminate].
  intros H Hr.
  destruct (colorChannels img =? 3) eqn:E3;
    [|destruct (colorChannels img =? 4) eqn:E4; [|discriminate]];
    cbn; rewrite array_write_in_range by exact Hr; cbn;
    eexists; reflexivity.
Qed.

Lemma CreateGLTexture_overflow (filename tag' : string) (st : SceneManager) :
  loadable stbi_load filename = true ->
  Z.of_nat (length (m_textureIDs st)) <= m_loadedTextures st ->
  CreateGLTexture stbi_load filename tag' st =
  Fault (OutOfBounds (m_loadedTextures st)).
Proof.
  unfold loadable, CreateGLTexture.
  destruct (stbi_load filename) as [img|]; [|discriminate].
  intros H Hr.
  destruct (colorChannels img =? 3) eqn:E3;
    [|destruct (colorChannels img =? 4) eqn:E4; [|discriminate]];
    cbn; rewrite array_write_out_of_range by exact Hr; reflexivity.
Qed.

Lemma load_textures_spec (requests : list (string * string)) :
  forall st,
  registry_ok st ->
  m_loadedTextures st + loadable_count stbi_load requests
    <= Z.of_nat (length (m_textureIDs st)) ->
  exists st',
    load_textures stbi_load requests st =
      Ret (map (fun r => loadable stbi_load (fst r)) requests, st') /\
    registry_ok st' /\
    m_loadedTextures st' =
      m_loadedTextures st + loadable_count stbi_load requests /\
    length (m_textureIDs st') = length (m_textureIDs st) /\
    (forall i e, registered st i e -> registered st' i e) /\
    (forall f t, In (f, t) requests -> loadable stbi_load f = true ->
       exists i e, registered st' i e /\ tag e = t).
Proof.
  induction requests as [|[f t] rest IH]; intros st Hok Hcap.
  - exists st. cbn [load_textures loadable_count map] in *.
    split; [reflexivity|]. split; [exact Hok|]. split; [lia|].
    split; [reflexivity|]. split; [auto|]. intros f t [].
  - cbn [loadable_count fst] in Hcap.
    pose proof (loadable_count_nonneg rest) as Hnn.
    cbn [load_textures].
    destruct (loadable stbi_load f) eqn:Hl.
    + destruct Hok as [H0 Hlen].
      destruct (CreateGLTexture_registers f t st Hl) as [g Hg]; [lia|].
      rewrite Hg. cbn [bind snd fst].
      set (st1 := set_gl g _).
      assert (Hlen1 : length (m_textureIDs st1) = length (m_textureIDs st)).
      { subst st1. cbn. apply length_insert. }
      assert (Hn1 : m_loadedTextures st1 = m_loadedTextures st + 1)
        by reflexivity.
      assert (Hnew : registered st1 (m_loadedTextures st)
                       (mkTEXTURE_INFO t (gl_fresh (gl st)))).
      { split; [lia|]. subst st1. cbn.
        apply list_lookup_insert_eq. lia. }
      assert (Hold : forall i e, registered st i e -> registered st1 i e).
      { intros i e [Hi He]. split; [lia|]. subst st1. cbn.
        rewrite list_lookup_insert_ne by lia. exact He. }
      destruct (IH st1) as (st' & Hrun & Hok' & Hn' & Hlen' & Hkeep & Hres).
      { split; lia. }
      { lia. }
      exists st'. rewrite Hrun. cbn [bind fst snd map].
      rewrite Hl. split; [reflexivity|]. split; [exact Hok'|].
      split; [cbn [loadable_count fst]; rewrite Hl; lia|].
      split; [lia|]. split; [auto|].
      intros f' t' [Heq|Hin] Hl'.
      * inversion Heq; subst f' t'.
        exists (m_loadedTextures st), (mkTEXTURE_INFO t (gl_fresh (gl st))).
        split; [auto|reflexivity].
      * eauto.
    + destruct (CreateGLTexture_rejected f t st Hl) as [g Hg].
      rewrite Hg. cbn [bind snd fst].
      destruct (IH (set_gl g st)) as (st' & Hrun & Hok' & Hn' & Hlen' & Hkeep & Hres).
      { exact Hok. }
      { cbn. lia. }
      exists st'. rewrite Hrun. cbn [bind fst snd map].
      rewrite Hl. split; [reflexivity|]. split; [exact Hok'|].
      split; [cbn [loadable_count fst]; rewrite Hl; exact Hn'|].
      split; [exact Hlen'|]. split; [exact Hkeep|].
      intros f' t' [Heq|Hin] Hl'.
      * inversion Heq; subst f' t'. congruence.
      * eauto.
Qed.

(** ** Binding and teardown *)

Lemma BindGLTextures_loop_spec (arr : list TEXTURE_INFO) (n : nat) :
  forall i g,
  0 <= i -> i + Z.of_nat n <= Z.of_nat (length arr) ->
  exists g',
    BindGLTextures_loop arr n i g = Ret g' /\
    (forall k e, i <= k < i + Z.of_nat n -> arr !! Z.to_nat k = Some e ->
                 gl_units g' !! k = Some (ID e)) /\
    (forall k, k < i -> gl_units g' !! k = gl_units g !! k).
Proof.
  induction n as [|n IH]; intros i g Hi Hlen.
  - exists g. split; [reflexivity|]. split; [intros; lia|reflexivity].
  - destruct (array_read_in_range arr i) as (e & He & Hr); [lia|].
    cbn [BindGLTextures_loop]. rewrite Hr. cbn [bind].
    set (g1 := glBindTexture (ID e) (glActiveTexture i g)).
    assert (Hu : gl_units g1 = <[i := ID e]> (gl_units g)) by reflexivity.
    destruct (IH (i + 1) g1) as (g' & Hrun & Hnew & Hold); [lia|lia|].
    exists g'. split; [exact Hrun|]. split.
    + intros k e' Hk He'.
      destruct (Z.eq_dec k i) as [->|Hki].
      * rewrite Hold by lia. rewrite Hu, lookup_insert_eq. congruence.
      * apply Hnew; [lia|exact He'].
    + intros k Hk. rewrite Hold by lia.
      rewrite Hu. apply lookup_insert_ne. lia.
Qed.

Lemma DestroyGLTextures_loop_spec (n : nat) :
  forall i arr g,
  0 <= i -> i + Z.of_nat n <= Z.of_nat (length arr) ->
  exists arr' g' news,
    DestroyGLTextures_loop n i arr g = Ret (arr', g') /\
    length arr' = length arr /\
    length news = n /\
    gl_trace g' = gl_trace g ++ map GenTextures news /\
    gl_names g' = rev news ++ gl_names g.
Proof.
  induction n as [|n IH]; intros i arr g Hi Hlen.
  - exists arr, g, []. cbn. rewrite app_nil_r. auto.
  - destruct (array_read_in_range arr i) as (e & He & Hr); [lia|].
    cbn [DestroyGLTextures_loop]. rewrite Hr. cbn [bind glGenTextures].
    rewrite array_write_in_range by lia. cbn [bind].
    match goal with
    | |- context [DestroyGLTextures_loop n (i + 1) ?a ?h] =>
        destruct (IH (i + 1) a h) as (arr' & g' & news & Hrun & Hl & Hn & Ht & Hnm)
    end.
    { lia. }
    { rewrite length_insert. lia. }
    exists arr', g', (gl_fresh g :: news).
    split; [exact Hrun|].
    split; [rewrite Hl; apply length_insert|].
    split; [cbn; lia|].
    split.
    + rewrite Ht. cbn. now rewrite <- app_assoc.
    + rewrite Hnm. cbn. now rewrite <- app_assoc.
Qed.

(** ** The material table *)

Lemma FindMaterial_loop_first (ms : list OBJECT_MATERIAL) (tag' : string)
    (material : OBJECT_MATERIAL) :
  FindMaterial_loop ms tag' material =
  match first_material ms tag' with
  | Some m =>
      mkOBJECT_MATERIAL (ambientColor m) (ambientStrength m) (diffuseColor m)
        (specularColor m) (shininess m) (material_tag material)
  | None => material
  end.
Proof.
  induction ms as [|m rest IH]; [reflexivity|].
  cbn. destruct (String.eqb (material_tag m) tag'); [reflexivity|exact IH].
Qed.

Lemma FindMaterial_empty (tag' : string) (material : OBJECT_MATERIAL)
    (st : SceneManager) :
  m_objectMaterials st = [] ->
  FindMaterial tag' material st = (false, material).
Proof. intros H. unfold FindMaterial. now rewrite H. Qed.

Lemma FindMaterial_nonempty (tag' : string) (material : OBJECT_MATERIAL)
    (st : SceneManager) :
  m_objectMaterials st <> [] ->
  FindMaterial tag' material st =
  (true, FindMaterial_loop (m_objectMaterials st) tag' material).
Proof.
  intros H. unfold FindMaterial.
  destruct (m_objectMaterials st); [congruence|reflexivity].
Qed.

Lemma SetShaderMaterial_nonempty (materialTag : string)
    (material : OBJECT_MATERIAL) (st : SceneManager) (sh : ShaderManager) :
  m_objectMaterials st <> [] ->
  m_pShaderManager st = Some sh ->
  SetShaderMaterial materialTag material st =
  Ret (set_shader
         (Some (sh ++ material_uniforms
                        (FindMaterial_loop (m_objectMaterials st) materialTag
                                           material))) st).
Proof.
  intros Hne Hsh. unfold SetShaderMaterial.
  rewrite (FindMaterial_nonempty _ _ _ Hne), Hsh.
  destruct (m_objectMaterials st); [congruence|reflexivity].
Qed.

Lemma material_uniforms_fields (m material : OBJECT_MATERIAL) :
  material_uniforms
    (mkOBJECT_MATERIAL (ambientColor m) (ambientStrength m) (diffuseColor m)
       (specularColor m) (shininess m) (material_tag material)) =
  material_uniforms m.
Proof. reflexivity. Qed.

Lemma first_material_nonempty (ms : list OBJECT_MATERIAL) (tag' : string)
    (p : OBJECT_MATERIAL) :
  first_material ms tag' = Some p -> ms <> [].
Proof. destruct ms; [discriminate|congruence]. Qed.

Lemma first_material_tag (ms : list OBJECT_MATERIAL) (tag' : string)
    (p : OBJECT_MATERIAL) :
  first_material ms tag' = Some p -> material_tag p = tag'.
Proof.
  induction ms as [|m rest IH]; [discriminate|]. cbn.
  destruct (String.eqb_spec (material_tag m) tag') as [Heq|Hne].
  - intros H. injection H as <-. exact Heq.
  - exact IH.
Qed.

Lemma FindMaterial_present (tag' : string) (material p : OBJECT_MATERIAL)
    (st : SceneManager) :
  first_material (m_objectMaterials st) tag' = Some p ->
  FindMaterial tag' material st =
  (true,
   mkOBJECT_MATERIAL (ambientColor p) (ambientStrength p) (diffuseColor p)
     (specularColor p) (shininess p) (material_tag material)).
Proof.
  intros Hp.
  rewrite FindMaterial_nonempty by (eapply first_material_nonempty; eauto).
  now rewrite FindMaterial_loop_first, Hp.
Qed.

Lemma FindMaterial_absent (tag' : string) (material : OBJECT_MATERIAL)
    (st : SceneManager) :
  m_objectMaterials st <> [] ->
  first_material (m_objectMaterials st) tag' = None ->
  FindMaterial tag' material st = (true, material).
Proof.
  intros Hne Hp. rewrite FindMaterial_nonempty by exact Hne.
  now rewrite FindMaterial_loop_first, Hp.
Qed.

Lemma SetShaderMaterial_empty (materialTag : string)
    (material : OBJECT_MATERIAL) (st : SceneManager) :
  m_objectMaterials st = [] ->
  SetShaderMaterial materialTag material st = Ret st.
Proof. intros H. unfold SetShaderMaterial. now rewrite H. Qed.

Lemma SetShaderMaterial_present (materialTag : string)
    (material p : OBJECT_MATERIAL) (st : SceneManager) (sh : ShaderManager) :
  first_material (m_objectMaterials st) materialTag = Some p ->
  m_pShaderManager st = Some sh ->
  SetShaderMaterial materialTag material st =
  Ret (set_shader (Some (sh ++ material_uniforms p)) st).
Proof.
  intros Hp Hsh.
  rewrite (SetShaderMaterial_nonempty materialTag material st sh)
    by (assumption || eapply first_material_nonempty; eauto).
  now rewrite FindMaterial_loop_first, Hp, material_uniforms_fields.
Qed.

Lemma SetShaderMaterial_absent (materialTag : string)
    (material : OBJECT_MATERIAL) (st : SceneManager) (sh : ShaderManager) :
  m_objectMaterials st <> [] ->
  first_material (m_objectMaterials st) materialTag = None ->
  m_pShaderManager st = Some sh ->
  SetShaderMaterial materialTag material st =
  Ret (set_shader (Some (sh ++ material_uniforms material)) st).
Proof.
  intros Hne Hp Hsh.
  rewrite (SetShaderMaterial_nonempty materialTag material st sh) by assumption.
  now rewrite FindMaterial_loop_first, Hp.
Qed.

Lemma SetShaderMaterial_null (materialTag : string)
    (material : OBJECT_MATERIAL) (st : SceneManager) :
  m_objectMaterials st <> [] ->
  m_pShaderManager st = None ->
  SetShaderMaterial materialTag material st = Fault NullDereference.
Proof.
  intros Hne Hsh. unfold SetShaderMaterial.
  rewrite (FindMaterial_nonempty _ _ _ Hne), Hsh.
  destruct (m_objectMaterials st); [congruence|reflexivity].
Qed.

Lemma DestroyGLTextures_spec (st : SceneManager) :
  registry_ok st ->
  exists st' news,
    DestroyGLTextures st = Ret st' /\
    Z.of_nat (length news) = m_loadedTextures st /\
    gl_trace (gl st') = gl_trace (gl st) ++ map GenTextures news /\
    gl_names (gl st') = rev news ++ gl_names (gl st).
Proof.
  intros [H0 Hlen]. unfold DestroyGLTextures.
  destruct (DestroyGLTextures_loop_spec (Z.to_nat (m_loadedTextures st)) 0
              (m_textureIDs st) (gl st))
    as (arr' & g' & news & Hrun & _ & Hn & Ht & Hnm); [lia|lia|].
  rewrite Hrun. cbn [bind fst snd]. eexists. exists news.
  split; [reflexivity|]. split; [lia|]. split; [exact Ht|exact Hnm].
Qed.

(** ** Exact arithmetic

    With the laws of a ring on the scalars, matrix products may be
    regrouped and the factors act on a column vector one after the
    other. *)

Section Exact.

Hypothesis float_ring : ring_theory fzero fone fadd fmul fsub fopp eq.
Hypothesis inversesqrt_one : finversesqrt fone = fone.

Add Ring float_ring_inst : float_ring.

Ltac unfold_mat4 :=
  cbv [mat4_mul_vec mat4_mul mat4_mul_col vec4_add vec4_scale mat4_identity
       glm_scale glm_translate Scale Translation
       col0 col1 col2 col3 v4x v4y v4z v4w v3x v3y v3z].

(* a matrix applied to a linear combination of columns *)
Lemma mat4_mul_col_assoc (a b : mat4) (c : vec4) :
  mat4_mul_col (mat4_mul a b) c = mat4_mul_col a (mat4_mul_col b c).
Proof.
  destruct a as [[? ? ? ?] [? ? ? ?] [? ? ? ?] [? ? ? ?]].
  destruct b as [[? ? ? ?] [? ? ? ?] [? ? ? ?] [? ? ? ?]].
  destruct c as [? ? ? ?].
  unfold_mat4. f_equal; ring.
Qed.

Lemma mat4_mul_vec_col (a : mat4) (v : vec4) :
  mat4_mul_vec a v = mat4_mul_col a v.
Proof.
  destruct a as [[? ? ? ?] [? ? ? ?] [? ? ? ?] [? ? ? ?]].
  destruct v as [? ? ? ?].
  unfold_mat4. f_equal; ring.
Qed.

Lemma mat4_mul_vec_assoc (a b : mat4) (v : vec4) :
  mat4_mul_vec (mat4_mul a b) v = mat4_mul_vec a (mat4_mul_vec b v).
Proof. rewrite !mat4_mul_vec_col. apply mat4_mul_col_assoc. Qed.

Lemma mat4_mul_assoc (a b c : mat4) :
  mat4_mul (mat4_mul a b) c = mat4_mul a (mat4_mul b c).
Proof.
  unfold mat4_mul at 1 3. cbn [col0 col1 col2 col3].
  now rewrite !mat4_mul_col_assoc.
Qed.

(* what each factor does to a column vector *)
Lemma Scale_action (s : vec3) (v : vec4) :
  mat4_mul_vec (Scale s) v =
  mkvec4 (fmul (v3x s) (v4x v)) (fmul (v3y s) (v4y v))
         (fmul (v3z s) (v4z v)) (v4w v).
Proof.
  destruct s, v. unfold_mat4. f_equal; ring.
Qed.

Lemma Translation_action (t : vec3) (v : vec4) :
  mat4_mul_vec (Translation t) v =
  mkvec4 (fadd (v4x v) (fmul (v3x t) (v4w v)))
         (fadd (v4y v) (fmul (v3y t) (v4w v)))
         (fadd (v4z v) (fmul (v3z t) (v4w v))) (v4w v).
Proof.
  destruct t, v. unfold_mat4. f_equal; ring.
Qed.

Lemma normalize_unit_x : glm_normalize (mkvec3 fone fzero fzero) = mkvec3 fone fzero fzero.
Proof.
  unfold glm_normalize; cbv [v3x v3y v3z].
  replace (fadd (fadd (fmul fone fone) (fmul fzero fzero)) (fmul fzero fzero))
    with fone by ring.
  rewrite inversesqrt_one. f_equal; ring.
Qed.

Lemma normalize_unit_y : glm_normalize (mkvec3 fzero fone fzero) = mkvec3 fzero fone fzero.
Proof.
  unfold glm_normalize; cbv [v3x v3y v3z].
  replace (fadd (fadd (fmul fzero fzero) (fmul fone fone)) (fmul fzero fzero))
    with fone by ring.
  rewrite inversesqrt_one. f_equal; ring.
Qed.

Lemma normalize_unit_z : glm_normalize (mkvec3 fzero fzero fone) = mkvec3 fzero fzero fone.
Proof.
  unfold glm_normalize; cbv [v3x v3y v3z].
  replace (fadd (fadd (fmul fzero fzero) (fmul fzero fzero)) (fmul fone fone))
    with fone by ring.
  rewrite inversesqrt_one. f_equal; ring.
Qed.

Lemma RotationY_action (degrees : float) (v : vec4) :
  let c := fcos (glm_radians degrees) in
  let s := fsin (glm_radians degrees) in
  mat4_mul_vec (RotationY degrees) v =
  mkvec4 (fadd (fmul c (v4x v)) (fmul s (v4z v)))
         (v4y v)
         (fsub (fmul c (v4z v)) (fmul s (v4x v)))
         (v4w v).
Proof.
  destruct v. unfold RotationY, glm_rotate. rewrite normalize_unit_y.
  unfold_mat4. f_equal; ring.
Qed.

Lemma RotationZ_action (degrees : float) (v : vec4) :
  let c := fcos (glm_radians degrees) in
  let s := fsin (glm_radians degrees) in
  mat4_mul_vec (RotationZ degrees) v =
  mkvec4 (fsub (fmul c (v4x v)) (fmul s (v4y v)))
         (fadd (fmul s (v4x v)) (fmul c (v4y v)))
         (v4z v)
         (v4w v).
Proof.
  destruct v. unfold RotationZ, glm_rotate. rewrite normalize_unit_z.
  unfold_mat4. f_equal; ring.
Qed.

Lemma RotationX_action (degrees : float) (v : vec4) :
  let c := fcos (glm_radians degrees) in
  let s := fsin (glm_radians degrees) in
  mat4_mul_vec (RotationX degrees) v =
  mkvec4 (v4x v)
         (fsub (fmul c (v4y v)) (fmul s (v4z v)))
         (fadd (fmul s (v4y v)) (fmul c (v4z v)))
         (v4w v).
Proof.
  destruct v. unfold RotationX, glm_rotate. rewrite normalize_unit_x.
  unfold_mat4. f_equal; ring.
Qed.

End Exact.

(** C1 (amended).  With a shader manager present, [SetTransformations]
    hands it, under the name "model", the product Translation x
    RotationX x RotationY x RotationZ x Scale, the factors in exactly
    that order and multiplied from the left as C++ groups them; this
    part holds for any scalar arithmetic.  When the scalars obey the
    ring laws the product may be regrouped, and on a column vector the
    matrix applies the scale first, then the rotation about Z, then the
    one about Y, then the one about X, and the translation last. *)
Theorem SetTransformations_pushes_T_Rx_Ry_Rz_S
    (scaleXYZ : vec3) (rx ry rz : float) (positionXYZ : vec3)
    (st : SceneManager) (sh : ShaderManager) :
  m_pShaderManager st = Some sh ->
  SetTransformations scaleXYZ rx ry rz positionXYZ st =
    set_shader
      (Some (sh ++ [setMat4Value g_ModelName
                      (ComposeModelMatrix scaleXYZ rx ry rz positionXYZ)])) st
  /\ (ring_theory fzero fone fadd fmul fsub fopp eq ->
      ComposeModelMatrix scaleXYZ rx ry rz positionXYZ =
        mat4_mul (Translation positionXYZ)
          (mat4_mul (RotationX rx)
             (mat4_mul (RotationY ry)
                (mat4_mul (RotationZ rz) (Scale scaleXYZ))))
      /\ forall v,
           mat4_mul_vec (ComposeModelMatrix scaleXYZ rx ry rz positionXYZ) v =
           mat4_mul_vec (Translation positionXYZ)
             (mat4_mul_vec (RotationX rx)
                (mat4_mul_vec (RotationY ry)
                   (mat4_mul_vec (RotationZ rz)
                      (mat4_mul_vec (Scale scaleXYZ) v))))).
Proof.
  intros Hsh. split.
  - unfold SetTransformations. rewrite Hsh. reflexivity.
  - intros Hring. split.
    + unfold ComposeModelMatrix. now rewrite !(mat4_mul_assoc Hring).
    + intros v. unfold ComposeModelMatrix.
      now rewrite !(mat4_mul_vec_assoc Hring).
Qed.

(** ** Claims on the registry and the setters *)

Lemma current_uniform_app_hit (name : string) (calls later : ShaderManager)
    (c : uniform_call) :
  current_uniform name later = Some c ->
  current_uniform name (calls ++ later) = Some c.
Proof.
  intros H. induction calls as [|c0 calls IH]; [exact H|].
  cbn. now rewrite IH.
Qed.

Lemma current_uniform_last_but (name : string) (calls : ShaderManager)
    (c d : uniform_call) :
  uniform_name d = name -> 
  current_uniform name (calls ++ [c; d]) = Some d.
Proof.
  intros Hd. apply current_uniform_app_hit. cbn.
  apply String.eqb_eq in Hd. now rewrite Hd.
Qed.

Lemma current_uniform_snoc2 (calls : ShaderManager) (n : string) (v s : Z)
    (m : string) :
  n <> m ->
  current_uniform n (calls ++ [setIntValue n v; setSampler2DValue m s]) =
  Some (setIntValue n v).
Proof.
  intros Hnm. apply current_uniform_app_hit. cbn.
  apply String.eqb_neq in Hnm. rewrite String.eqb_sym in Hnm.
  rewrite Hnm. now rewrite String.eqb_refl.
Qed.

Lemma CreateGLTexture_true_inv (filename tag' : string) (st st' : SceneManager) :
  registry_ok st ->
  CreateGLTexture stbi_load filename tag' st = Ret (true, st') ->
  m_loadedTextures st < Z.of_nat (length (m_textureIDs st)) /\
  exists g,
    st' = set_gl g
            (set_textures
               (<[Z.to_nat (m_loadedTextures st) :=
                    mkTEXTURE_INFO tag' (gl_fresh (gl st))]> (m_textureIDs st))
               (m_loadedTextures st + 1) st).
Proof.
  intros [H0 Hlen] Hrun.
  destruct (loadable stbi_load filename) eqn:Hl.
  - destruct (Z.lt_ge_cases (m_loadedTextures st)
                (Z.of_nat (length (m_textureIDs st)))) as [Hlt|Hge].
    + split; [exact Hlt|].
      destruct (CreateGLTexture_registers filename tag' st Hl) as [g Hg]; [lia|].
      exists g. rewrite Hg in Hrun. now inversion Hrun.
    + rewrite (CreateGLTexture_overflow filename tag' st Hl Hge) in Hrun.
      discriminate.
  - destruct (CreateGLTexture_rejected filename tag' st Hl) as [g Hg].
    rewrite Hg in Hrun. discriminate.
Qed.

(** C6.  On a registry whose counter is within the array, a tag carried
    by no registered entry makes both lookups return -1; a tag whose
    first registered entry sits in slot [i] makes [FindTextureSlot]
    return [i] and [FindTextureID] return that entry's handle (read as
    an [int]: the handle itself below 2^31).  After a successful
    [CreateGLTexture] with the tag, the lookups return the new slot and
    handle when the tag was new, and the earlier entry's when it was
    already registered. *)
Theorem FindTexture_round_trip (tag' : string) (st : SceneManager) :
  registry_ok st ->
  ((forall i e, registered st i e -> tag e <> tag') ->
     FindTextureID tag' st = Ret (-1) /\ FindTextureSlot tag' st = Ret (-1)) /\
  (forall i e, first_registered st tag' i e ->
     FindTextureID tag' st = Ret (int_of_GLuint (ID e)) /\
     (0 <= ID e < 2 ^ 31 -> FindTextureID tag' st = Ret (ID e)) /\
     FindTextureSlot tag' st = Ret i) /\
  (forall filename st',
     CreateGLTexture stbi_load filename tag' st = Ret (true, st') ->
     exists handle,
       registered st' (m_loadedTextures st) (mkTEXTURE_INFO tag' handle) /\
       ((forall i e, registered st i e -> tag e <> tag') ->
          FindTextureID tag' st' = Ret (int_of_GLuint handle) /\
          FindTextureSlot tag' st' = Ret (m_loadedTextures st)) /\
       (forall i e, first_registered st tag' i e ->
          FindTextureID tag' st' = Ret (int_of_GLuint (ID e)) /\
          FindTextureSlot tag' st' = Ret i)).
Proof.
  intros Hok. split; [|split].
  - apply FindTexture_miss. exact Hok.
  - intros i e Hf. destruct (FindTexture_hit tag' st i e Hf) as [HID Hslot].
    split; [exact HID|]. split; [|exact Hslot].
    intros Hr. rewrite HID. now rewrite int_of_GLuint_small.
  - intros filename st' Hrun.
    destruct (CreateGLTexture_true_inv filename tag' st st' Hok Hrun)
      as (Hlt & g & ->).
    destruct Hok as [H0 Hlen].
    set (new := mkTEXTURE_INFO tag' (gl_fresh (gl st))).
    set (st' := set_gl g _).
    assert (Hnew : registered st' (m_loadedTextures st) new).
    { split; [cbn; lia|]. cbn. apply list_lookup_insert_eq. lia. }
    assert (Hback : forall j e, registered st' j e -> j < m_loadedTextures st ->
                                registered st j e).
    { intros j e [Hj He] Hjl. split; [lia|]. cbn in He.
      rewrite list_lookup_insert_ne in He by lia. exact He. }
    assert (Hfwd : forall j e, registered st j e -> registered st' j e).
    { intros j e [Hj He]. split; [cbn; lia|]. cbn.
      rewrite list_lookup_insert_ne by lia. exact He. }
    exists (gl_fresh (gl st)). split; [exact Hnew|]. split.
    + intros Hnone.
      apply (FindTexture_hit tag' st' (m_loadedTextures st) new).
      split; [exact Hnew|]. split; [reflexivity|].
      intros j e Hj Hjl. apply (Hnone j e). now apply Hback.
    + intros i e (Hreg & Ht & Hb).
      apply (FindTexture_hit tag' st' i e).
      split; [now apply Hfwd|]. split; [exact Ht|].
      intros j e' Hj Hji. apply (Hb j e'); [|exact Hji].
      apply Hback; [exact Hj|]. destruct Hreg. lia.
Qed.

(** C7.  With N textures registered, [BindGLTextures] leaves texture
    unit [i] bound to the handle registered in slot [i], for every
    [i] in [0, N), and changes nothing in the registry. *)
Theorem BindGLTextures_units (st : SceneManager) :
  registry_ok st ->
  exists st',
    BindGLTextures st = Ret st' /\
    (forall i e, registered st i e -> gl_units (gl st') !! i = Some (ID e)) /\
    m_textureIDs st' = m_textureIDs st /\
    m_loadedTextures st' = m_loadedTextures st.
Proof.
  intros [H0 Hlen]. unfold BindGLTextures.
  destruct (BindGLTextures_loop_spec (m_textureIDs st)
              (Z.to_nat (m_loadedTextures st)) 0 (gl st))
    as (g' & Hrun & Hnew & _); [lia|lia|].
  rewrite Hrun. cbn [bind]. eexists. split; [reflexivity|].
  split; [|split; reflexivity].
  intros i e [Hi He]. cbn. apply Hnew; [lia|exact He].
Qed.

Lemma all_loadable_count (requests : list (string * string)) :
  (forall f t, In (f, t) requests -> loadable stbi_load f = true) ->
  loadable_count stbi_load requests = Z.of_nat (length requests) /\
  map (fun r => loadable stbi_load (fst r)) requests =
  map (fun _ => true) requests.
Proof.
  induction requests as [|[f t] rest IH]; intros Hall; [split; reflexivity|].
  destruct IH as [Hc Hm].
  { intros f' t' Hin. apply (Hall f' t'). now right. }
  assert (Hl : loadable stbi_load f = true) by (apply (Hall f t); now left).
  cbn [loadable_count map fst length]. rewrite Hl, Hc, Hm. split; [lia|reflexivity].
Qed.

Lemma loadable_count_app (l1 l2 : list (string * string)) :
  loadable_count stbi_load (l1 ++ l2) =
  loadable_count stbi_load l1 + loadable_count stbi_load l2.
Proof.
  induction l1 as [|r l1 IH]; cbn [app loadable_count]; [lia|].
  rewrite IH. lia.
Qed.

(** C8.  In a run of [CreateGLTexture] calls where one file cannot be
    decoded or has a channel count other than 3 and 4, and the other
    files can be loaded and fit in the array: the failing call returns
    false, every other call returns true, and after the run the tag of
    every other call resolves, through both lookups, to a registered
    entry carrying that tag. *)
Theorem load_failure_isolated (before after : list (string * string))
    (filename tag' : string) (st : SceneManager) :
  registry_ok st ->
  loadable stbi_load filename = false ->
  (forall f t, In (f, t) (before ++ after) -> loadable stbi_load f = true) ->
  m_loadedTextures st + Z.of_nat (length (before ++ after))
    <= Z.of_nat (length (m_textureIDs st)) ->
  exists st',
    load_textures stbi_load (before ++ (filename, tag') :: after) st =
      Ret (map (fun _ => true) before ++ false :: map (fun _ => true) after,
           st') /\
    m_loadedTextures st' =
      m_loadedTextures st + Z.of_nat (length (before ++ after)) /\
    forall f t, In (f, t) (before ++ after) ->
      exists i e,
        first_registered st' t i e /\
        FindTextureSlot t st' = Ret i /\
        FindTextureID t st' = Ret (int_of_GLuint (ID e)).
Proof.
  intros Hok Hbad Hall Hcap.
  assert (Hb : forall f t, In (f, t) before -> loadable stbi_load f = true).
  { intros f t Hin. apply (Hall f t). apply in_or_app. now left. }
  assert (Ha : forall f t, In (f, t) after -> loadable stbi_load f = true).
  { intros f t Hin. apply (Hall f t). apply in_or_app. now right. }
  destruct (all_loadable_count before Hb) as [Hcb Hmb].
  destruct (all_loadable_count after Ha) as [Hca Hma].
  assert (Hcount : loadable_count stbi_load (before ++ (filename, tag') :: after)
                   = Z.of_nat (length (before ++ after))).
  { rewrite loadable_count_app. cbn [loadable_count fst].
    rewrite Hbad, Hcb, Hca, length_app. lia. }
  destruct (load_textures_spec (before ++ (filename, tag') :: after) st Hok)
    as (st' & Hrun & Hok' & Hn & _ & _ & Hres).
  { rewrite Hcount. exact Hcap. }
  exists st'. split; [|split].
  - rewrite Hrun. rewrite map_app. cbn [map fst]. now rewrite Hbad, Hmb, Hma.
  - rewrite Hn, Hcount. reflexivity.
  - intros f t Hin.
    destruct (Hres f t) as (i & e & Hreg & Ht).
    { apply in_app_or in Hin as [Hin|Hin]; apply in_or_app;
        [now left|right; now right]. }
    { now apply (Hall f t). }
    destruct (first_registered_exists st' t i e Hok' Hreg Ht) as (k & e' & Hf).
    exists k, e'. split; [exact Hf|].
    destruct (FindTexture_hit t st' k e' Hf) as [HID Hslot]. now split.
Qed.

(** C9.  With a shader manager present and a registry whose counter is
    within the array, [SetShaderTexture] on a tag that no registered
    entry carries returns normally, having set "bUseTexture" to true and
    "objectTexture" to -1; a following [SetShaderTexture] on a tag whose
    first registered entry is in slot [i] sets "objectTexture" to [i],
    which is then the value the uniform holds. *)
Theorem SetShaderTexture_unresolved_then_resolved (missing : string)
    (st : SceneManager) (sh : ShaderManager) :
  registry_ok st ->
  m_pShaderManager st = Some sh ->
  (forall i e, registered st i e -> tag e <> missing) ->
  let sh1 := sh ++ [setIntValue g_UseTextureName 1;
                    setSampler2DValue g_TextureValueName (-1)] in
  SetShaderTexture missing st = Ret (set_shader (Some sh1) st) /\
  forall textureTag i e,
    first_registered st textureTag i e ->
    let sh2 := sh1 ++ [setIntValue g_UseTextureName 1;
                       setSampler2DValue g_TextureValueName i] in
    SetShaderTexture textureTag (set_shader (Some sh1) st) =
      Ret (set_shader (Some sh2) st) /\
    current_uniform g_TextureValueName sh2 =
      Some (setSampler2DValue g_TextureValueName i) /\
    current_uniform g_UseTextureName sh2 =
      Some (setIntValue g_UseTextureName 1).
Proof.
  intros Hok Hsh Hnone sh1. split.
  - unfold SetShaderTexture. rewrite Hsh.
    destruct (FindTexture_miss missing st Hok Hnone) as [_ Hslot].
    rewrite Hslot. cbn [bind]. subst sh1. now rewrite <- app_assoc.
  - intros textureTag i e Hf sh2.
    assert (Hf1 : first_registered (set_shader (Some sh1) st) textureTag i e)
      by exact Hf.
    destruct (FindTexture_hit textureTag _ i e Hf1) as [_ Hslot].
    split; [|split].
    + unfold SetShaderTexture. cbn [m_pShaderManager set_shader].
      rewrite Hslot. cbn [bind]. subst sh2. rewrite <- app_assoc.
      now destruct st.
    + subst sh2. apply current_uniform_last_but. reflexivity.
    + subst sh2. apply current_uniform_snoc2. discriminate.
Qed.

(** C10.  On a scene manager constructed with a null shader manager,
    [SetTransformations], [SetShaderColor], [SetShaderTexture] and
    [SetTextureUVScale] return with the state unchanged: no uniform is
    set and the pointer is not used. *)
Theorem null_shader_setters_are_noops (st : SceneManager)
    (scaleXYZ positionXYZ : vec3) (rx ry rz r g b a u v : float)
    (textureTag : string) :
  m_pShaderManager st = None ->
  SetTransformations scaleXYZ rx ry rz positionXYZ st = st /\
  SetShaderColor r g b a st = st /\
  SetShaderTexture textureTag st = Ret st /\
  SetTextureUVScale u v st = st.
Proof.
  intros Hnull.
  unfold SetTransformations, SetShaderColor, SetShaderTexture,
    SetTextureUVScale.
  rewrite Hnull. repeat split.
Qed.

End Properties.

(** * Evaluation on concrete scenes *)

(* the specification's sample: scale (2,1,1), rotation (0,90,0),
   translation (1,0,0) *)
Example ComposeModelMatrix_sample :
  @ComposeModelMatrix ZFloat (sample_vec3 2 1 1) 0 90 0 (sample_vec3 1 0 0) =
  @mkmat4 ZFloat (@mkvec4 ZFloat 0 0 (-2) 0) (@mkvec4 ZFloat 0 1 0 0)
                 (@mkvec4 ZFloat 1 0 0 0) (@mkvec4 ZFloat 1 0 0 1).
Proof. reflexivity. Qed.

(* the order of the factors matters: exchanging RotationX and RotationY
   gives another matrix *)
Example rotation_order_matters :
  @mat4_mul ZFloat (@RotationX ZFloat 90) (@RotationY ZFloat 90) <>
  @mat4_mul ZFloat (@RotationY ZFloat 90) (@RotationX ZFloat 90).
Proof. vm_compute. discriminate. Qed.

Example sample_registry :
  m_loadedTextures two_textures = 2 /\
  map tag (take 3 (m_textureIDs two_textures)) = ["Wood"; "Logo"; "/0"] /\
  map ID (take 3 (m_textureIDs two_textures)) = [1; 2; 4294967295].
Proof. vm_compute. auto. Qed.

(* LoadSceneTextures when the second of its five files is missing: the
   other four are registered in order and bound to units 0 to 3 *)
Example LoadSceneTextures_one_missing :
  exists st',
    LoadSceneTextures scene_files_one_missing sample_scene = Ret st' /\
    m_loadedTextures st' = 4 /\
    map tag (take 4 (m_textureIDs st')) =
      ["Wood"; "Magazine Cover"; "Black Metal"; "White"] /\
    FindTextureSlot "Metal" st' = Ret (-1) /\
    FindTextureSlot "White" st' = Ret 3 /\
    map (fun i => gl_units (gl st') !! i) [0; 1; 2; 3] =
      map (fun e => Some (ID e)) (take 4 (m_textureIDs st')).
Proof.
  eexists. split; [vm_compute; reflexivity|].
  vm_compute. repeat split.
Qed.

Lemma SetTransformations_pushes_witness :
  m_pShaderManager sample_scene = Some [] /\
  (@SetTransformations ZFloat (sample_vec3 2 1 1) 0 90 0 (sample_vec3 1 0 0)
       sample_scene =
     set_shader
       (Some ([] ++ [setMat4Value g_ModelName
                       (@ComposeModelMatrix ZFloat (sample_vec3 2 1 1) 0 90 0
                          (sample_vec3 1 0 0))])) sample_scene
   /\ @ComposeModelMatrix ZFloat (sample_vec3 2 1 1) 0 90 0 (sample_vec3 1 0 0) =
        mat4_mul (Translation (sample_vec3 1 0 0))
          (mat4_mul (@RotationX ZFloat 0)
             (mat4_mul (@RotationY ZFloat 90)
                (mat4_mul (@RotationZ ZFloat 0) (Scale (sample_vec3 2 1 1)))))
   /\ forall v,
        mat4_mul_vec
          (@ComposeModelMatrix ZFloat (sample_vec3 2 1 1) 0 90 0
             (sample_vec3 1 0 0)) v =
        mat4_mul_vec (Translation (sample_vec3 1 0 0))
          (mat4_mul_vec (@RotationX ZFloat 0)
             (mat4_mul_vec (@RotationY ZFloat 90)
                (mat4_mul_vec (@RotationZ ZFloat 0)
                   (mat4_mul_vec (Scale (sample_vec3 2 1 1)) v))))).
Proof.
  split; [reflexivity|].
  destruct (@SetTransformations_pushes_T_Rx_Ry_Rz_S ZFloat
              (sample_vec3 2 1 1) 0 90 0 (sample_vec3 1 0 0) sample_scene []
              eq_refl) as [Hpush Hexact].
  split; [exact Hpush|]. exact (Hexact InitialRing.Zth).
Defined.

(* On a column vector the rotations do not act in the order X, Y, Z.
   Unit scale, no translation, a quarter turn about X and about Y: the
   matrix SetTransformations sets takes (0, 1, 0, 1) to (0, 0, 1, 1),
   while scaling, then turning about X, then Y, then Z, then
   translating takes it to (1, 0, 0, 1). *)
Lemma rotations_do_not_act_in_X_Y_Z_order :
  @SetTransformations ZFloat (sample_vec3 1 1 1) 90 90 0 (sample_vec3 0 0 0)
    sample_scene =
    set_shader
      (Some [setMat4Value g_ModelName
               (@ComposeModelMatrix ZFloat (sample_vec3 1 1 1) 90 90 0
                  (sample_vec3 0 0 0))]) sample_scene /\
  mat4_mul_vec
    (@ComposeModelMatrix ZFloat (sample_vec3 1 1 1) 90 90 0 (sample_vec3 0 0 0))
    (@mkvec4 ZFloat 0 1 0 1) = @mkvec4 ZFloat 0 0 1 1 /\
  mat4_mul_vec (Translation (sample_vec3 0 0 0))
    (mat4_mul_vec (@RotationZ ZFloat 0)
       (mat4_mul_vec (@RotationY ZFloat 90)
          (mat4_mul_vec (@RotationX ZFloat 90)
             (mat4_mul_vec (Scale (sample_vec3 1 1 1))
                (@mkvec4 ZFloat 0 1 0 1))))) = @mkvec4 ZFloat 1 0 0 1 /\
  mat4_mul_vec
    (@ComposeModelMatrix ZFloat (sample_vec3 1 1 1) 90 90 0 (sample_vec3 0 0 0))
    (@mkvec4 ZFloat 0 1 0 1) <>
  mat4_mul_vec (Translation (sample_vec3 0 0 0))
    (mat4_mul_vec (@RotationZ ZFloat 0)
       (mat4_mul_vec (@RotationY ZFloat 90)
          (mat4_mul_vec (@RotationX ZFloat 90)
             (mat4_mul_vec (Scale (sample_vec3 1 1 1))
                (@mkvec4 ZFloat 0 1 0 1))))).
Proof.
  split; [reflexivity|]. split; [reflexivity|]. split; [reflexivity|].
  vm_compute. discriminate.
Qed.

(* every registered entry of [two_textures], by slot *)
Lemma two_textures_registered (i : Z) (e : @TEXTURE_INFO) :
  registered two_textures i e ->
  (i = 0 /\ e = mkTEXTURE_INFO "Wood" 1) \/
  (i = 1 /\ e = mkTEXTURE_INFO "Logo" 2).
Proof.
  intros [Hi He]. change (m_loadedTextures two_textures) with 2 in Hi.
  assert (Hcase : i = 0 \/ i = 1) by lia.
  destruct Hcase as [-> | ->]; vm_compute in He; injection He as <-; auto.
Qed.

Lemma two_textures_ok : registry_ok two_textures.
Proof. unfold registry_ok. vm_compute. split; discriminate. Qed.

Lemma two_textures_first_Logo :
  first_registered two_textures "Logo" 1 (mkTEXTURE_INFO "Logo" 2).
Proof.
  split; [split; [vm_compute; split; [discriminate|reflexivity]|reflexivity]|].
  split; [reflexivity|].
  intros j e' Hreg Hj.
  destruct (two_textures_registered j e' Hreg) as [[-> ->]|[-> _]];
    [discriminate|lia].
Qed.

Lemma two_textures_no_Glass (i : Z) (e : @TEXTURE_INFO) :
  registered two_textures i e -> tag e <> "Glass".
Proof.
  intros Hreg.
  destruct (two_textures_registered i e Hreg) as [[_ ->]|[_ ->]]; discriminate.
Qed.

Lemma FindTexture_round_trip_witness :
  registry_ok two_textures /\
  (FindTextureID "Glass" two_textures = Ret (-1) /\
   FindTextureSlot "Glass" two_textures = Ret (-1)) /\
  (FindTextureID "Logo" two_textures = Ret 2 /\
   FindTextureSlot "Logo" two_textures = Ret 1) /\
  (exists st' handle,
     CreateGLTexture sample_files "logo.png" "Glass" two_textures =
       Ret (true, st') /\
     FindTextureID "Glass" st' = Ret (int_of_GLuint handle) /\
     FindTextureSlot "Glass" st' = Ret 2).
Proof.
  split; [exact two_textures_ok|]. split; [|split].
  - apply (proj1 (FindTexture_round_trip sample_files "Glass" two_textures
                    two_textures_ok)).
    exact two_textures_no_Glass.
  - destruct (proj1 (proj2 (FindTexture_round_trip sample_files "Logo"
                              two_textures two_textures_ok))
                1 (mkTEXTURE_INFO "Logo" 2) two_textures_first_Logo)
      as (_ & HID & Hslot).
    split; [|exact Hslot]. apply HID. cbn. lia.
  - destruct (CreateGLTexture_registers sample_files "logo.png" "Glass"
                two_textures eq_refl) as [g Hg].
    { vm_compute. split; [discriminate|reflexivity]. }
    eexists. 
    destruct (proj2 (proj2 (FindTexture_round_trip sample_files "Glass"
                              two_textures two_textures_ok))
                "logo.png" _ Hg) as (handle & _ & Hfresh & _).
    exists handle. split; [exact Hg|].
    exact (Hfresh two_textures_no_Glass).
Defined.

Lemma BindGLTextures_units_witness :
  registry_ok two_textures /\
  exists st',
    BindGLTextures two_textures = Ret st' /\
    (forall i e, registered two_textures i e ->
                 gl_units (gl st') !! i = Some (ID e)) /\
    m_textureIDs st' = m_textureIDs two_textures /\
    m_loadedTextures st' = m_loadedTextures two_textures.
Proof.
  split; [exact two_textures_ok|].
  apply (BindGLTextures_units two_textures). exact two_textures_ok.
Defined.

Lemma sample_scene_ok : registry_ok sample_scene.
Proof. unfold registry_ok. vm_compute. split; discriminate. Qed.

Lemma load_failure_isolated_witness :
  loadable sample_files "gray.png" = false /\
  exists st',
    load_textures sample_files
      ([("wood.jpg", "Wood")] ++ ("gray.png", "Gray") :: [("logo.png", "Logo")])
      sample_scene =
      Ret (map (fun _ => true) [("wood.jpg", "Wood")] ++
           false :: map (fun _ => true) [("logo.png", "Logo")], st') /\
    m_loadedTextures st' =
      m_loadedTextures sample_scene +
      Z.of_nat (length ([("wood.jpg", "Wood")] ++ [("logo.png", "Logo")])) /\
    forall f t, In (f, t) ([("wood.jpg", "Wood")] ++ [("logo.png", "Logo")]) ->
      exists i e,
        first_registered st' t i e /\
        FindTextureSlot t st' = Ret i /\
        FindTextureID t st' = Ret (int_of_GLuint (ID e)).
Proof.
  split; [reflexivity|].
  apply (load_failure_isolated sample_files).
  - exact sample_scene_ok.
  - reflexivity.
  - intros f t [H|[H|[]]]; injection H as <- <-; reflexivity.
  - vm_compute. discriminate.
Defined.

Lemma SetShaderTexture_unresolved_witness :
  m_pShaderManager two_textures = Some [] /\
  SetShaderTexture "Glass" two_textures =
    Ret (set_shader
           (Some ([] ++ [setIntValue g_UseTextureName 1;
                         setSampler2DValue g_TextureValueName (-1)]))
           two_textures) /\
  SetShaderTexture "Logo"
    (set_shader
       (Some ([] ++ [setIntValue g_UseTextureName 1;
                     setSampler2DValue g_TextureValueName (-1)]))
       two_textures) =
    Ret (set_shader
           (Some (([] ++ [setIntValue g_UseTextureName 1;
                          setSampler2DValue g_TextureValueName (-1)]) ++
                  [setIntValue g_UseTextureName 1;
                   setSampler2DValue g_TextureValueName 1]))
           two_textures).
Proof.
  split; [reflexivity|].
  destruct (SetShaderTexture_unresolved_then_resolved "Glass" two_textures []
              two_textures_ok eq_refl two_textures_no_Glass) as [Hmiss Hnext].
  split; [exact Hmiss|].
  exact (proj1 (Hnext "Logo" 1 (mkTEXTURE_INFO "Logo" 2)
                  two_textures_first_Logo)).
Defined.

Lemma null_shader_setters_witness :
  m_pShaderManager null_shader_scene = None /\
  @SetTransformations ZFloat (sample_vec3 2 1 1) 0 90 0 (sample_vec3 1 0 0)
    null_shader_scene = null_shader_scene /\
  @SetShaderColor ZFloat 1 1 1 1 null_shader_scene = null_shader_scene /\
  SetShaderTexture "Wood" null_shader_scene = Ret null_shader_scene /\
  @SetTextureUVScale ZFloat 2 2 null_shader_scene = null_shader_scene.
Proof.
  split; [reflexivity|].
  apply (null_shader_setters_are_noops null_shader_scene). reflexivity.
Defined.

(** C2 (the source departs from it).  On the table of the four defined
    presets, which has none tagged "Glass", [FindMaterial] reports
    success and leaves the caller's material as it was.  With an empty
    table it reports failure, and for a tag defined twice it copies the
    fields of the first preset. *)
Theorem FindMaterial_absent_tag_returns_true :
  first_material (m_objectMaterials one_material) "Glass" = None /\
  FindMaterial "Glass" leftover_material one_material =
    (true, leftover_material) /\
  FindMaterial "Glass" leftover_material sample_scene =
    (false, leftover_material) /\
  FindMaterial "Paper" leftover_material duplicate_material =
    (true,
     mkOBJECT_MATERIAL (ambientColor paper_preset)
       (ambientStrength paper_preset) (diffuseColor paper_preset)
       (specularColor paper_preset) (shininess paper_preset) "").
Proof. repeat split. Qed.

(** C3 (the source departs from it).  On the table of the four defined
    presets, which has none tagged "Glass", [SetShaderMaterial] sets
    the five material uniforms, from the content its uninitialised local
    happens to have.  With an empty table it sets nothing, and for a
    tag defined twice it sets the five fields of the first preset. *)
Theorem SetShaderMaterial_absent_tag_sets_uniforms :
  first_material (m_objectMaterials one_material) "Glass" = None /\
  SetShaderMaterial "Glass" leftover_material one_material =
    Ret (set_shader (Some (material_uniforms leftover_material))
           one_material) /\
  SetShaderMaterial "Glass" leftover_material one_material <>
    Ret one_material /\
  SetShaderMaterial "Glass" leftover_material sample_scene =
    Ret sample_scene /\
  SetShaderMaterial "Paper" leftover_material duplicate_material =
    Ret (set_shader (Some (material_uniforms paper_preset))
           duplicate_material).
Proof. repeat split. discriminate. Qed.

(** C4 (the source departs from it).  With sixteen textures registered
    in the sixteen-entry array, a further [CreateGLTexture] on a
    loadable file stores into [m_textureIDs[16]], outside the array; it
    does not return false. *)
Theorem CreateGLTexture_full_registry_out_of_bounds :
  m_loadedTextures full_registry = 16 /\
  length (m_textureIDs full_registry) = 16%nat /\
  loadable sample_files "logo.png" = true /\
  CreateGLTexture sample_files "logo.png" "Logo" full_registry =
    Fault (OutOfBounds 16).
Proof. vm_compute. repeat split. Qed.

(** C5 (the source departs from it).  [DestroyGLTextures] on a registry
    of two textures issues glGenTextures twice and glDeleteTextures not
    at all: the two registered names stay allocated and two more are
    allocated. *)
Theorem DestroyGLTextures_generates_instead_of_deleting :
  exists st',
    DestroyGLTextures two_textures = Ret st' /\
    gl_trace (gl st') =
      gl_trace (gl two_textures) ++ [GenTextures 3; GenTextures 4] /\
    gl_names (gl two_textures) = [2; 1] /\
    gl_names (gl st') = [4; 3; 2; 1] /\
    map ID (take 2 (m_textureIDs st')) = [3; 4].
Proof.
  eexists. split; [vm_compute; reflexivity|].
  vm_compute. repeat split.
Qed.

(** * Further properties of the registry, the setters and the scene *)

Section Further.

Context {FO : FloatOps} {FL : FloatLiterals}.
Variable stbi_load : string -> option image.

(** X1.  A scene manager as the constructor leaves it has a 16-entry
    array with nothing registered: every texture lookup returns -1,
    also for the tag "/0" the constructor writes into the entries;
    [FindMaterial] fails; binding and teardown touch nothing. *)
Theorem constructed_scene_resolves_nothing
    (pShaderManager : option ShaderManager) (g : GLcontext) (tag' : string)
    (material : OBJECT_MATERIAL) :
  let st := SceneManager_ctor pShaderManager g in
  registry_ok st /\
  length (m_textureIDs st) = 16%nat /\
  (forall i e, m_textureIDs st !! i = Some e -> tag e = "/0") /\
  FindTextureID tag' st = Ret (-1) /\
  FindTextureSlot tag' st = Ret (-1) /\
  FindMaterial tag' material st = (false, material) /\
  BindGLTextures st = Ret st /\
  DestroyGLTextures st = Ret st.
Proof.
  cbn zeta. split; [split; cbn; lia|]. split; [reflexivity|].
  split.
  { intros i e He. unfold SceneManager_ctor in He. cbn [m_textureIDs] in He.
    apply lookup_replicate in He as [-> _]. reflexivity. }
  repeat split.
Qed.

(** ** What a lookup can return *)

Lemma registered_range (st : SceneManager) (i : Z) (e : TEXTURE_INFO) :
  registered st i e -> 0 <= i < m_loadedTextures st.
Proof. now intros [Hi _]. Qed.

Lemma FindTexture_cases (tag' : string) (st : SceneManager) :
  registry_ok st ->
  ((forall i e, registered st i e -> tag e <> tag') /\
   FindTextureSlot tag' st = Ret (-1) /\
   FindTextureID tag' st = Ret (-1))
  \/
  (exists i e,
     first_registered st tag' i e /\
     0 <= i < m_loadedTextures st /\
     FindTextureSlot tag' st = Ret i /\
     FindTextureID tag' st = Ret (int_of_GLuint (ID e))).
Proof.
  intros Hok. pose proof Hok as [H0 Hlen].
  destruct (first_or_none (m_textureIDs st) tag'
              (Z.to_nat (m_loadedTextures st))) as [Hnone|(k & e & Hk & Hf)].
  - lia.
  - left.
    assert (Hn : forall i e, registered st i e -> tag e <> tag').
    { intros i e [Hi He]. apply (Hnone i e); [lia|exact He]. }
    destruct (FindTexture_miss tag' st Hok Hn) as [HID Hslot]. auto.
  - right. exists k, e.
    assert (Hfr : first_registered st tag' k e).
    { destruct Hf as (Hke & Hkt & Hb).
      split; [split; [lia|exact Hke]|]. split; [exact Hkt|].
      intros j e' [Hj He'] Hjk. apply (Hb j e'); [lia|exact He']. }
    destruct (FindTexture_hit tag' st k e Hfr) as [HID Hslot].
    split; [exact Hfr|]. split; [lia|]. split; assumption.
Qed.

(** X2.  On a registry whose counter is within the array the two
    lookups never read outside it and agree with each other: either no
    registered entry carries the tag and both return -1, or both
    return from one and the same entry, which is registered, carries
    the tag and has no such entry before it - the slot returned lies in
    [0, m_loadedTextures). *)
Theorem FindTexture_total (tag' : string) (st : SceneManager) :
  registry_ok st ->
  ((forall i e, registered st i e -> tag e <> tag') /\
   FindTextureSlot tag' st = Ret (-1) /\
   FindTextureID tag' st = Ret (-1))
  \/
  (exists i e,
     first_registered st tag' i e /\
     0 <= i < m_loadedTextures st /\
     FindTextureSlot tag' st = Ret i /\
     FindTextureID tag' st = Ret (int_of_GLuint (ID e))).
Proof. apply FindTexture_cases. Qed.

(* two registries with the same registered entries answer alike *)
Lemma FindTexture_same_registered (tag' : string) (st st' : SceneManager) :
  registry_ok st -> registry_ok st' ->
  (forall i e, registered st i e -> registered st' i e) ->
  (forall i e, registered st' i e -> tag e = tag' -> registered st i e) ->
  FindTextureSlot tag' st' = FindTextureSlot tag' st /\
  FindTextureID tag' st' = FindTextureID tag' st.
Proof.
  intros Hok Hok' Hfwd Hback.
  destruct (FindTexture_cases tag' st Hok)
    as [(Hnone & Hs & Hi)|(i & e & Hf & _ & Hs & Hi)].
  - rewrite Hs, Hi. 
    assert (Hn' : forall i e, registered st' i e -> tag e <> tag').
    { intros i e Hr Ht. apply (Hnone i e); [|exact Ht]. now apply Hback. }
    destruct (FindTexture_miss tag' st' Hok' Hn'). auto.
  - rewrite Hs, Hi.
    assert (Hf' : first_registered st' tag' i e).
    { destruct Hf as (Hr & Ht & Hb). split; [now apply Hfwd|].
      split; [exact Ht|]. intros j e' Hr' Hji Ht'.
      apply (Hb j e'); [|exact Hji|exact Ht']. now apply Hback. }
    destruct (FindTexture_hit tag' st' i e Hf'). auto.
Qed.

Lemma CreateGLTexture_false_inv (filename tag' : string) (st st' : SceneManager) :
  registry_ok st ->
  CreateGLTexture stbi_load filename tag' st = Ret (false, st') ->
  loadable stbi_load filename = false /\ exists g, st' = set_gl g st.
Proof.
  intros [H0 Hlen] Hrun.
  destruct (loadable stbi_load filename) eqn:Hl.
  - exfalso.
    destruct (Z.lt_ge_cases (m_loadedTextures st)
                (Z.of_nat (length (m_textureIDs st)))) as [Hlt|Hge].
    + destruct (CreateGLTexture_registers stbi_load filename tag' st Hl)
        as [g Hg]; [lia|]. rewrite Hg in Hrun. discriminate.
    + rewrite (CreateGLTexture_overflow stbi_load filename tag' st Hl Hge)
        in Hrun. discriminate.
  - split; [reflexivity|].
    destruct (CreateGLTexture_rejected stbi_load filename tag' st Hl) as [g Hg].
    exists g. rewrite Hg in Hrun. now inversion Hrun.
Qed.

(** X3.  A [CreateGLTexture] call, whether it registers its texture or
    fails, leaves the answers of both lookups for every other tag as
    they were; a call that fails leaves them as they were for its own
    tag too. *)
Theorem CreateGLTexture_other_tags_unchanged (filename tag' other : string)
    (b : bool) (st st' : SceneManager) :
  registry_ok st ->
  CreateGLTexture stbi_load filename tag' st = Ret (b, st') ->
  b = false \/ other <> tag' ->
  FindTextureSlot other st' = FindTextureSlot other st /\
  FindTextureID other st' = FindTextureID other st.
Proof.
  intros Hok Hrun Hcase. destruct b.
  - destruct Hcase as [Hb|Hne]; [discriminate|].
    destruct (CreateGLTexture_true_inv stbi_load filename tag' st st' Hok Hrun)
      as (Hlt & g & ->).
    pose proof Hok as [H0 Hlen].
    apply FindTexture_same_registered.
    + exact Hok.
    + split; cbn; [lia|rewrite length_insert; lia].
    + intros i e [Hi He]. split; [cbn; lia|]. cbn.
      rewrite list_lookup_insert_ne by lia. exact He.
    + intros i e [Hi He] Ht. cbn in Hi, He.
      destruct (Z.eq_dec i (m_loadedTextures st)) as [->|Hne'].
      * rewrite list_lookup_insert_eq in He by lia.
        injection He as <-. cbn in Ht. congruence.
      * rewrite list_lookup_insert_ne in He by lia. split; [lia|exact He].
  - destruct (CreateGLTexture_false_inv filename tag' st st' Hok Hrun)
      as (_ & g & ->).
    split; reflexivity.
Qed.

(** ** What a load does to the GL context and the registry *)

Lemma gl_names_below_fresh (names : list Z) (n : Z) :
  In n names -> n <= fold_right Z.max 0 names.
Proof.
  induction names as [|m names IH]; [intros []|].
  intros [->|Hin]; cbn; [lia|]. specialize (IH Hin). lia.
Qed.

Lemma gl_fresh_unused (g : GLcontext) : ~ In (gl_fresh g) (gl_names g).
Proof.
  intros Hin. apply gl_names_below_fresh in Hin. unfold gl_fresh in Hin. lia.
Qed.

(** X4.  A [CreateGLTexture] call on a file that cannot be loaded
    returns false in every state, also with all slots taken, and leaves
    registry, counter, material table and shader manager as they were.
    When the decoder fails the GL context is untouched too.  When the
    image was decoded but has neither 3 nor 4 channels, the texture
    name generated for it stays allocated and stays bound on the active
    unit, with no image uploaded and no entry registered for it. *)
Theorem CreateGLTexture_failure_effects (filename tag' : string)
    (st : SceneManager) :
  loadable stbi_load filename = false ->
  exists g,
    CreateGLTexture stbi_load filename tag' st = Ret (false, set_gl g st) /\
    (stbi_load filename = None -> g = gl st) /\
    (forall img, stbi_load filename = Some img ->
       gl_names g = gl_fresh (gl st) :: gl_names (gl st) /\
       ~ In (gl_fresh (gl st)) (gl_names (gl st)) /\
       gl_units g !! gl_active (gl st) = Some (gl_fresh (gl st)) /\
       gl_trace g =
         gl_trace (gl st) ++
         [GenTextures (gl_fresh (gl st)); BindTexture (gl_fresh (gl st));
          TexParameteri GL_TEXTURE_WRAP_S GL_REPEAT;
          TexParameteri GL_TEXTURE_WRAP_T GL_REPEAT;
          TexParameteri GL_TEXTURE_MIN_FILTER GL_LINEAR;
          TexParameteri GL_TEXTURE_MAG_FILTER GL_LINEAR]).
Proof.
  unfold loadable, CreateGLTexture.
  destruct (stbi_load filename) as [img|].
  - intros H. apply orb_false_iff in H as [H3 H4]. rewrite H3, H4.
    cbn. eexists. split; [reflexivity|]. split; [discriminate|].
    intros img' _. cbn. split; [reflexivity|].
    split; [apply gl_fresh_unused|].
    split; [apply lookup_insert_eq|].
    now rewrite <- !app_assoc.
  - intros _. exists (gl st). split; [now destruct st|].
    split; [reflexivity|discriminate].
Qed.

Lemma CreateGLTexture_registers_gl (filename tag' : string) (st : SceneManager) :
  loadable stbi_load filename = true ->
  0 <= m_loadedTextures st < Z.of_nat (length (m_textureIDs st)) ->
  exists g,
    CreateGLTexture stbi_load filename tag' st =
    Ret (true,
         set_gl g
           (set_textures
              (<[Z.to_nat (m_loadedTextures st) :=
                   mkTEXTURE_INFO tag' (gl_fresh (gl st))]> (m_textureIDs st))
              (m_loadedTextures st + 1) st)) /\
    gl_active g = gl_active (gl st) /\
    gl_names g = gl_fresh (gl st) :: gl_names (gl st) /\
    gl_units g =
      <[gl_active (gl st) := 0]>
        (<[gl_active (gl st) := gl_fresh (gl st)]> (gl_units (gl st))).
Proof.
  unfold loadable, CreateGLTexture.
  destruct (stbi_load filename) as [img|]; [|discriminate].
  intros H Hr.
  destruct (colorChannels img =? 3) eqn:E3;
    [|destruct (colorChannels img =? 4) eqn:E4; [|discriminate]];
    cbn; rewrite array_write_in_range by exact Hr; cbn;
    eexists; repeat split.
Qed.

(** X5.  A [CreateGLTexture] call that returns true has written exactly
    one entry, in the slot the counter pointed to, with the given tag
    and the name glGenTextures returned, a name not allocated before;
    the counter is one higher; every other entry, the material table
    and the shader manager are as they were.  In the GL context the
    active unit is the one it was and ends with no texture bound to
    it; the bindings of the other units are as they were. *)
Theorem CreateGLTexture_success_effects (filename tag' : string)
    (st st' : SceneManager) :
  registry_ok st ->
  CreateGLTexture stbi_load filename tag' st = Ret (true, st') ->
  m_loadedTextures st' = m_loadedTextures st + 1 /\
  registry_ok st' /\
  length (m_textureIDs st') = length (m_textureIDs st) /\
  m_textureIDs st' !! Z.to_nat (m_loadedTextures st) =
    Some (mkTEXTURE_INFO tag' (gl_fresh (gl st))) /\
  ~ In (gl_fresh (gl st)) (gl_names (gl st)) /\
  (forall j, j <> Z.to_nat (m_loadedTextures st) ->
             m_textureIDs st' !! j = m_textureIDs st !! j) /\
  m_objectMaterials st' = m_objectMaterials st /\
  m_pShaderManager st' = m_pShaderManager st /\
  gl_active (gl st') = gl_active (gl st) /\
  gl_units (gl st') !! gl_active (gl st) = Some 0 /\
  (forall u, u <> gl_active (gl st) ->
             gl_units (gl st') !! u = gl_units (gl st) !! u).
Proof.
  intros Hok Hrun. pose proof Hok as [H0 Hlen].
  destruct (CreateGLTexture_true_inv stbi_load filename tag' st st' Hok Hrun)
    as (Hlt & _).
  assert (Hl : loadable stbi_load filename = true).
  { destruct (loadable stbi_load filename) eqn:Hl; [reflexivity|].
    destruct (CreateGLTexture_rejected stbi_load filename tag' st Hl) as [g Hg].
    rewrite Hg in Hrun. discriminate. }
  destruct (CreateGLTexture_registers_gl filename tag' st Hl)
    as (g & Hg & Hact & Hnames & Hunits); [lia|].
  rewrite Hg in Hrun. injection Hrun as <-. cbn.
  split; [reflexivity|].
  split; [split; cbn; [lia|rewrite length_insert; lia]|].
  split; [apply length_insert|].
  split; [apply list_lookup_insert_eq; lia|].
  split; [apply gl_fresh_unused|].
  split; [intros j Hj; now apply list_lookup_insert_ne|].
  split; [reflexivity|]. split; [reflexivity|]. split; [exact Hact|].
  rewrite Hunits. split; [apply lookup_insert_eq|].
  intros u Hu. now rewrite !lookup_insert_ne by congruence.
Qed.

(** X6.  A run of [CreateGLTexture] calls that fits in the array gives
    each call the result its own file decides, however many of the
    others fail; the textures that load take the next slots in call
    order and the failing calls take none: afterwards the registered
    tags are the ones registered before followed by the tags of the
    loadable requests, in order. *)
Theorem load_textures_registers_in_order (requests : list (string * string)) :
  forall st,
  registry_ok st ->
  m_loadedTextures st + loadable_count stbi_load requests
    <= Z.of_nat (length (m_textureIDs st)) ->
  exists st',
    load_textures stbi_load requests st =
      Ret (map (fun r => loadable stbi_load (fst r)) requests, st') /\
    registry_ok st' /\
    m_loadedTextures st' =
      m_loadedTextures st + loadable_count stbi_load requests /\
    map tag (take (Z.to_nat (m_loadedTextures st')) (m_textureIDs st')) =
      map tag (take (Z.to_nat (m_loadedTextures st)) (m_textureIDs st)) ++
      map snd (List.filter (fun r => loadable stbi_load (fst r)) requests).
Proof.
  induction requests as [|[f t] rest IH]; intros st Hok Hcap.
  - exists st. cbn [load_textures loadable_count map List.filter] in *.
    rewrite Z.add_0_r, app_nil_r. auto.
  - cbn [loadable_count fst] in Hcap.
    pose proof (loadable_count_nonneg stbi_load rest) as Hnn.
    cbn [load_textures List.filter fst].
    destruct (loadable stbi_load f) eqn:Hl.
    + destruct Hok as [H0 Hlen].
      destruct (CreateGLTexture_registers stbi_load f t st Hl) as [g Hg]; [lia|].
      rewrite Hg. cbn [bind snd fst].
      set (st1 := set_gl g _).
      destruct (IH st1) as (st' & Hrun & Hok' & Hn' & Htags).
      { split; cbn; [lia|rewrite length_insert; lia]. }
      { cbn. rewrite length_insert. lia. }
      exists st'. rewrite Hrun. cbn [bind fst snd map].
      rewrite Hl. split; [reflexivity|]. split; [exact Hok'|].
      split; [rewrite Hn'; cbn [loadable_count fst]; rewrite Hl; cbn; lia|].
      rewrite Htags. cbn [m_loadedTextures m_textureIDs st1 set_gl set_textures].
      replace (Z.to_nat (m_loadedTextures st + 1))
        with (S (Z.to_nat (m_loadedTextures st))) by lia.
      rewrite (take_S_r _ _ (mkTEXTURE_INFO t (gl_fresh (gl st))))
        by (apply list_lookup_insert_eq; lia).
      rewrite take_insert_ge by lia.
      rewrite map_app. cbn [map snd tag]. now rewrite <- app_assoc.
    + destruct (CreateGLTexture_rejected stbi_load f t st Hl) as [g Hg].
      rewrite Hg. cbn [bind snd fst].
      destruct (IH (set_gl g st)) as (st' & Hrun & Hok' & Hn' & Htags).
      { exact Hok. }
      { cbn. lia. }
      exists st'. rewrite Hrun. cbn [bind fst snd map].
      rewrite Hl. split; [reflexivity|]. split; [exact Hok'|].
      split; [rewrite Hn'; cbn [loadable_count fst]; rewrite Hl; cbn; lia|].
      exact Htags.
Qed.

(** X7.  A run of [CreateGLTexture] calls with more loadable files than
    free slots does not come back: the first load that finds the array
    full stores at the index one past its last entry. *)
Theorem load_textures_overflow (requests : list (string * string)) :
  forall st,
  registry_ok st ->
  Z.of_nat (length (m_textureIDs st))
    < m_loadedTextures st + loadable_count stbi_load requests ->
  load_textures stbi_load requests st =
    Fault (OutOfBounds (Z.of_nat (length (m_textureIDs st)))).
Proof.
  induction requests as [|[f t] rest IH]; intros st Hok Hcap.
  - destruct Hok. cbn in Hcap. lia.
  - cbn [loadable_count fst] in Hcap. cbn [load_textures].
    destruct (loadable stbi_load f) eqn:Hl.
    + destruct Hok as [H0 Hlen].
      destruct (Z.eq_dec (m_loadedTextures st)
                  (Z.of_nat (length (m_textureIDs st)))) as [Heq|Hne].
      * rewrite (CreateGLTexture_overflow stbi_load f t st Hl) by lia.
        cbn [bind]. now rewrite Heq.
      * destruct (CreateGLTexture_registers stbi_load f t st Hl) as [g Hg];
          [lia|].
        rewrite Hg. cbn [bind snd fst].
        rewrite IH.
        -- cbn. now rewrite length_insert.
        -- split; cbn; [lia|rewrite length_insert; lia].
        -- cbn. rewrite length_insert. lia.
    + destruct (CreateGLTexture_rejected stbi_load f t st Hl) as [g Hg].
      rewrite Hg. cbn [bind snd fst].
      rewrite IH; [reflexivity|exact Hok|cbn; lia].
Qed.

(** ** Binding, and what a later load does to it *)

Lemma BindGLTextures_loop_frame (arr : list TEXTURE_INFO) (n : nat) :
  forall i g,
  0 <= i -> i + Z.of_nat n <= Z.of_nat (length arr) ->
  exists g',
    BindGLTextures_loop arr n i g = Ret g' /\
    (forall k e, i <= k < i + Z.of_nat n -> arr !! Z.to_nat k = Some e ->
                 gl_units g' !! k = Some (ID e)) /\
    (forall k, ~ (i <= k < i + Z.of_nat n) ->
               gl_units g' !! k = gl_units g !! k) /\
    gl_names g' = gl_names g /\
    gl_active g' = (if (0 <? Z.of_nat n) then i + Z.of_nat n - 1
                    else gl_active g).
Proof.
  induction n as [|n IH]; intros i g Hi Hlen.
  - exists g. split; [reflexivity|]. split; [intros; lia|]. auto.
  - destruct (array_read_in_range arr i) as (e & He & Hr); [lia|].
    cbn [BindGLTextures_loop]. rewrite Hr. cbn [bind].
    set (g1 := glBindTexture (ID e) (glActiveTexture i g)).
    assert (Hu : gl_units g1 = <[i := ID e]> (gl_units g)) by reflexivity.
    assert (Ha : gl_active g1 = i) by reflexivity.
    destruct (IH (i + 1) g1) as (g' & Hrun & Hnew & Hold & Hnm & Hact);
      [lia|lia|].
    exists g'. split; [exact Hrun|]. split; [|split; [|split]].
    + intros k e' Hk He'.
      destruct (Z.eq_dec k i) as [->|Hki].
      * rewrite Hold by lia. rewrite Hu, lookup_insert_eq. congruence.
      * apply Hnew; [lia|exact He'].
    + intros k Hk. rewrite Hold by lia.
      rewrite Hu. apply lookup_insert_ne. lia.
    + rewrite Hnm. reflexivity.
    + rewrite Hact, Ha.
      destruct (Z.ltb_spec 0 (Z.of_nat n));
        destruct (Z.ltb_spec 0 (Z.of_nat (S n))); lia.
Qed.

(** X8.  [BindGLTextures] changes the binding of no texture unit
    outside [0, N), where N is the number of registered textures,
    allocates and releases no texture name, and leaves the last unit,
    N - 1, the active one; the registry is as it was.  A second call
    right after it leaves every binding as the first one left it. *)
Theorem BindGLTextures_frame_and_repeat (st : SceneManager) :
  registry_ok st ->
  exists st',
    BindGLTextures st = Ret st' /\
    st' = set_gl (gl st') st /\
    (forall k, ~ (0 <= k < m_loadedTextures st) ->
               gl_units (gl st') !! k = gl_units (gl st) !! k) /\
    gl_names (gl st') = gl_names (gl st) /\
    (0 < m_loadedTextures st ->
       gl_active (gl st') = m_loadedTextures st - 1) /\
    exists st'',
      BindGLTextures st' = Ret st'' /\
      gl_units (gl st'') = gl_units (gl st').
Proof.
  intros [H0 Hlen]. unfold BindGLTextures.
  destruct (BindGLTextures_loop_frame (m_textureIDs st)
              (Z.to_nat (m_loadedTextures st)) 0 (gl st))
    as (g' & Hrun & Hnew & Hold & Hnm & Hact); [lia|lia|].
  rewrite Hrun. cbn [bind]. eexists. split; [reflexivity|].
  split; [reflexivity|]. split; [|split; [|split]].
  - intros k Hk. cbn. apply Hold. lia.
  - exact Hnm.
  - intros Hpos. cbn. rewrite Hact.
    destruct (Z.ltb_spec 0 (Z.of_nat (Z.to_nat (m_loadedTextures st)))); lia.
  - cbn [m_textureIDs m_loadedTextures set_gl gl].
    destruct (BindGLTextures_loop_frame (m_textureIDs st)
                (Z.to_nat (m_loadedTextures st)) 0 g')
      as (g'' & Hrun' & Hnew' & Hold' & _); [lia|lia|].
    rewrite Hrun'. cbn [bind]. eexists. split; [reflexivity|].
    cbn. apply map_eq. intros k.
    destruct (Z_lt_dec k 0) as [Hneg|Hnonneg];
      [apply Hold'; lia|].
    destruct (Z_lt_dec k (m_loadedTextures st)) as [Hin|Hout];
      [|apply Hold'; lia].
    destruct (lookup_lt_is_Some_2 (m_textureIDs st) (Z.to_nat k)) as [e He];
      [lia|].
    rewrite (Hnew' k e), (Hnew k e) by (lia || exact He). reflexivity.
Qed.

(** X9.  [CreateGLTexture] binds on whatever unit is active and ends by
    binding texture 0 there.  After [BindGLTextures] that unit is the
    last one bound, so a load that succeeds after the binding leaves
    unit N - 1 with no texture, although slot N - 1 still holds its
    registered entry: textures have to be bound again after a load. *)
Theorem CreateGLTexture_after_bind_unbinds_last_unit
    (filename tag' : string) (st : SceneManager) :
  registry_ok st ->
  0 < m_loadedTextures st < Z.of_nat (length (m_textureIDs st)) ->
  loadable stbi_load filename = true ->
  exists st1 st2 e,
    BindGLTextures st = Ret st1 /\
    registered st1 (m_loadedTextures st - 1) e /\
    gl_units (gl st1) !! (m_loadedTextures st - 1) = Some (ID e) /\
    CreateGLTexture stbi_load filename tag' st1 = Ret (true, st2) /\
    registered st2 (m_loadedTextures st - 1) e /\
    gl_units (gl st2) !! (m_loadedTextures st - 1) = Some 0.
Proof.
  intros [H0 Hlen] Hn Hl. unfold BindGLTextures.
  destruct (BindGLTextures_loop_frame (m_textureIDs st)
              (Z.to_nat (m_loadedTextures st)) 0 (gl st))
    as (g' & Hrun & Hnew & Hold & Hnm & Hact); [lia|lia|].
  rewrite Hrun. cbn [bind].
  assert (Hact' : gl_active g' = m_loadedTextures st - 1).
  { rewrite Hact.
    destruct (Z.ltb_spec 0 (Z.of_nat (Z.to_nat (m_loadedTextures st)))); lia. }
  destruct (lookup_lt_is_Some_2 (m_textureIDs st)
              (Z.to_nat (m_loadedTextures st - 1))) as [e He]; [lia|].
  destruct (CreateGLTexture_registers_gl filename tag' (set_gl g' st) Hl)
    as (g2 & Hg2 & _ & _ & Hunits); [cbn; lia|].
  eexists. eexists. exists e.
  split; [reflexivity|].
  split; [split; [cbn; lia|exact He]|].
  split; [cbn; apply Hnew; [lia|exact He]|].
  split; [exact Hg2|].
  split.
  - split; [cbn; lia|]. cbn.
    rewrite list_lookup_insert_ne by lia. exact He.
  - cbn. rewrite Hunits. cbn. rewrite Hact'. apply lookup_insert_eq.
Qed.

(** ** Teardown *)

Lemma FindTextureSlot_loop_tags (arr arr' : list TEXTURE_INFO) (tag' : string)
    (n : nat) :
  (forall k, tag <$> arr' !! k = tag <$> arr !! k) ->
  forall i,
  FindTextureSlot_loop arr' tag' n i = FindTextureSlot_loop arr tag' n i.
Proof.
  intros Htags. induction n as [|n IH]; intros i; [reflexivity|].
  cbn [FindTextureSlot_loop]. unfold array_read.
  destruct (i <? 0); [reflexivity|].
  specialize (Htags (Z.to_nat i)).
  destruct (arr' !! Z.to_nat i) as [e'|], (arr !! Z.to_nat i) as [e|];
    cbn in Htags; try discriminate; [|reflexivity].
  injection Htags as Ht. cbn [bind]. rewrite Ht.
  destruct (String.eqb (tag e) tag'); [reflexivity|apply IH].
Qed.

Lemma DestroyGLTextures_loop_frame (n : nat) :
  forall i arr g,
  0 <= i -> i + Z.of_nat n <= Z.of_nat (length arr) ->
  exists arr' g',
    DestroyGLTextures_loop n i arr g = Ret (arr', g') /\
    length arr' = length arr /\
    (forall k, tag <$> arr' !! k = tag <$> arr !! k) /\
    gl_units g' = gl_units g /\
    (forall k e', i <= Z.of_nat k < i + Z.of_nat n -> arr' !! k = Some e' ->
                  ~ In (ID e') (gl_names g)) /\
    (forall k, ~ (i <= Z.of_nat k < i + Z.of_nat n) ->
               arr' !! k = arr !! k) /\
    (forall x, In x (gl_names g) -> In x (gl_names g')).
Proof.
  induction n as [|n IH]; intros i arr g Hi Hlen.
  - exists arr, g. split; [reflexivity|]. split; [reflexivity|].
    split; [reflexivity|]. split; [reflexivity|].
    split; [intros; lia|]. auto.
  - destruct (array_read_in_range arr i) as (e & He & Hr); [lia|].
    cbn [DestroyGLTextures_loop]. rewrite Hr. cbn [bind glGenTextures].
    rewrite array_write_in_range by lia. cbn [bind].
    match goal with
    | |- context [DestroyGLTextures_loop n (i + 1) ?a ?h] =>
        set (arr1 := a); set (g1 := h);
        destruct (IH (i + 1) arr1 g1)
          as (arr' & g' & Hrun & Hl & Htag & Hu & Hnew & Hold & Hnm)
    end.
    { lia. }
    { subst arr1. rewrite length_insert. lia. }
    assert (Hnames1 : gl_names g1 = gl_fresh g :: gl_names g) by reflexivity.
    exists arr', g'. split; [exact Hrun|].
    split; [rewrite Hl; subst arr1; apply length_insert|].
    split.
    { intros k. rewrite Htag. subst arr1.
      destruct (Nat.eq_dec k (Z.to_nat i)) as [->|Hk].
      - rewrite list_lookup_insert_eq by lia. now rewrite He.
      - now rewrite list_lookup_insert_ne by congruence. }
    split; [rewrite Hu; reflexivity|].
    split.
    { intros k e' Hk He'.
      destruct (Z.eq_dec (Z.of_nat k) i) as [Hki|Hki].
      - rewrite Hold in He' by lia. subst arr1.
        replace k with (Z.to_nat i) in He' by lia.
        rewrite list_lookup_insert_eq in He' by lia.
        injection He' as <-. cbn. apply gl_fresh_unused.
      - intros Hin. apply (Hnew k e'); [lia|exact He'|].
        rewrite Hnames1. now right. }
    split.
    { intros k Hk. rewrite Hold by lia. subst arr1.
      apply list_lookup_insert_ne. lia. }
    intros x Hx. apply Hnm. rewrite Hnames1. now right.
Qed.

(** X10.  [DestroyGLTextures] keeps the counter, the tag of every entry
    and every texture-unit binding, so [FindTextureSlot] answers as
    before; but every registered entry now holds a name that was not
    allocated before the call, and all names allocated before are
    still allocated: the registry has lost the handles of its textures
    without releasing one. *)
Theorem DestroyGLTextures_keeps_tags_loses_handles (st : SceneManager) :
  registry_ok st ->
  exists st',
    DestroyGLTextures st = Ret st' /\
    m_loadedTextures st' = m_loadedTextures st /\
    (forall k, tag <$> m_textureIDs st' !! k = tag <$> m_textureIDs st !! k) /\
    gl_units (gl st') = gl_units (gl st) /\
    (forall tag', FindTextureSlot tag' st' = FindTextureSlot tag' st) /\
    (forall i e', registered st' i e' -> ~ In (ID e') (gl_names (gl st))) /\
    (forall x, In x (gl_names (gl st)) -> In x (gl_names (gl st'))).
Proof.
  intros [H0 Hlen]. unfold DestroyGLTextures.
  destruct (DestroyGLTextures_loop_frame (Z.to_nat (m_loadedTextures st)) 0
              (m_textureIDs st) (gl st))
    as (arr' & g' & Hrun & Hl & Htag & Hu & Hnew & _ & Hnm); [lia|lia|].
  rewrite Hrun. cbn [bind fst snd]. eexists. split; [reflexivity|].
  cbn. split; [reflexivity|]. split; [exact Htag|]. split; [exact Hu|].
  split; [|split; [|exact Hnm]].
  - intros tag'. unfold FindTextureSlot. cbn.
    now apply FindTextureSlot_loop_tags.
  - intros i e' [Hi He']. cbn in Hi, He'.
    apply (Hnew (Z.to_nat i) e'); [lia|exact He'].
Qed.

(** ** The material table and the setters *)

Lemma first_material_app (ms ms' : list OBJECT_MATERIAL) (tag' : string) :
  first_material (ms ++ ms') tag' =
  match first_material ms tag' with
  | Some p => Some p
  | None => first_material ms' tag'
  end.
Proof.
  induction ms as [|m ms IH]; [reflexivity|]. cbn.
  destruct (String.eqb (material_tag m) tag'); [reflexivity|exact IH].
Qed.

Lemma FindMaterial_first (tag' : string) (material : OBJECT_MATERIAL)
    (st : SceneManager) :
  m_objectMaterials st <> [] ->
  FindMaterial tag' material st =
  (true,
   match first_material (m_objectMaterials st) tag' with
   | Some m =>
       mkOBJECT_MATERIAL (ambientColor m) (ambientStrength m) (diffuseColor m)
         (specularColor m) (shininess m) (material_tag material)
   | None => material
   end).
Proof.
  intros Hne. rewrite FindMaterial_nonempty by exact Hne.
  now rewrite FindMaterial_loop_first.
Qed.

Lemma DefineObjectMaterials_appends (st : SceneManager) :
  m_objectMaterials (DefineObjectMaterials st) =
  m_objectMaterials st ++
  m_objectMaterials (DefineObjectMaterials (set_materials [] st)).
Proof.
  unfold DefineObjectMaterials, push_back_material. cbn.
  now rewrite <- !app_assoc.
Qed.

(** X11.  [DefineObjectMaterials] appends four presets, tagged Paper,
    Wood, Plastic and Metal in that order, to whatever the table holds.
    Afterwards each of these four tags is defined; a tag the table
    defined before still resolves to its earlier preset; and calling
    [DefineObjectMaterials] once more changes no answer of
    [FindMaterial], for any tag. *)
Theorem DefineObjectMaterials_lookup (st : SceneManager) (tag' : string)
    (material : OBJECT_MATERIAL) :
  let st' := DefineObjectMaterials st in
  let defined := m_objectMaterials (DefineObjectMaterials (set_materials [] st)) in
  m_objectMaterials st' = m_objectMaterials st ++ defined /\
  map material_tag defined = ["Paper"; "Wood"; "Plastic"; "Metal"] /\
  (forall p, first_material (m_objectMaterials st) tag' = Some p ->
             first_material (m_objectMaterials st') tag' = Some p) /\
  (In tag' ["Paper"; "Wood"; "Plastic"; "Metal"] ->
     exists p, first_material (m_objectMaterials st') tag' = Some p /\
               material_tag p = tag') /\
  FindMaterial tag' material (DefineObjectMaterials st') =
    FindMaterial tag' material st'.
Proof.
  cbn zeta. split; [apply DefineObjectMaterials_appends|].
  split; [reflexivity|]. split; [|split].
  - intros p Hp. rewrite DefineObjectMaterials_appends, first_material_app.
    now rewrite Hp.
  - intros Hin.
    rewrite DefineObjectMaterials_appends, first_material_app.
    destruct (first_material (m_objectMaterials st) tag') as [p|] eqn:Hp.
    + exists p. split; [reflexivity|]. eapply first_material_tag; eauto.
    + cbn in Hin.
      destruct Hin as [<-|[<-|[<-|[<-|[]]]]]; eexists; split; reflexivity.
  - assert (Hne : forall s, m_objectMaterials (DefineObjectMaterials s) <> []).
    { intros s. rewrite DefineObjectMaterials_appends.
      destruct (m_objectMaterials s); discriminate. }
    rewrite !FindMaterial_first by apply Hne. f_equal.
    rewrite (DefineObjectMaterials_appends (DefineObjectMaterials st)).
    rewrite first_material_app.
    destruct (first_material (m_objectMaterials (DefineObjectMaterials st))
                tag') as [p|] eqn:Hp; [reflexivity|].
    rewrite DefineObjectMaterials_appends, first_material_app in Hp.
    destruct (first_material (m_objectMaterials st) tag'); [discriminate|].
    cbn [set_materials m_objectMaterials] in *.
    replace (first_material
               (m_objectMaterials
                  (DefineObjectMaterials
                     (set_materials [] (DefineObjectMaterials st)))) tag')
      with (first_material
              (m_objectMaterials
                 (DefineObjectMaterials (set_materials [] st))) tag')
      by reflexivity.
    now rewrite Hp.
Qed.

(** X12.  [SetShaderColor] and [SetShaderTexture] both write
    "bUseTexture", so the one called last decides it: after colour then
    texture the flag reads 1 and after texture then colour it reads 0.
    Neither call clears what the other one set besides the flag: the
    colour, respectively the sampler slot, still holds the value given
    before. *)
Theorem texture_and_color_last_setter_wins (textureTag : string)
    (r g b a : float) (st : SceneManager) (sh : ShaderManager) :
  registry_ok st ->
  m_pShaderManager st = Some sh ->
  exists slot st1 st2 sh1 sh2,
    FindTextureSlot textureTag st = Ret slot /\
    SetShaderTexture textureTag (SetShaderColor r g b a st) = Ret st1 /\
    m_pShaderManager st1 = Some sh1 /\
    current_uniform g_UseTextureName sh1 = Some (setIntValue g_UseTextureName 1) /\
    current_uniform g_ColorValueName sh1 =
      Some (setVec4Value g_ColorValueName (mkvec4 r g b a)) /\
    SetShaderTexture textureTag st = Ret st2 /\
    m_pShaderManager (SetShaderColor r g b a st2) = Some sh2 /\
    current_uniform g_UseTextureName sh2 = Some (setIntValue g_UseTextureName 0) /\
    current_uniform g_TextureValueName sh2 =
      Some (setSampler2DValue g_TextureValueName slot).
Proof.
  intros Hok Hsh.
  assert (Hslot : exists slot, FindTextureSlot textureTag st = Ret slot).
  { destruct (FindTexture_cases textureTag st Hok)
      as [(_ & Hs & _)|(i & e & _ & _ & Hs & _)]; eauto. }
  destruct Hslot as [slot Hslot].
  exists slot.
  unfold SetShaderTexture, SetShaderColor. rewrite Hsh.
  cbn [m_pShaderManager set_shader].
  change (FindTextureSlot textureTag (set_shader _ st))
    with (FindTextureSlot textureTag st).
  rewrite Hslot. cbn [bind m_pShaderManager set_shader].
  do 4 eexists. split; [reflexivity|]. split; [reflexivity|].
  split; [reflexivity|].
  split; [rewrite <- !app_assoc; apply current_uniform_app_hit; reflexivity|].
  split; [rewrite <- !app_assoc; apply current_uniform_app_hit; reflexivity|].
  split; [reflexivity|]. split; [reflexivity|].
  split; rewrite <- !app_assoc; apply current_uniform_app_hit; reflexivity.
Qed.

(** X13.  [SetShaderMaterial] has no test for a null shader manager.
    With a null pointer it returns normally only while the material
    table is empty; once a material is defined it calls through the
    null pointer, for every tag, defined or not. *)
Theorem SetShaderMaterial_null_shader (materialTag : string)
    (material : OBJECT_MATERIAL) (st : SceneManager) :
  m_pShaderManager st = None ->
  (m_objectMaterials st = [] ->
     SetShaderMaterial materialTag material st = Ret st) /\
  (m_objectMaterials st <> [] ->
     SetShaderMaterial materialTag material st = Fault NullDereference).
Proof.
  intros Hnull. split.
  - apply SetShaderMaterial_empty.
  - intros Hne. now apply SetShaderMaterial_null.
Qed.

(** ** Preparing the scene *)

Lemma CreateGLTexture_frame (filename tag' : string) (b : bool)
    (st st' : SceneManager) :
  CreateGLTexture stbi_load filename tag' st = Ret (b, st') ->
  m_pShaderManager st' = m_pShaderManager st /\
  m_objectMaterials st' = m_objectMaterials st.
Proof.
  unfold CreateGLTexture.
  destruct (stbi_load filename) as [img|];
    [|intros H; injection H as _ <-; auto].
  destruct (colorChannels img =? 3);
    [|destruct (colorChannels img =? 4)]; cbn;
    try (destruct (array_write _ _ _); cbn; [|discriminate]);
    intros H; injection H as _ <-; auto.
Qed.

Lemma load_textures_frame (requests : list (string * string)) :
  forall st flags st',
  load_textures stbi_load requests st = Ret (flags, st') ->
  m_pShaderManager st' = m_pShaderManager st /\
  m_objectMaterials st' = m_objectMaterials st.
Proof.
  induction requests as [|[f t] rest IH]; intros st flags st' Hrun.
  - cbn in Hrun. injection Hrun as _ <-. auto.
  - cbn [load_textures] in Hrun.
    destruct (CreateGLTexture stbi_load f t st) as [[b st1]|] eqn:Hc;
      [|discriminate].
    cbn [bind snd] in Hrun.
    destruct (load_textures stbi_load rest st1) as [[fl st2]|] eqn:Hr;
      [|discriminate].
    cbn in Hrun. injection Hrun as _ <-.
    destruct (CreateGLTexture_frame f t b st st1 Hc) as [Hs Hm].
    destruct (IH st1 fl st2 Hr) as [Hs' Hm'].
    split; congruence.
Qed.

Lemma BindGLTextures_inv (st st' : SceneManager) :
  BindGLTextures st = Ret st' -> st' = set_gl (gl st') st.
Proof.
  unfold BindGLTextures.
  destruct (BindGLTextures_loop _ _ _ _); [|discriminate].
  cbn. intros H. injection H as <-. reflexivity.
Qed.

Lemma LoadSceneTextures_frame (st st' : SceneManager) :
  LoadSceneTextures stbi_load st = Ret st' ->
  m_pShaderManager st' = m_pShaderManager st /\
  m_objectMaterials st' = m_objectMaterials st.
Proof.
  unfold LoadSceneTextures.
  destruct (load_textures stbi_load scene_texture_files st) as [[fl st1]|] eqn:Hl;
    [|discriminate].
  cbn [bind snd]. intros Hb. apply BindGLTextures_inv in Hb.
  destruct (load_textures_frame _ _ _ _ Hl) as [Hs Hm].
  rewrite Hb. cbn. auto.
Qed.

Lemma LoadSceneTextures_spec (st : SceneManager) :
  registry_ok st ->
  m_loadedTextures st + loadable_count stbi_load scene_texture_files
    <= Z.of_nat (length (m_textureIDs st)) ->
  exists st',
    LoadSceneTextures stbi_load st = Ret st' /\
    registry_ok st' /\
    m_loadedTextures st' =
      m_loadedTextures st + loadable_count stbi_load scene_texture_files /\
    (forall f t, In (f, t) scene_texture_files ->
       loadable stbi_load f = true ->
       exists i e,
         first_registered st' t i e /\
         gl_units (gl st') !! i = Some (ID e)).
Proof.
  intros Hok Hcap. unfold LoadSceneTextures.
  destruct (load_textures_spec stbi_load scene_texture_files st Hok Hcap)
    as (st1 & Hrun & Hok1 & Hn1 & _ & _ & Hres).
  rewrite Hrun. cbn [bind snd]. unfold BindGLTextures.
  pose proof Hok1 as [H0 Hlen].
  destruct (BindGLTextures_loop_frame (m_textureIDs st1)
              (Z.to_nat (m_loadedTextures st1)) 0 (gl st1))
    as (g' & Hb & Hnew & _); [lia|lia|].
  rewrite Hb. cbn [bind]. eexists. split; [reflexivity|].
  split; [exact Hok1|]. split; [exact Hn1|].
  intros f t Hin Hl.
  destruct (Hres f t Hin Hl) as (i & e & Hreg & Ht).
  destruct (first_registered_exists st1 t i e Hok1 Hreg Ht) as (k & e' & Hf).
  exists k, e'. split; [exact Hf|].
  destruct Hf as ([Hk He'] & _). cbn. apply Hnew; [lia|exact He'].
Qed.

(** X14.  [SetupSceneLights] calls through the shader manager without
    testing it, so [PrepareScene] on a scene manager built with a null
    shader manager never returns normally; when the texture loads fit
    in the array, it gets as far as the lights and faults there with
    the null dereference. *)
Theorem PrepareScene_null_shader (rs : RenderState) :
  m_pShaderManager (self rs) = None ->
  (forall rs', PrepareScene stbi_load rs <> Ret rs') /\
  (registry_ok (self rs) ->
   m_loadedTextures (self rs) + loadable_count stbi_load scene_texture_files
     <= Z.of_nat (length (m_textureIDs (self rs))) ->
   PrepareScene stbi_load rs = Fault NullDereference).
Proof.
  intros Hnull. unfold PrepareScene. split.
  - intros rs'.
    destruct (LoadSceneTextures stbi_load (self rs)) as [st1|] eqn:Hl;
      [|discriminate].
    destruct (LoadSceneTextures_frame _ _ Hl) as [Hs _].
    cbn [bind]. unfold SetupSceneLights.
    replace (m_pShaderManager (DefineObjectMaterials st1)) with
      (m_pShaderManager st1) by reflexivity.
    rewrite Hs, Hnull. discriminate.
  - intros Hok Hcap.
    destruct (LoadSceneTextures_spec (self rs) Hok Hcap) as (st1 & Hl & _).
    rewrite Hl. destruct (LoadSceneTextures_frame _ _ Hl) as [Hs _].
    cbn [bind]. unfold SetupSceneLights.
    replace (m_pShaderManager (DefineObjectMaterials st1)) with
      (m_pShaderManager st1) by reflexivity.
    rewrite Hs, Hnull. reflexivity.
Qed.

(** X15.  With a shader manager present and room in the array for the
    scene's loadable textures, [PrepareScene] returns normally.
    Afterwards the tag of every scene texture whose file could be
    loaded resolves to a registered entry, and the texture unit with
    the number of that slot is bound to that entry's handle; the four
    material presets have been appended to the table; the lighting
    uniforms have been set after whatever was set before; and the four
    meshes have been loaded, once each. *)
Theorem PrepareScene_prepares (rs : RenderState) (sh : ShaderManager) :
  registry_ok (self rs) ->
  m_pShaderManager (self rs) = Some sh ->
  m_loadedTextures (self rs) + loadable_count stbi_load scene_texture_files
    <= Z.of_nat (length (m_textureIDs (self rs))) ->
  exists rs',
    PrepareScene stbi_load rs = Ret rs' /\
    registry_ok (self rs') /\
    m_loadedTextures (self rs') =
      m_loadedTextures (self rs) +
      loadable_count stbi_load scene_texture_files /\
    (forall f t, In (f, t) scene_texture_files ->
       loadable stbi_load f = true ->
       exists i e,
         first_registered (self rs') t i e /\
         FindTextureSlot t (self rs') = Ret i /\
         gl_units (gl (self rs')) !! i = Some (ID e)) /\
    map material_tag (m_objectMaterials (self rs')) =
      map material_tag (m_objectMaterials (self rs)) ++
      ["Paper"; "Wood"; "Plastic"; "Metal"] /\
    m_pShaderManager (self rs') = Some (sh ++ scene_light_uniforms) /\
    m_basicMeshes rs' =
      m_basicMeshes rs ++
      [LoadMesh PlaneMesh; LoadMesh BoxMesh;
       LoadMesh CylinderMesh; LoadMesh TorusMesh].
Proof.
  intros Hok Hsh Hcap. unfold PrepareScene.
  destruct (LoadSceneTextures_spec (self rs) Hok Hcap)
    as (st1 & Hl & Hok1 & Hn1 & Hres).
  rewrite Hl. destruct (LoadSceneTextures_frame _ _ Hl) as [Hs Hm].
  cbn [bind]. unfold SetupSceneLights.
  replace (m_pShaderManager (DefineObjectMaterials st1)) with
    (m_pShaderManager st1) by reflexivity.
  rewrite Hs, Hsh. cbn [bind]. eexists. split; [reflexivity|].
  cbn [self m_basicMeshes].
  split; [exact Hok1|]. split; [exact Hn1|]. split; [|split; [|split]].
  - intros f t Hin Hload.
    destruct (Hres f t Hin Hload) as (i & e & Hf & Hu).
    exists i, e.
    assert (Hf' : first_registered
                    (set_shader (Some (sh ++ scene_light_uniforms))
                       (DefineObjectMaterials st1)) t i e) by exact Hf.
    split; [exact Hf'|]. split; [|exact Hu].
    exact (proj2 (FindTexture_hit t _ i e Hf')).
  - cbn [m_objectMaterials set_shader].
    rewrite DefineObjectMaterials_appends, map_app, Hm. reflexivity.
  - reflexivity.
  - reflexivity.
Qed.

Lemma PrepareScene_ready (rs : RenderState) (sh : ShaderManager) :
  registry_ok (self rs) ->
  m_pShaderManager (self rs) = Some sh ->
  m_loadedTextures (self rs) + loadable_count stbi_load scene_texture_files
    <= Z.of_nat (length (m_textureIDs (self rs))) ->
  exists rs',
    PrepareScene stbi_load rs = Ret rs' /\
    registry_ok (self rs') /\
    (forall f t, In (f, t) scene_texture_files ->
       loadable stbi_load f = true ->
       exists i e, first_registered (self rs') t i e) /\
    m_pShaderManager (self rs') = Some (sh ++ scene_light_uniforms) /\
    (forall t, In t ["Paper"; "Wood"; "Plastic"; "Metal"] ->
       exists p, first_material (m_objectMaterials (self rs')) t = Some p /\
                 material_tag p = t).
Proof.
  intros Hok Hsh Hcap. unfold PrepareScene.
  destruct (LoadSceneTextures_spec (self rs) Hok Hcap)
    as (st1 & Hl & Hok1 & Hn1 & Hres).
  rewrite Hl. destruct (LoadSceneTextures_frame _ _ Hl) as [Hs Hm].
  cbn [bind]. unfold SetupSceneLights.
  replace (m_pShaderManager (DefineObjectMaterials st1)) with
    (m_pShaderManager st1) by reflexivity.
  rewrite Hs, Hsh. cbn [bind]. eexists. split; [reflexivity|].
  cbn [self m_basicMeshes].
  split; [exact Hok1|]. split; [|split; [reflexivity|]].
  - intros f t Hin Hload.
    destruct (Hres f t Hin Hload) as (i & e & Hf & _). exists i, e. exact Hf.
  - intros t Hin. cbn [m_objectMaterials set_shader].
    rewrite DefineObjectMaterials_appends, first_material_app.
    destruct (first_material (m_objectMaterials st1) t) as [p|] eqn:Hp.
    + exists p. split; [reflexivity|]. eapply first_material_tag; eauto.
    + cbn in Hin.
      destruct Hin as [<-|[<-|[<-|[<-|[]]]]]; eexists; split; reflexivity.
Qed.

(** ** Rendering the scene *)

Lemma bind_of_Ret {A B : Type} (r : result A) (a : A) (k : A -> result B) :
  r = Ret a -> bind r k = k a.
Proof. now intros ->. Qed.

Lemma sampler_values_app (c1 c2 : list uniform_call) :
  sampler_values (c1 ++ c2) = sampler_values c1 ++ sampler_values c2.
Proof. apply flat_map_app. Qed.

Lemma meshes_drawn_by_cons (s : statement) (rest : list statement) :
  meshes_drawn_by (s :: rest) = meshes_drawn_by [s] ++ meshes_drawn_by rest.
Proof. unfold meshes_drawn_by. cbn [flat_map]. now rewrite app_nil_r. Qed.

Lemma texture_tags_of_cons (s : statement) (rest : list statement) :
  texture_tags_of (s :: rest) = texture_tags_of [s] ++ texture_tags_of rest.
Proof. unfold texture_tags_of. cbn [flat_map]. now rewrite app_nil_r. Qed.

Lemma set_shader_same (st : SceneManager) (sh : ShaderManager) :
  m_pShaderManager st = Some sh -> set_shader (Some sh) st = st.
Proof. intros H. destruct st. cbn in *. now rewrite H. Qed.

(* one statement, with a shader manager present: the registry, the
   material table and the GL context are not touched; uniform calls
   are only added; the sampler is set exactly by SetShaderTexture, to
   what FindTextureSlot returns *)
Lemma run_statement_spec (material : OBJECT_MATERIAL) (s : statement)
    (l : locals) (st0 : SceneManager) (shx : ShaderManager)
    (meshes : ShapeMeshes) :
  registry_ok st0 ->
  exists l' calls,
    run_statement material s
      (l, mkRenderState (set_shader (Some shx) st0) meshes) =
      Ret (l', mkRenderState (set_shader (Some (shx ++ calls)) st0)
                 (meshes ++ map DrawMesh (meshes_drawn_by [s]))) /\
    map Ret (sampler_values calls) =
      map (fun t => FindTextureSlot t st0) (texture_tags_of [s]).
Proof.
  intros Hok.
  destruct s; cbn [run_statement self m_basicMeshes meshes_drawn_by
                   texture_tags_of flat_map map app];
    rewrite ?(app_nil_r meshes).
  1-5: eexists; exists []; rewrite (app_nil_r shx); split; reflexivity.
  - eexists. eexists. unfold SetTransformations.
    cbn [m_pShaderManager set_shader]. split; reflexivity.
  - unfold SetShaderMaterial. cbn [m_objectMaterials set_shader].
    destruct (0 <? Z.of_nat (length (m_objectMaterials st0))).
    + unfold FindMaterial. cbn [m_objectMaterials set_shader].
      destruct (Z.of_nat (length (m_objectMaterials st0)) =? 0);
        cbn [bind m_pShaderManager set_shader].
      * eexists. exists []. rewrite (app_nil_r shx). split; reflexivity.
      * eexists. eexists. split; reflexivity.
    + cbn [bind]. eexists. exists []. rewrite (app_nil_r shx).
      split; reflexivity.
  - unfold SetShaderTexture. cbn [m_pShaderManager set_shader].
    change (FindTextureSlot textureTag (set_shader (Some shx) st0))
      with (FindTextureSlot textureTag st0).
    assert (Hslot : exists slot, FindTextureSlot textureTag st0 = Ret slot).
    { destruct (FindTexture_cases textureTag st0 Hok)
        as [(_ & Hs & _)|(i & e & _ & _ & Hs & _)]; eauto. }
    destruct Hslot as [slot Hslot]. rewrite Hslot. cbn [bind].
    exists l, [setIntValue g_UseTextureName 1;
               setSampler2DValue g_TextureValueName slot].
    rewrite <- app_assoc. split; reflexivity.
  - eexists. eexists. unfold SetShaderColor.
    cbn [m_pShaderManager set_shader]. split; reflexivity.
  - eexists. exists []. rewrite (app_nil_r shx). split; reflexivity.
Qed.

Lemma run_statements_spec (material : OBJECT_MATERIAL) (body : list statement)
    (st0 : SceneManager) :
  registry_ok st0 ->
  forall (l : locals) (shx : ShaderManager) (meshes : ShapeMeshes),
  exists l' calls,
    run_statements material body
      (l, mkRenderState (set_shader (Some shx) st0) meshes) =
      Ret (l', mkRenderState (set_shader (Some (shx ++ calls)) st0)
                 (meshes ++ map DrawMesh (meshes_drawn_by body))) /\
    map Ret (sampler_values calls) =
      map (fun t => FindTextureSlot t st0) (texture_tags_of body).
Proof.
  intros Hok. induction body as [|s rest IH]; intros l shx meshes.
  - exists l, []. cbn. rewrite !app_nil_r. auto.
  - destruct (run_statement_spec material s l st0 shx meshes Hok)
      as (l1 & c1 & Hs & Hv1).
    cbn [run_statements]. rewrite Hs. cbn [bind].
    destruct (IH l1 (shx ++ c1)
                (meshes ++ map DrawMesh (meshes_drawn_by [s])))
      as (l2 & c2 & Hr & Hv2).
    exists l2, (c1 ++ c2). split.
    + etransitivity; [exact Hr|].
      rewrite (meshes_drawn_by_cons s rest), map_app, !app_assoc.
      reflexivity.
    + rewrite sampler_values_app, map_app, Hv1, Hv2, <- map_app.
      now rewrite (texture_tags_of_cons s rest).
Qed.

(** X16.  With a shader manager present and the registry counter within
    the array, [RenderScene] returns normally whatever has or has not
    been loaded or defined.  It changes nothing in the registry, the
    material table or the GL context and only adds uniform calls; the
    values it sets the sampler to are, in order, exactly what
    [FindTextureSlot] returns for the texture tags of its statements
    (so -1 for each use of a tag that is not registered); and it issues
    one draw per draw statement, in order. *)
Theorem RenderScene_sets_looked_up_slots (scale0 position0 : vec3)
    (material : OBJECT_MATERIAL) (rs : RenderState) (sh : ShaderManager) :
  registry_ok (self rs) ->
  m_pShaderManager (self rs) = Some sh ->
  exists rs' calls,
    RenderScene scale0 position0 material rs = Ret rs' /\
    self rs' = set_shader (Some (sh ++ calls)) (self rs) /\
    map Ret (sampler_values calls) =
      map (fun t => FindTextureSlot t (self rs))
          (texture_tags_of RenderScene_body) /\
    m_basicMeshes rs' =
      m_basicMeshes rs ++ map DrawMesh (meshes_drawn_by RenderScene_body).
Proof.
  intros Hok Hsh. unfold RenderScene.
  destruct rs as [st meshes]. cbn [self m_basicMeshes] in *.
  destruct (run_statements_spec material RenderScene_body st Hok
              (mklocals scale0 (literal 0.0) (literal 0.0) (literal 0.0)
                 position0) sh meshes) as (l' & calls & Hrun & Hv).
  rewrite (set_shader_same st sh Hsh) in Hrun.
  erewrite bind_of_Ret by exact Hrun.
  cbn [snd]. eexists. exists calls.
  split; [reflexivity|]. cbn [self m_basicMeshes]. auto.
Qed.

Lemma run_statements_null_empty (material : OBJECT_MATERIAL)
    (body : list statement) (st : SceneManager) :
  m_pShaderManager st = None ->
  m_objectMaterials st = [] ->
  forall (l : locals) (meshes : ShapeMeshes),
  exists l',
    run_statements material body (l, mkRenderState st meshes) =
    Ret (l', mkRenderState st
               (meshes ++ map DrawMesh (meshes_drawn_by body))).
Proof.
  intros Hnull Hempty. induction body as [|s rest IH]; intros l meshes.
  - exists l. cbn. now rewrite app_nil_r.
  - cbn [run_statements].
    assert (Hs : exists l1,
               run_statement material s (l, mkRenderState st meshes) =
               Ret (l1, mkRenderState st
                          (meshes ++ map DrawMesh (meshes_drawn_by [s])))).
    { destruct s; cbn [run_statement self m_basicMeshes meshes_drawn_by
                       flat_map map app];
        rewrite ?app_nil_r.
      1-5: eexists; reflexivity.
      - unfold SetTransformations. rewrite Hnull. eexists; reflexivity.
      - rewrite SetShaderMaterial_empty by exact Hempty. cbn [bind].
        eexists; reflexivity.
      - unfold SetShaderTexture. rewrite Hnull. cbn [bind].
        eexists; reflexivity.
      - unfold SetShaderColor. rewrite Hnull. eexists; reflexivity.
      - eexists; reflexivity. }
    destruct Hs as [l1 Hs]. rewrite Hs. cbn [bind].
    destruct (IH l1 (meshes ++ map DrawMesh (meshes_drawn_by [s])))
      as [l2 Hr].
    exists l2. etransitivity; [exact Hr|].
    rewrite (meshes_drawn_by_cons s rest), map_app, !app_assoc. reflexivity.
Qed.

Lemma RenderScene_body_starts :
  exists v1 v2 v3 v4 v5 rest,
    RenderScene_body =
    assign_scaleXYZ v1 :: assign_XrotationDegrees v2 ::
    assign_YrotationDegrees v3 :: assign_ZrotationDegrees v4 ::
    assign_positionXYZ v5 :: call_SetTransformations ::
    call_SetShaderMaterial "Wood" :: rest.
Proof. unfold RenderScene_body. do 6 eexists. reflexivity. Qed.

(** X17.  On a scene manager with a null shader manager [RenderScene]
    depends on the material table.  While the table is empty every
    setter is skipped and the scene is drawn with no uniform set at
    all; once a material is defined, the first [SetShaderMaterial] of
    the scene calls through the null pointer and nothing is drawn. *)
Theorem RenderScene_null_shader (scale0 position0 : vec3)
    (material : OBJECT_MATERIAL) (rs : RenderState) :
  m_pShaderManager (self rs) = None ->
  (m_objectMaterials (self rs) = [] ->
     RenderScene scale0 position0 material rs =
     Ret (mkRenderState (self rs)
            (m_basicMeshes rs ++
             map DrawMesh (meshes_drawn_by RenderScene_body)))) /\
  (m_objectMaterials (self rs) <> [] ->
     RenderScene scale0 position0 material rs = Fault NullDereference).
Proof.
  intros Hnull. destruct rs as [st meshes]. cbn [self m_basicMeshes] in *.
  unfold RenderScene. split.
  - intros Hempty.
    destruct (run_statements_null_empty material RenderScene_body st Hnull
                Hempty
                (mklocals scale0 (literal 0.0) (literal 0.0) (literal 0.0)
                   position0) meshes) as [l' Hr].
    erewrite bind_of_Ret by exact Hr. reflexivity.
  - intros Hne.
    destruct RenderScene_body_starts as (v1 & v2 & v3 & v4 & v5 & rest & ->).
    cbn [run_statements run_statement bind self m_basicMeshes].
    unfold SetTransformations at 1. rewrite Hnull.
    rewrite (SetShaderMaterial_null "Wood" material st Hne Hnull).
    reflexivity.
Qed.

Lemma scene_tags_are_loaded :
  forallb (fun t => existsb (String.eqb t) (map snd scene_texture_files))
          (texture_tags_of RenderScene_body) = true.
Proof. vm_compute. reflexivity. Qed.

Lemma scene_materials_are_defined :
  forallb (fun t => existsb (String.eqb t) ["Paper"; "Wood"; "Plastic"; "Metal"])
          (material_tags_of RenderScene_body) = true.
Proof. vm_compute. reflexivity. Qed.

(** X18.  [PrepareScene] followed by [RenderScene], on a scene manager
    with a shader manager and with room in the array, when all five
    texture files can be loaded: both return normally, and every value
    [RenderScene] sets the sampler to is a registered slot, never -1 -
    each texture tag the scene uses is among the tags
    [LoadSceneTextures] registers.  Each material tag the scene uses
    is defined in the table as well. *)
Theorem PrepareScene_then_RenderScene (scale0 position0 : vec3)
    (material : OBJECT_MATERIAL) (rs : RenderState) (sh : ShaderManager) :
  registry_ok (self rs) ->
  m_pShaderManager (self rs) = Some sh ->
  (forall f t, In (f, t) scene_texture_files -> loadable stbi_load f = true) ->
  m_loadedTextures (self rs) + 5 <= Z.of_nat (length (m_textureIDs (self rs))) ->
  exists rs1 rs2 calls,
    PrepareScene stbi_load rs = Ret rs1 /\
    RenderScene scale0 position0 material rs1 = Ret rs2 /\
    self rs2 =
      set_shader (Some ((sh ++ scene_light_uniforms) ++ calls)) (self rs1) /\
    (forall v, In v (sampler_values calls) ->
               0 <= v < m_loadedTextures (self rs1)) /\
    (forall t, In t (material_tags_of RenderScene_body) ->
               exists p, first_material (m_objectMaterials (self rs1)) t =
                         Some p /\ material_tag p = t).
Proof.
  intros Hok Hsh Hall Hroom.
  destruct (all_loadable_count stbi_load scene_texture_files Hall) as [Hc _].
  destruct (PrepareScene_ready rs sh Hok Hsh) as (rs1 & Hp & Hok1 & Hres & Hsh1 & Hmat).
  { rewrite Hc. cbn. lia. }
  destruct rs1 as [st1 meshes1]. cbn [self] in *.
  destruct (run_statements_spec material RenderScene_body st1 Hok1
              (mklocals scale0 (literal 0.0) (literal 0.0) (literal 0.0)
                 position0) (sh ++ scene_light_uniforms) meshes1)
    as (l' & calls & Hrun & Hv).
  rewrite (set_shader_same st1 _ Hsh1) in Hrun.
  eexists. eexists. exists calls. split; [exact Hp|].
  unfold RenderScene.
  erewrite bind_of_Ret by exact Hrun.
  cbn [snd self]. split; [reflexivity|].
  split; [reflexivity|]. split.
  - intros v Hv'.
    assert (Hin : In (Ret v) (map Ret (sampler_values calls)))
      by (apply in_map; exact Hv').
    rewrite Hv in Hin. apply in_map_iff in Hin as (t & Ht & Htin).
    pose proof scene_tags_are_loaded as Hall'.
    rewrite forallb_forall in Hall'. specialize (Hall' t Htin).
    apply existsb_exists in Hall' as (t' & Hin' & Heq).
    apply String.eqb_eq in Heq. subst t'.
    apply in_map_iff in Hin' as ([f t'] & Hsnd & Hft). cbn in Hsnd. subst t'.
    destruct (Hres f t Hft (Hall f t Hft)) as (i & e & Hf).
    destruct (FindTexture_hit t st1 i e Hf) as [_ Hslot].
    rewrite Hslot in Ht. injection Ht as <-.
    destruct Hf as ([Hi _] & _). exact Hi.
  - intros t Htin.
    pose proof scene_materials_are_defined as Hall'.
    rewrite forallb_forall in Hall'. specialize (Hall' t Htin).
    apply existsb_exists in Hall' as (t' & Hin' & Heq).
    apply String.eqb_eq in Heq. subst t'.
    apply Hmat. exact Hin'.
Qed.

End Further.

(** ** The model matrix in exact arithmetic *)

Section FurtherExact.

Context {FO : FloatOps}.
Hypothesis float_ring : ring_theory fzero fone fadd fmul fsub fopp eq.
Hypothesis inversesqrt_one : finversesqrt fone = fone.
Hypothesis cos_zero : fcos fzero = fone.
Hypothesis sin_zero : fsin fzero = fzero.

Add Ring float_ring_further : float_ring.

Lemma ComposeModelMatrix_action (scaleXYZ : vec3) (rx ry rz : float)
    (positionXYZ : vec3) (v : vec4) :
  mat4_mul_vec (ComposeModelMatrix scaleXYZ rx ry rz positionXYZ) v =
  mat4_mul_vec (Translation positionXYZ)
    (mat4_mul_vec (RotationX rx)
       (mat4_mul_vec (RotationY ry)
          (mat4_mul_vec (RotationZ rz) (mat4_mul_vec (Scale scaleXYZ) v)))).
Proof.
  unfold ComposeModelMatrix. now rewrite !(mat4_mul_vec_assoc float_ring).
Qed.

Lemma RotationX_w (degrees : float) (v : vec4) :
  v4w (mat4_mul_vec (RotationX degrees) v) = v4w v.
Proof.
  pose proof (RotationX_action float_ring inversesqrt_one degrees v) as H.
  cbv zeta in H. now rewrite H.
Qed.

Lemma RotationY_w (degrees : float) (v : vec4) :
  v4w (mat4_mul_vec (RotationY degrees) v) = v4w v.
Proof.
  pose proof (RotationY_action float_ring inversesqrt_one degrees v) as H.
  cbv zeta in H. now rewrite H.
Qed.

Lemma RotationZ_w (degrees : float) (v : vec4) :
  v4w (mat4_mul_vec (RotationZ degrees) v) = v4w v.
Proof.
  pose proof (RotationZ_action float_ring inversesqrt_one degrees v) as H.
  cbv zeta in H. now rewrite H.
Qed.

(** X19.  In exact arithmetic the model matrix is affine: it leaves the
    fourth coordinate of every column vector as it is, so points (w =
    1) are mapped to points and directions (w = 0) to directions. *)
Theorem model_matrix_keeps_w (scaleXYZ : vec3) (rx ry rz : float)
    (positionXYZ : vec3) (v : vec4) :
  v4w (mat4_mul_vec (ComposeModelMatrix scaleXYZ rx ry rz positionXYZ) v) =
  v4w v.
Proof.
  rewrite ComposeModelMatrix_action.
  rewrite (Translation_action float_ring). cbn [v4w].
  rewrite RotationX_w, RotationY_w, RotationZ_w.
  now rewrite (Scale_action float_ring).
Qed.

Lemma RotationX_origin (degrees w : float) :
  mat4_mul_vec (RotationX degrees) (mkvec4 fzero fzero fzero w) =
  mkvec4 fzero fzero fzero w.
Proof.
  pose proof (RotationX_action float_ring inversesqrt_one degrees
                (mkvec4 fzero fzero fzero w)) as H.
  cbv zeta in H. rewrite H. cbn [v4x v4y v4z v4w]. f_equal; ring.
Qed.

Lemma RotationY_origin (degrees w : float) :
  mat4_mul_vec (RotationY degrees) (mkvec4 fzero fzero fzero w) =
  mkvec4 fzero fzero fzero w.
Proof.
  pose proof (RotationY_action float_ring inversesqrt_one degrees
                (mkvec4 fzero fzero fzero w)) as H.
  cbv zeta in H. rewrite H. cbn [v4x v4y v4z v4w]. f_equal; ring.
Qed.

Lemma RotationZ_origin (degrees w : float) :
  mat4_mul_vec (RotationZ degrees) (mkvec4 fzero fzero fzero w) =
  mkvec4 fzero fzero fzero w.
Proof.
  pose proof (RotationZ_action float_ring inversesqrt_one degrees
                (mkvec4 fzero fzero fzero w)) as H.
  cbv zeta in H. rewrite H. cbn [v4x v4y v4z v4w]. f_equal; ring.
Qed.

(** X20.  In exact arithmetic the model matrix carries the origin of
    the mesh, the point (0, 0, 0, 1), to [positionXYZ], whatever the
    scale and the three angles are. *)
Theorem model_matrix_places_origin (scaleXYZ : vec3) (rx ry rz : float)
    (positionXYZ : vec3) :
  mat4_mul_vec (ComposeModelMatrix scaleXYZ rx ry rz positionXYZ)
    (mkvec4 fzero fzero fzero fone) =
  mkvec4 (v3x positionXYZ) (v3y positionXYZ) (v3z positionXYZ) fone.
Proof.
  rewrite ComposeModelMatrix_action.
  assert (Hs : mat4_mul_vec (Scale scaleXYZ) (mkvec4 fzero fzero fzero fone)
               = mkvec4 fzero fzero fzero fone).
  { rewrite (Scale_action float_ring). cbn [v4x v4y v4z v4w].
    f_equal; ring. }
  rewrite Hs, RotationZ_origin, RotationY_origin, RotationX_origin.
  rewrite (Translation_action float_ring). cbn [v4x v4y v4z v4w].
  f_equal; ring.
Qed.

Lemma radians_zero : glm_radians fzero = fzero.
Proof. unfold glm_radians. ring. Qed.

Lemma RotationX_zero (v : vec4) : mat4_mul_vec (RotationX fzero) v = v.
Proof.
  pose proof (RotationX_action float_ring inversesqrt_one fzero v) as H.
  cbv zeta in H. rewrite H, radians_zero, cos_zero, sin_zero.
  destruct v; cbn [v4x v4y v4z v4w]. f_equal; ring.
Qed.

Lemma RotationY_zero (v : vec4) : mat4_mul_vec (RotationY fzero) v = v.
Proof.
  pose proof (RotationY_action float_ring inversesqrt_one fzero v) as H.
  cbv zeta in H. rewrite H, radians_zero, cos_zero, sin_zero.
  destruct v; cbn [v4x v4y v4z v4w]. f_equal; ring.
Qed.

Lemma RotationZ_zero (v : vec4) : mat4_mul_vec (RotationZ fzero) v = v.
Proof.
  pose proof (RotationZ_action float_ring inversesqrt_one fzero v) as H.
  cbv zeta in H. rewrite H, radians_zero, cos_zero, sin_zero.
  destruct v; cbn [v4x v4y v4z v4w]. f_equal; ring.
Qed.

(** X21.  In exact arithmetic, with cos 0 = 1 and sin 0 = 0: when the
    three angles are zero the model matrix scales each coordinate by
    its factor and then adds the position (times w); nothing is
    rotated or mixed between the axes. *)
Theorem model_matrix_without_rotation (scaleXYZ positionXYZ : vec3)
    (v : vec4) :
  mat4_mul_vec
    (ComposeModelMatrix scaleXYZ fzero fzero fzero positionXYZ) v =
  mkvec4
    (fadd (fmul (v3x scaleXYZ) (v4x v)) (fmul (v3x positionXYZ) (v4w v)))
    (fadd (fmul (v3y scaleXYZ) (v4y v)) (fmul (v3y positionXYZ) (v4w v)))
    (fadd (fmul (v3z scaleXYZ) (v4z v)) (fmul (v3z positionXYZ) (v4w v)))
    (v4w v).
Proof.
  rewrite ComposeModelMatrix_action.
  rewrite RotationZ_zero, RotationY_zero, RotationX_zero.
  rewrite (Translation_action float_ring), (Scale_action float_ring).
  reflexivity.
Qed.

End FurtherExact.

(** * The further properties on the sample scenes *)

Lemma full_registry_ok : registry_ok full_registry.
Proof. unfold registry_ok. vm_compute. split; discriminate. Qed.

Lemma prepared_scene_ok : registry_ok (self prepared_scene).
Proof. unfold registry_ok. vm_compute. split; discriminate. Qed.

Lemma every_file_loadable (f t : string) :
  In (f, t) (@scene_texture_files) -> loadable every_file f = true.
Proof. intros _. reflexivity. Qed.

Lemma FindTexture_total_witness :
  registry_ok two_textures /\
  (((forall i e, registered two_textures i e -> tag e <> "Logo") /\
    FindTextureSlot "Logo" two_textures = Ret (-1) /\
    FindTextureID "Logo" two_textures = Ret (-1))
   \/
   (exists i e,
      first_registered two_textures "Logo" i e /\
      0 <= i < m_loadedTextures two_textures /\
      FindTextureSlot "Logo" two_textures = Ret i /\
      FindTextureID "Logo" two_textures = Ret (int_of_GLuint (ID e)))).
Proof.
  split; [exact two_textures_ok|].
  apply (FindTexture_total "Logo" two_textures). exact two_textures_ok.
Defined.

Lemma CreateGLTexture_other_tags_witness :
  exists st',
    CreateGLTexture sample_files "logo.png" "Glass" two_textures =
      Ret (true, st') /\
    FindTextureSlot "Logo" st' = FindTextureSlot "Logo" two_textures /\
    FindTextureID "Logo" st' = FindTextureID "Logo" two_textures.
Proof.
  destruct (CreateGLTexture_registers sample_files "logo.png" "Glass"
              two_textures eq_refl) as [g Hg].
  { vm_compute. split; [discriminate|reflexivity]. }
  eexists. split; [exact Hg|].
  apply (CreateGLTexture_other_tags_unchanged sample_files "logo.png" "Glass"
           "Logo" true two_textures _ two_textures_ok Hg).
  right. discriminate.
Defined.

Lemma CreateGLTexture_failure_witness :
  loadable sample_files "gray.png" = false /\
  exists g,
    CreateGLTexture sample_files "gray.png" "Gray" full_registry =
      Ret (false, set_gl g full_registry) /\
    gl_names g = gl_fresh (gl full_registry) :: gl_names (gl full_registry).
Proof.
  split; [reflexivity|].
  destruct (CreateGLTexture_failure_effects sample_files "gray.png" "Gray"
              full_registry eq_refl) as (g & Hrun & _ & Himg).
  exists g. split; [exact Hrun|].
  exact (proj1 (Himg (mkimage 8 8 1) eq_refl)).
Defined.

Lemma CreateGLTexture_success_witness :
  exists st',
    CreateGLTexture sample_files "logo.png" "Glass" two_textures =
      Ret (true, st') /\
    m_loadedTextures st' = m_loadedTextures two_textures + 1 /\
    gl_units (gl st') !! gl_active (gl two_textures) = Some 0.
Proof.
  destruct (CreateGLTexture_registers sample_files "logo.png" "Glass"
              two_textures eq_refl) as [g Hg].
  { vm_compute. split; [discriminate|reflexivity]. }
  eexists. split; [exact Hg|].
  destruct (CreateGLTexture_success_effects sample_files "logo.png" "Glass"
              two_textures _ two_textures_ok Hg)
    as (Hn & _ & _ & _ & _ & _ & _ & _ & _ & Hu & _).
  split; [exact Hn|exact Hu].
Defined.

Lemma load_textures_in_order_witness :
  exists st',
    load_textures sample_files
      [("wood.jpg", "Wood"); ("gray.png", "Gray"); ("nothing.jpg", "None");
       ("logo.png", "Logo")] sample_scene =
      Ret ([true; false; false; true], st') /\
    map tag (take (Z.to_nat (m_loadedTextures st')) (m_textureIDs st')) =
      ["Wood"; "Logo"].
Proof.
  destruct (load_textures_registers_in_order sample_files
              [("wood.jpg", "Wood"); ("gray.png", "Gray");
               ("nothing.jpg", "None"); ("logo.png", "Logo")]
              sample_scene sample_scene_ok)
    as (st' & Hrun & _ & _ & Htags).
  { vm_compute. discriminate. }
  exists st'. split; [exact Hrun|exact Htags].
Defined.

Lemma load_textures_overflow_witness :
  registry_ok full_registry /\
  load_textures sample_files [("gray.png", "Gray"); ("logo.png", "Logo")]
    full_registry = Fault (OutOfBounds 16).
Proof.
  split; [exact full_registry_ok|].
  apply (load_textures_overflow sample_files
           [("gray.png", "Gray"); ("logo.png", "Logo")] full_registry
           full_registry_ok).
  vm_compute. reflexivity.
Defined.

Lemma BindGLTextures_frame_witness :
  registry_ok two_textures /\
  exists st',
    BindGLTextures two_textures = Ret st' /\
    gl_names (gl st') = gl_names (gl two_textures) /\
    gl_active (gl st') = 1.
Proof.
  split; [exact two_textures_ok|].
  destruct (BindGLTextures_frame_and_repeat two_textures two_textures_ok)
    as (st' & Hrun & _ & _ & Hnames & Hact & _).
  exists st'. split; [exact Hrun|]. split; [exact Hnames|].
  apply Hact. vm_compute. reflexivity.
Defined.

Lemma CreateGLTexture_after_bind_witness :
  exists st1 st2 e,
    BindGLTextures two_textures = Ret st1 /\
    registered st1 (m_loadedTextures two_textures - 1) e /\
    gl_units (gl st1) !! (m_loadedTextures two_textures - 1) = Some (ID e) /\
    CreateGLTexture sample_files "logo.png" "Glass" st1 = Ret (true, st2) /\
    registered st2 (m_loadedTextures two_textures - 1) e /\
    gl_units (gl st2) !! (m_loadedTextures two_textures - 1) = Some 0.
Proof.
  apply (CreateGLTexture_after_bind_unbinds_last_unit sample_files "logo.png"
           "Glass" two_textures two_textures_ok).
  - vm_compute. split; reflexivity.
  - reflexivity.
Defined.

Lemma DestroyGLTextures_keeps_tags_witness :
  registry_ok two_textures /\
  exists st',
    DestroyGLTextures two_textures = Ret st' /\
    FindTextureSlot "Logo" st' = FindTextureSlot "Logo" two_textures /\
    (forall i e', registered st' i e' ->
                  ~ In (ID e') (gl_names (gl two_textures))).
Proof.
  split; [exact two_textures_ok|].
  destruct (DestroyGLTextures_keeps_tags_loses_handles two_textures
              two_textures_ok) as (st' & Hrun & _ & _ & _ & Hslot & Hlost & _).
  exists st'. split; [exact Hrun|]. split; [apply Hslot|exact Hlost].
Defined.

Lemma texture_and_color_witness :
  m_pShaderManager two_textures = Some [] /\
  exists slot st1 st2 sh1 sh2,
    FindTextureSlot "Logo" two_textures = Ret slot /\
    SetShaderTexture "Logo" (@SetShaderColor ZFloat 1 1 1 1 two_textures) =
      Ret st1 /\
    m_pShaderManager st1 = Some sh1 /\
    current_uniform g_UseTextureName sh1 =
      Some (setIntValue g_UseTextureName 1) /\
    current_uniform g_ColorValueName sh1 =
      Some (setVec4Value g_ColorValueName (@mkvec4 ZFloat 1 1 1 1)) /\
    SetShaderTexture "Logo" two_textures = Ret st2 /\
    m_pShaderManager (@SetShaderColor ZFloat 1 1 1 1 st2) = Some sh2 /\
    current_uniform g_UseTextureName sh2 =
      Some (setIntValue g_UseTextureName 0) /\
    current_uniform g_TextureValueName sh2 =
      Some (setSampler2DValue g_TextureValueName slot).
Proof.
  split; [reflexivity|].
  apply (@texture_and_color_last_setter_wins ZFloat "Logo" 1 1 1 1
           two_textures [] two_textures_ok).
  reflexivity.
Defined.

Lemma SetShaderMaterial_null_witness :
  m_pShaderManager null_shader_scene = None /\
  SetShaderMaterial "Wood" leftover_material null_shader_scene =
    Ret null_shader_scene /\
  SetShaderMaterial "Wood" leftover_material
    (set_materials [paper_preset] null_shader_scene) =
    Fault NullDereference.
Proof.
  split; [reflexivity|]. split.
  - apply (proj1 (SetShaderMaterial_null_shader "Wood" leftover_material
                    null_shader_scene eq_refl)).
    reflexivity.
  - apply (proj2 (SetShaderMaterial_null_shader "Wood" leftover_material
                    (set_materials [paper_preset] null_shader_scene) eq_refl)).
    discriminate.
Defined.

Lemma PrepareScene_null_witness :
  m_pShaderManager (self null_render_state) = None /\
  @PrepareScene ZFloat ZLiterals every_file null_render_state =
    Fault NullDereference.
Proof.
  split; [reflexivity|].
  apply (proj2 (@PrepareScene_null_shader ZFloat ZLiterals every_file
                  null_render_state eq_refl)).
  - unfold registry_ok. vm_compute. split; discriminate.
  - vm_compute. discriminate.
Defined.

Lemma PrepareScene_prepares_witness :
  exists rs',
    @PrepareScene ZFloat ZLiterals every_file sample_render_state = Ret rs' /\
    m_loadedTextures (self rs') = 5 /\
    m_basicMeshes rs' =
      [LoadMesh PlaneMesh; LoadMesh BoxMesh;
       LoadMesh CylinderMesh; LoadMesh TorusMesh].
Proof.
  destruct (@PrepareScene_prepares ZFloat ZLiterals every_file
              sample_render_state [] sample_scene_ok eq_refl)
    as (rs' & Hrun & _ & Hn & _ & _ & _ & Hm).
  { vm_compute. discriminate. }
  exists rs'. split; [exact Hrun|]. split; [exact Hn|exact Hm].
Defined.

Lemma RenderScene_slots_witness :
  registry_ok (self prepared_scene) /\
  exists rs' calls,
    @RenderScene ZFloat ZLiterals (sample_vec3 0 0 0) (sample_vec3 0 0 0)
      leftover_material prepared_scene = Ret rs' /\
    self rs' =
      set_shader (Some (@scene_light_uniforms ZFloat ZLiterals ++ calls))
        (self prepared_scene) /\
    map Ret (sampler_values calls) =
      map (fun t => FindTextureSlot t (self prepared_scene))
          (texture_tags_of (@RenderScene_body ZFloat ZLiterals)).
Proof.
  split; [exact prepared_scene_ok|].
  destruct (@RenderScene_sets_looked_up_slots ZFloat ZLiterals
              (sample_vec3 0 0 0) (sample_vec3 0 0 0) leftover_material
              prepared_scene (@scene_light_uniforms ZFloat ZLiterals)
              prepared_scene_ok eq_refl)
    as (rs' & calls & Hrun & Hself & Hv & _).
  exists rs', calls. split; [exact Hrun|]. split; [exact Hself|exact Hv].
Defined.

Lemma RenderScene_null_witness :
  m_pShaderManager (self null_render_state) = None /\
  @RenderScene ZFloat ZLiterals (sample_vec3 0 0 0) (sample_vec3 0 0 0)
    leftover_material null_render_state =
    Ret (mkRenderState (self null_render_state)
           (m_basicMeshes null_render_state ++
            map DrawMesh (meshes_drawn_by (@RenderScene_body ZFloat ZLiterals)))).
Proof.
  split; [reflexivity|].
  apply (proj1 (@RenderScene_null_shader ZFloat ZLiterals (sample_vec3 0 0 0)
                  (sample_vec3 0 0 0) leftover_material null_render_state
                  eq_refl)).
  reflexivity.
Defined.

Lemma PrepareScene_then_RenderScene_witness :
  exists (rs1 rs2 : @RenderState ZFloat) (calls : list (@uniform_call ZFloat)),
    @PrepareScene ZFloat ZLiterals every_file sample_render_state = Ret rs1 /\
    @RenderScene ZFloat ZLiterals (sample_vec3 0 0 0) (sample_vec3 0 0 0)
      leftover_material rs1 = Ret rs2 /\
    (forall v, In v (sampler_values calls) ->
               0 <= v < m_loadedTextures (self rs1)).
Proof.
  destruct (@PrepareScene_then_RenderScene ZFloat ZLiterals every_file
              (sample_vec3 0 0 0) (sample_vec3 0 0 0) leftover_material
              sample_render_state [] sample_scene_ok eq_refl
              every_file_loadable)
    as (rs1 & rs2 & calls & Hp & Hr & _ & Hv & _).
  { vm_compute. discriminate. }
  exists rs1, rs2, calls. split; [exact Hp|]. split; [exact Hr|exact Hv].
Defined.

Lemma model_matrix_keeps_w_witness :
  @finversesqrt ZFloat 1 = 1 /\
  v4w (mat4_mul_vec
         (@ComposeModelMatrix ZFloat (sample_vec3 2 3 4) 90 180 270
            (sample_vec3 5 6 7))
         (@mkvec4 ZFloat 1 2 3 1)) = 1.
Proof.
  split; [reflexivity|].
  apply (@model_matrix_keeps_w ZFloat InitialRing.Zth eq_refl
           (sample_vec3 2 3 4) 90 180 270 (sample_vec3 5 6 7)
           (@mkvec4 ZFloat 1 2 3 1)).
Defined.

Lemma model_matrix_places_origin_witness :
  @finversesqrt ZFloat 1 = 1 /\
  mat4_mul_vec
    (@ComposeModelMatrix ZFloat (sample_vec3 2 3 4) 90 180 270
       (sample_vec3 5 6 7))
    (@mkvec4 ZFloat 0 0 0 1) = @mkvec4 ZFloat 5 6 7 1.
Proof.
  split; [reflexivity|].
  apply (@model_matrix_places_origin ZFloat InitialRing.Zth eq_refl
           (sample_vec3 2 3 4) 90 180 270 (sample_vec3 5 6 7)).
Defined.

Lemma model_matrix_without_rotation_witness :
  @fcos ZFloat 0 = 1 /\ @fsin ZFloat 0 = 0 /\
  mat4_mul_vec
    (@ComposeModelMatrix ZFloat (sample_vec3 2 3 4) 0 0 0 (sample_vec3 5 6 7))
    (@mkvec4 ZFloat 1 1 1 1) = @mkvec4 ZFloat 7 9 11 1.
Proof.
  split; [reflexivity|]. split; [reflexivity|].
  apply (@model_matrix_without_rotation ZFloat InitialRing.Zth eq_refl
           eq_refl eq_refl (sample_vec3 2 3 4) (sample_vec3 5 6 7)
           (@mkvec4 ZFloat 1 1 1 1)).
Defined.
